(** * SonnyVenueSite: the booking concurrency and lifecycle engine

    A shallow embedding of the route handlers and workers of the venue
    booking site (Next.js + Prisma + BullMQ + Stripe), and the properties
    its specification states about them.

    Conventions of the embedding:
    - a JavaScript [Date] holding a date-only value ([new Date("YYYY-MM-DD")],
      a [@db.Date] column) is its number of days since 1970-01-01, a [Z];
    - an instant ([Date.now()], [holdExpiresAt]) is a number of milliseconds,
      a [Z];
    - a Luxon [DateTime] built from an ISO date is the calendar triple it
      carries (year, month, day): the handlers are modelled for a venue zone
      in which every day of the calendar starts at a midnight of its own, as
      in the default zone, America/New_York; the module [Luxon] has the
      arithmetic of the library for any zone, and the section on half-open
      ranges relates the two;
    - a Prisma table is the list of its rows, a unique column is enforced by
      the operations that write the table;
    - amounts are integer cents, a [Z]; the products and the quotient of the
      pricing functions are rounded as JavaScript rounds them (doubles),
      sums and differences of amounts are taken below 2^53, where they are
      exact;
    - each handler reads the clock once: the instant [now] it is given. *)

From Stdlib Require Import ZArith List String Ascii Bool Lia DecimalString.
Import ListNotations.

Local Open Scope Z_scope.

(** ** lib/time.ts *)

Module Time.

(** The calendar fields of a Luxon [DateTime] at local midnight. *)
Record DateTime : Type := mkDateTime { year : Z; month : Z; day : Z }.

Definition isLeapYear (y : Z) : bool :=
  ((y mod 4 =? 0) && negb (y mod 100 =? 0)) || (y mod 400 =? 0).

Definition daysInMonth (y m : Z) : Z :=
  if m =? 2 then (if isLeapYear y then 29 else 28)
  else if (m =? 4) || (m =? 6) || (m =? 9) || (m =? 11) then 30
  else 31.

(** [DateTime.isValid] for a triple read from four, two and two digits. *)
Definition isValid (c : DateTime) : bool :=
  (0 <=? year c) && (year c <=? 9999) &&
  (1 <=? month c) && (month c <=? 12) &&
  (1 <=? day c) && (day c <=? daysInMonth (year c) (month c)).

Definition daysBeforeYear (y : Z) : Z :=
  365 * (y - 1) + (y - 1) / 4 - (y - 1) / 100 + (y - 1) / 400.

Definition daysBeforeMonth (y m : Z) : Z :=
  nth (Z.to_nat (m - 1)) [0; 31; 59; 90; 120; 151; 181; 212; 243; 273; 304; 334] 0
  + (if isLeapYear y && (2 <? m) then 1 else 0).

(** [valueOf()] of a date at midnight, in whole days since 1970-01-01.
    Two [DateTime]s of one zone at local midnight compare as their days do. *)
Definition epochDay (c : DateTime) : Z :=
  daysBeforeYear (year c) + daysBeforeMonth (year c) (month c) + day c - 1 - 719162.

(** [cur.plus({ days: 1 })]: calendar arithmetic, the next civil day. *)
Definition plusDay (c : DateTime) : DateTime :=
  if day c <? daysInMonth (year c) (month c)
  then mkDateTime (year c) (month c) (day c + 1)
  else if month c <? 12
       then mkDateTime (year c) (month c + 1) 1
       else mkDateTime (year c + 1) 1 1.

(** [start.plus({ months: 1 })] of a first of month. *)
Definition plusMonth (c : DateTime) : DateTime :=
  if month c <? 12
  then mkDateTime (year c) (month c + 1) (day c)
  else mkDateTime (year c + 1) 1 (day c).

(** Decimal digits. *)
Definition digitChar (n : Z) : ascii := ascii_of_nat (48 + Z.to_nat n).

Definition digitVal (c : ascii) : option Z :=
  let n := Z.of_nat (nat_of_ascii c) in
  if (48 <=? n) && (n <=? 57) then Some (n - 48) else None.

Definition pad2 (n : Z) : string :=
  String (digitChar (n / 10 mod 10)) (String (digitChar (n mod 10)) EmptyString).

Definition pad4 (n : Z) : string :=
  String (digitChar (n / 1000 mod 10))
    (String (digitChar (n / 100 mod 10)) (pad2 n)).

(** [dt.toISODate()], for the years 0000 to 9999. *)
Definition toISODate (c : DateTime) : string :=
  (pad4 (year c) ++ "-" ++ pad2 (month c) ++ "-" ++ pad2 (day c))%string.

Definition num2 (a b : ascii) : option Z :=
  match digitVal a, digitVal b with
  | Some x, Some y => Some (10 * x + y)
  | _, _ => None
  end.

Definition num4 (a b c d : ascii) : option Z :=
  match num2 a b, num2 c d with
  | Some x, Some y => Some (100 * x + y)
  | _, _ => None
  end.

(** [DateTime.fromISO(iso, { zone })] on the strings the request schemas let
    through ([/^\d{4}-\d{2}-\d{2}$/]); [None] is the invalid [DateTime]. *)
Definition fromISO (iso : string) : option DateTime :=
  match iso with
  | String y1 (String y2 (String y3 (String y4 (String "-"
      (String m1 (String m2 (String "-"
        (String d1 (String d2 EmptyString))))))))) =>
      match num4 y1 y2 y3 y4, num2 m1 m2, num2 d1 d2 with
      | Some y, Some m, Some d =>
          let c := mkDateTime y m d in
          if isValid c then Some c else None
      | _, _, _ => None
      end
  | _ => None
  end.

(** [new Date(iso)] for a string of the shape YYYY-MM-DD, under Node.js:
    midnight UTC of that date, in days.  V8 takes a month from 01 to 12 and a
    day from 01 to 31, and a day past the end of the month carries over into
    the next one (2025-02-30 is 2025-03-02); [None] is the Invalid Date. *)
Definition jsDate (iso : string) : option Z :=
  match iso with
  | String y1 (String y2 (String y3 (String y4 (String "-"
      (String m1 (String m2 (String "-"
        (String d1 (String d2 EmptyString))))))))) =>
      match num4 y1 y2 y3 y4, num2 m1 m2, num2 d1 d2 with
      | Some y, Some m, Some d =>
          if (1 <=? m) && (m <=? 12) && (1 <=? d) && (d <=? 31)
          then Some (epochDay (mkDateTime y m d))
          else None
      | _, _, _ => None
      end
  | _ => None
  end.

(** The civil date of a day number (the calendar fields of a UTC [Date]). *)
Definition civilFromDays (z : Z) : DateTime :=
  let z := z + 719468 in
  let era := z / 146097 in
  let doe := z - era * 146097 in
  let yoe := (doe - doe / 1460 + doe / 36524 - doe / 146096) / 365 in
  let doy := doe - (365 * yoe + yoe / 4 - yoe / 100) in
  let mp := (5 * doy + 2) / 153 in
  let d := doy - (153 * mp + 2) / 5 + 1 in
  let m := if mp <? 10 then mp + 3 else mp - 9 in
  mkDateTime (yoe + era * 400 + (if m <=? 2 then 1 else 0)) m d.

(** [d.toISOString().slice(0, 10)] of a date-only [Date]. *)
Definition isoOfDay (z : Z) : string := toISODate (civilFromDays z).

(** The [while (cur < end)] loop of [enumerateDates]; [fuel] bounds the number
    of iterations, [None] is a loop still running when the fuel is spent. *)
Fixpoint enumerateLoop (fuel : nat) (cur end_ : DateTime) (dates : list string)
  : option (list string) :=
  if epochDay cur <? epochDay end_ then
    match fuel with
    | O => None
    | S fuel' => enumerateLoop fuel' (plusDay cur) end_ (dates ++ [toISODate cur])
    end
  else Some dates.

(** [enumerateDates(startInclusiveISO, endExclusiveISO)], in a venue zone where
    every day of the calendar starts at a midnight of its own, away from the
    changes of the clock (America/New_York, the default, is one): there a
    [DateTime] at midnight is known by its calendar date, and two of them
    compare as their dates do.  [Luxon.enumerateDates] below is the same loop
    in any zone; the two agree in the zones just described.  A comparison with
    an invalid [DateTime] is false, so the loop body never runs then. *)
Definition enumerateDates (startInclusiveISO endExclusiveISO : string) : list string :=
  match fromISO startInclusiveISO, fromISO endExclusiveISO with
  | Some cur, Some end_ =>
      match enumerateLoop (Z.to_nat (epochDay end_ - epochDay cur)) cur end_ [] with
      | Some dates => dates
      | None => []
      end
  | _, _ => []
  end.

(** [monthBounds(year, month1to12)]. *)
Definition monthBounds (y m : Z) : string * string :=
  let start := mkDateTime y m 1 in
  let end_ := plusMonth start in
  (toISODate start, toISODate end_).

(** [Date.UTC(year, monthIndex, day)], in days: a year from 0 to 99 stands
    for 1900 + year, a month index or a day out of range carries over. *)
Definition DateUTC (year monthIndex day : Z) : Z :=
  let y := if (0 <=? year) && (year <=? 99) then 1900 + year else year in
  epochDay (mkDateTime (y + monthIndex / 12) (monthIndex mod 12 + 1) 1) + day - 1.

(** [dateOnlyToIsoUTC(d)] on a date-only [Date], for the years 0000 to 9999. *)
Definition dateOnlyToIsoUTC (d : Z) : string := toISODate (civilFromDays d).

End Time.

(** ** Luxon in the venue zone

    [lib/time.ts] builds its [DateTime]s in [venueZone()].  This is the
    arithmetic of the library on them ([fromObject], [adjustTime],
    [fixOffset], [tsToObj] and [objToLocalTS] of its [datetime.js]), for any
    zone: a [DateTime] is an instant and the offset of the zone that goes
    with it, the calendar fields are read off both. *)

Module Luxon.

(** [zone.offset(ts)]: the offset of the zone from UTC at an instant, in
    minutes (the IANA zone [venueZone()] names). *)
Definition Zone : Type := Z -> Z.

(** A valid [DateTime] of the zone: its instant [ts], in milliseconds, and its
    offset [o], in minutes. *)
Record t : Type := mk { ts : Z; o : Z }.

Definition dayMs : Z := 24 * 60 * 60 * 1000.

(** [fixOffset(localTS, o, tz)]: the instant of a local time, [o] being the
    first guess of the offset. *)
Definition fixOffset (localTS o : Z) (tz : Zone) : Z * Z :=
  let utcGuess := localTS - o * 60 * 1000 in
  let o2 := tz utcGuess in
  if o =? o2 then (utcGuess, o) else
  let utcGuess := utcGuess - (o2 - o) * 60 * 1000 in
  let o3 := tz utcGuess in
  if o2 =? o3 then (utcGuess, o2) else
  (localTS - Z.min o2 o3 * 60 * 1000, Z.max o2 o3).

(** [tsToObj(ts, offset)]: the calendar date, and the time of the day in
    milliseconds. *)
Definition tsToObj (ts offset : Z) : Time.DateTime * Z :=
  let ts := ts + offset * 60 * 1000 in
  (Time.civilFromDays (ts / dayMs), ts mod dayMs).

(** [objToLocalTS(obj)]; a day past the end of the month carries over. *)
Definition objToLocalTS (c : Time.DateTime) (time : Z) : Z :=
  Time.epochDay c * dayMs + time.

(** [DateTime.fromISO(iso, { zone })] on the strings [Time.fromISO] reads;
    [now] is [Settings.now()], the offset at which is the first guess. *)
Definition fromISO (tz : Zone) (now : Z) (iso : string) : option t :=
  match Time.fromISO iso with
  | Some c =>
      let (tsFinal, offsetFinal) := fixOffset (objToLocalTS c 0) (tz now) tz in
      Some (mk tsFinal offsetFinal)
  | None => None
  end.

(** [dt.plus({ days: 1 })]: the next day of the calendar at the same local
    time, looked up in the zone. *)
Definition plusDay (tz : Zone) (dt : t) : t :=
  let (c, time) := tsToObj (ts dt) (o dt) in
  let day :=
    Z.min (Time.day c) (Time.daysInMonth (Time.year c) (Time.month c)) + 1 in
  let (ts', _) :=
    fixOffset (objToLocalTS (Time.mkDateTime (Time.year c) (Time.month c) day) time) (o dt) tz in
  if ts' =? ts dt then dt else mk ts' (tz ts').

(** [dt.toISODate()] *)
Definition toISODate (dt : t) : string := Time.toISODate (fst (tsToObj (ts dt) (o dt))).

(** The loop of [enumerateDates]: [cur < end] compares the instants. *)
Fixpoint enumerateLoop (fuel : nat) (tz : Zone) (cur end_ : t) (dates : list string)
  : option (list string) :=
  if ts cur <? ts end_ then
    match fuel with
    | O => None
    | S fuel' => enumerateLoop fuel' tz (plusDay tz cur) end_ (dates ++ [toISODate cur])
    end
  else Some dates.

(** [enumerateDates(startInclusiveISO, endExclusiveISO)] in the zone [tz];
    [now1] and [now2] are the instants of the two [fromISO], [None] is a loop
    that outlasts the fuel. *)
Definition enumerateDates (fuel : nat) (tz : Zone) (now1 now2 : Z)
  (startInclusiveISO endExclusiveISO : string) : option (list string) :=
  match fromISO tz now1 startInclusiveISO, fromISO tz now2 endExclusiveISO with
  | Some cur, Some end_ => enumerateLoop fuel tz cur end_ []
  | _, _ => Some []
  end.

(** [isoDateToDateOnly(iso)]: the [Date] at midnight UTC of the calendar
    fields the [DateTime] has in the zone; the fields of an invalid
    [DateTime] are [NaN], which gives the Invalid Date, [None]. *)
Definition isoDateToDateOnly (tz : Zone) (now : Z) (iso : string) : option Z :=
  match fromISO tz now iso with
  | Some d =>
      let c := fst (tsToObj (ts d) (o d)) in
      Some (Time.DateUTC (Time.year c) (Time.month c - 1) (Time.day c))
  | None => None
  end.

End Luxon.

(** ** lib/pricing.ts *)

Module Pricing.

Inductive DepositType : Type := FIXED | PERCENT.

(** JavaScript numbers are IEEE-754 doubles.  An integer is written as it is;
    the result of a division is written [(m, e)], which stands for m * 2^e.

    [nearestDouble n d], for [0 < d]: the double nearest to the quotient n / d,
    ties to the even mantissa (the rounding of every arithmetic operation of
    JavaScript), for a quotient in the range of the normal doubles. *)
Definition nearestDouble (n d : Z) : Z * Z :=
  if n =? 0 then (0, 0) else
  let a := Z.abs n in
  (* the binary exponent of a / d: floor(log2 (a / d)) *)
  let k := Z.log2 a - Z.log2 d in
  let fits := if 0 <=? k then d * 2 ^ k <=? a else d <=? a * 2 ^ (- k) in
  let lg := if fits then k else k - 1 in
  (* 53 significant bits *)
  let e := lg - 52 in
  let num := a * 2 ^ Z.max (- e) 0 in
  let den := d * 2 ^ Z.max e 0 in
  let q := num / den in
  let r := num mod den in
  let m :=
    if 2 * r <? den then q
    else if den <? 2 * r then q + 1
    else if Z.even q then q else q + 1 in
  (Z.sgn n * m, e).

(** The integer a double is, when it is one. *)
Definition integerOf (x : Z * Z) : Z :=
  let (m, e) := x in
  if 0 <=? e then m * 2 ^ e else m / 2 ^ (- e).

(** [a * b] on two integers. *)
Definition mulDouble (a b : Z) : Z := integerOf (nearestDouble (a * b) 1).

(** [p / d] on an integer [p] and a positive integer [d]. *)
Definition divDouble (p d : Z) : Z * Z := nearestDouble p d.

(** [Math.round(x)]: the integer nearest to [x], the upper one of two. *)
Definition Math_round (x : Z * Z) : Z :=
  let (m, e) := x in
  if 0 <=? e then m * 2 ^ e else (2 * m + 2 ^ (- e)) / 2 ^ (- e + 1).

(** [quoteRange(startDate, endDateExclusive)] with [dayPriceCents()] = [perDay]:
    the triple [{ days, perDay, total }]. *)
Definition quoteRange (perDay : Z) (startDate endDateExclusive : string) : Z * Z * Z :=
  let days := Z.of_nat (List.length (Time.enumerateDates startDate endDateExclusive)) in
  let total := mulDouble days perDay in
  (days, perDay, total).

(** [computeDeposit(total, depositType, value)] on integers (a product beyond
    the largest double, 2^1024, is not modelled). *)
Definition computeDeposit (total : Z) (depositType : DepositType) (value : Z) : Z :=
  match depositType with
  | FIXED => Z.min value total
  | PERCENT =>
      let pct := Math_round (divDouble (mulDouble total value) 100) in
      Z.min pct total
  end.

End Pricing.

(** ** The relational model (prisma/schema.prisma) *)

Inductive BookingStatus : Type := HELD | CONFIRMED | CANCELLED | REFUNDED.
Inductive BookedDayStatus : Type := Day_HELD | Day_BOOKED.
Inductive PaymentType : Type := DEPOSIT | REMAINDER.
Inductive PaymentStatus : Type := pending | succeeded | failed.

Definition BookingStatus_eqb (a b : BookingStatus) : bool :=
  match a, b with
  | HELD, HELD | CONFIRMED, CONFIRMED | CANCELLED, CANCELLED | REFUNDED, REFUNDED => true
  | _, _ => false
  end.

Definition BookedDayStatus_eqb (a b : BookedDayStatus) : bool :=
  match a, b with
  | Day_HELD, Day_HELD | Day_BOOKED, Day_BOOKED => true
  | _, _ => false
  end.

Definition PaymentType_eqb (a b : PaymentType) : bool :=
  match a, b with
  | DEPOSIT, DEPOSIT | REMAINDER, REMAINDER => true
  | _, _ => false
  end.

Definition PaymentStatus_eqb (a b : PaymentStatus) : bool :=
  match a, b with
  | pending, pending | succeeded, succeeded | failed, failed => true
  | _, _ => false
  end.

(** Columns that no handler below reads back (row ids of day, payment and
    refund rows, currency, timestamps of creation) are left out. *)

Module Policy.
Record t : Type := mk {
  depositType : Pricing.DepositType;
  depositValue : Z;
  remainderDaysBeforeStart : Z;
  cancelCutoffHours : Z }.
End Policy.

Module Customer.
Record t : Type := mk {
  id : string;
  email : string;
  name : option string;
  phone : option string;
  stripeCustomerId : option string }.
End Customer.

Module Booking.
Record t : Type := mk {
  id : string;
  customerId : string;
  startDate : Z;
  endDateExclusive : Z;
  status : BookingStatus;
  depositAmount : Z;
  totalAmount : Z;
  pricingSnapshot : Z * Z * Z;
  stripeCustomerId : option string }.

Definition with_status (s : BookingStatus) (b : t) : t :=
  mk (id b) (customerId b) (startDate b) (endDateExclusive b) s
     (depositAmount b) (totalAmount b) (pricingSnapshot b) (stripeCustomerId b).

Definition with_stripeCustomerId (c : option string) (b : t) : t :=
  mk (id b) (customerId b) (startDate b) (endDateExclusive b) (status b)
     (depositAmount b) (totalAmount b) (pricingSnapshot b) c.
End Booking.

Module BookedDay.
Record t : Type := mk {
  bookingId : string;
  day : Z;
  status : BookedDayStatus;
  holdExpiresAt : option Z }.
End BookedDay.

Module Payment.
Record t : Type := mk {
  bookingId : string;
  stripePaymentIntentId : string;
  amount : Z;
  type : PaymentType;
  status : PaymentStatus }.

Definition with_status (s : PaymentStatus) (p : t) : t :=
  mk (bookingId p) (stripePaymentIntentId p) (amount p) (type p) s.
End Payment.

Module Refund.
Record t : Type := mk {
  bookingId : string;
  stripeRefundId : string;
  amount : Z;
  reason : string }.
End Refund.

Module Blackout.
Record t : Type := mk { day : Z; reason : option string }.
End Blackout.

(** The database: one list of rows per table; [policy] is the row of id
    ['default'] of the Policy table, when there is one. *)
Record DB : Type := mkDB {
  bookedDay : list BookedDay.t;
  booking : list Booking.t;
  customer : list Customer.t;
  payment : list Payment.t;
  refund : list Refund.t;
  blackout : list Blackout.t;
  policy : option Policy.t }.

Definition set_bookedDay (v : list BookedDay.t) (d : DB) : DB :=
  mkDB v (booking d) (customer d) (payment d) (refund d) (blackout d) (policy d).
Definition set_booking (v : list Booking.t) (d : DB) : DB :=
  mkDB (bookedDay d) v (customer d) (payment d) (refund d) (blackout d) (policy d).
Definition set_customer (v : list Customer.t) (d : DB) : DB :=
  mkDB (bookedDay d) (booking d) v (payment d) (refund d) (blackout d) (policy d).
Definition set_payment (v : list Payment.t) (d : DB) : DB :=
  mkDB (bookedDay d) (booking d) (customer d) v (refund d) (blackout d) (policy d).
Definition set_refund (v : list Refund.t) (d : DB) : DB :=
  mkDB (bookedDay d) (booking d) (customer d) (payment d) v (blackout d) (policy d).
Definition set_policy (v : option Policy.t) (d : DB) : DB :=
  mkDB (bookedDay d) (booking d) (customer d) (payment d) (refund d) (blackout d) v.

Definition emptyDB : DB := mkDB [] [] [] [] [] [] None.

(** A call that returns or throws an [Error] with a message. *)
Inductive Result (A : Type) : Type :=
| Ok (a : A)
| Throw (message : string).
Arguments Ok {A} a.
Arguments Throw {A} message.

(** *** Prisma queries *)

Module Prisma.

Section Table.
Context {A : Type}.

(** [deleteMany({ where })] *)
Definition deleteMany (where_ : A -> bool) (rows : list A) : list A :=
  filter (fun r => negb (where_ r)) rows.

(** [updateMany({ where, data })] *)
Definition updateMany (where_ : A -> bool) (data : A -> A) (rows : list A) : list A :=
  map (fun r => if where_ r then data r else r) rows.

(** [findMany({ where })] *)
Definition findMany (where_ : A -> bool) (rows : list A) : list A := filter where_ rows.

(** [count({ where })] *)
Definition count (where_ : A -> bool) (rows : list A) : Z :=
  Z.of_nat (List.length (filter where_ rows)).

(** [findUnique({ where })] on a unique column *)
Definition findUnique (where_ : A -> bool) (rows : list A) : option A := find where_ rows.

(** [upsert({ where, update, create })] on a unique column *)
Definition upsert (where_ : A -> bool) (update : A -> A) (create : A) (rows : list A) : list A :=
  if existsb where_ rows then updateMany where_ update rows else rows ++ [create].

End Table.

(** Modelled from the spec: the schema file prisma/schema.prisma is absent;
    the uniqueness constraint on the [day] column of BookedDay is the one the
    spec names as the concurrency guard of hold creation ("using a uniqueness
    constraint on [date]", insert-or-fail).
    [bookedDay.createMany({ data, skipDuplicates: true })]: each row is
    inserted unless a row with its [day] is already in the table; the result is
    [{ count }], the number of rows inserted, and the table. *)
Fixpoint createManySkipDuplicates (data : list BookedDay.t) (rows : list BookedDay.t)
  : nat * list BookedDay.t :=
  match data with
  | [] => (O, rows)
  | r :: data' =>
      if existsb (fun x => BookedDay.day x =? BookedDay.day r) rows
      then createManySkipDuplicates data' rows
      else let (n, rows') := createManySkipDuplicates data' (rows ++ [r]) in (S n, rows')
  end.

(** [$transaction(async (tx) => ...)]: the writes made through [tx] are kept
    when the callback returns and undone when it throws.  A query that the
    callback sends through the global client is not part of the transaction:
    [getOrCreateDefaultPolicy] is the only such query, and the Policy table
    is written by nothing else, so a rollback restores every table but
    [policy]. *)
Definition transaction {A : Type} (callback : DB -> Result A * DB) (d : DB) : Result A * DB :=
  match callback d with
  | (Ok a, d') => (Ok a, d')
  | (Throw m, d') => (Throw m, set_policy (policy d') d)
  end.

End Prisma.

(** ** lib/queue.ts *)

Inductive JobNames : Type := hold_expire | reminder_email | remainder_charge | email_send.

Module Job.
Record t : Type := mk {
  name : JobNames;
  bookingId : string;
  template : option string;
  delay : Z;
  jobId : string }.
End Job.

(** [jobsQueue.add(name, data, { delay, jobId })]: BullMQ does not add a job
    whose id is the id of a job already in the queue. *)
Definition enqueue (name : JobNames) (bookingId : string) (template : option string)
  (delayMs : Z) (jobId : string) (jobs : list Job.t) : list Job.t :=
  if existsb (fun j => String.eqb (Job.jobId j) jobId) jobs then jobs
  else jobs ++ [Job.mk name bookingId template delayMs jobId].

(** The state the handlers act on: the database and the job queue. *)
Record State : Type := mkState { db : DB; jobs : list Job.t }.

Definition emptyState : State := mkState emptyDB [].

(** ** The collaborators outside the repository *)

Module Stripe.
Record PaymentIntent : Type := mkPaymentIntent {
  id : string;
  amount : Z;
  metadata_bookingId : option string;
  metadata_type : option PaymentType }.

Inductive Event : Type :=
| checkout_session_completed (bookingId paymentIntentId : string) (customer : option string)
| payment_intent_succeeded (pi : PaymentIntent)
| payment_intent_payment_failed (pi : PaymentIntent)
| other.
End Stripe.

(** The environment variables the handlers read, and the library calls whose
    results the handlers only pass on.  [STRIPE_SECRET_KEY] is set: [getStripe()]
    returns the client (it throws before any handler code runs otherwise). *)
Record Externals : Type := mkExternals {
  HOLD_TTL_MINUTES : Z;
  DAY_PRICE_CENTS : Z;
  DEPOSIT_CENTS : Z;
  REMAINDER_DAYS : Z;
  CANCEL_CUTOFF_HOURS : Z;
  STRIPE_WEBHOOK_SECRET : option string;
  (** zod's [z.string().email()] *)
  isEmail : string -> bool;
  (** [DateTime.fromJSDate(d, { zone }).startOf('day').toMillis()] *)
  startOfDay : Z -> Z;
  (** [DateTime.fromJSDate(d, { zone }).minus({ days }).startOf('day').set({ hour }).toMillis()] *)
  minusDaysAtHour : Z -> Z -> Z -> Z;
  (** [stripe.webhooks.constructEvent(body, sig, secret)]; [None] when it throws *)
  constructEvent : string -> string -> string -> option Stripe.Event;
  (** [stripe.refunds.create({ payment_intent, amount }).id] *)
  refundsCreate : string -> Z -> string }.

(** [`${n}`] for an integer [n]. *)
Definition numberToString (n : Z) : string := NilZero.string_of_int (Z.to_int n).

(** ** lib/policy.ts *)

(** [getOrCreateDefaultPolicy()]; it reads and writes through the global
    client. *)
Definition getOrCreateDefaultPolicy (E : Externals) (d : DB) : Policy.t * DB :=
  match policy d with
  | Some existing => (existing, d)
  | None =>
      let created :=
        Policy.mk Pricing.FIXED (DEPOSIT_CENTS E) (REMAINDER_DAYS E) (CANCEL_CUTOFF_HOURS E) in
      (created, set_policy (Some created) d)
  end.

(** ** lib/validation.ts *)

Definition isDigit (c : ascii) : bool :=
  let n := nat_of_ascii c in (48 <=? n)%nat && (n <=? 57)%nat.

(** [/^\d{4}-\d{2}-\d{2}$/] *)
Definition dateRegex (s : string) : bool :=
  match s with
  | String y1 (String y2 (String y3 (String y4 (String sep1
      (String m1 (String m2 (String sep2
        (String d1 (String d2 EmptyString))))))))) =>
      isDigit y1 && isDigit y2 && isDigit y3 && isDigit y4 && Ascii.eqb sep1 "-"
      && isDigit m1 && isDigit m2 && Ascii.eqb sep2 "-" && isDigit d1 && isDigit d2
  | _ => false
  end.

(** [MonthQuerySchema] on an integer year and month. *)
Definition MonthQuerySchema (y m : Z) : bool :=
  (1970 <=? y) && (y <=? 2100) && (1 <=? m) && (m <=? 12).

(** [RangeSchema] *)
Definition RangeSchema (startDate endDateExclusive : string) : bool :=
  dateRegex startDate && dateRegex endDateExclusive.

Definition msPerDay : Z := 24 * 60 * 60 * 1000.

(** ** app/api/holds/route.ts *)

Module Holds.

Module CustomerInput.
Record t : Type := mk { email : string; name : option string; phone : option string }.
End CustomerInput.

Module Body.
Record t : Type := mk {
  startDate : string; endDateExclusive : string; customer : CustomerInput.t }.
End Body.

(** The JSON answer and its HTTP status: [Created] is
    [{ ok: true, bookingId, holdExpiresAt }], [Rejected] carries the status
    and the [error] text. *)
Inductive Response : Type :=
| Created (bookingId : string) (holdExpiresAt : Z)
| Rejected (status : Z) (error : string).

Definition HoldRequestSchema (E : Externals) (b : Body.t) : bool :=
  RangeSchema (Body.startDate b) (Body.endDateExclusive b) && isEmail E (CustomerInput.email (Body.customer b)).

(** [tx.customer.upsert({ where: { email }, update, create })]; an [undefined]
    field of [update] leaves the column as it is.  [newId] is the id the
    database generates for a created row. *)
Definition customerUpsert (c : CustomerInput.t) (newId : string) (rows : list Customer.t)
  : Customer.t * list Customer.t :=
  match Prisma.findUnique (fun r => String.eqb (Customer.email r) (CustomerInput.email c)) rows with
  | Some existing =>
      let data r :=
        Customer.mk (Customer.id r) (Customer.email r)
          (match CustomerInput.name c with Some n => Some n | None => Customer.name r end)
          (match CustomerInput.phone c with Some n => Some n | None => Customer.phone r end)
          (Customer.stripeCustomerId r) in
      (data existing,
       Prisma.updateMany (fun r => String.eqb (Customer.email r) (CustomerInput.email c)) data rows)
  | None =>
      let created :=
        Customer.mk newId (CustomerInput.email c) (CustomerInput.name c) (CustomerInput.phone c) None in
      (created, rows ++ [created])
  end.

(** [daysList.map((d) => ({ bookingId, day: new Date(d), status: 'HELD', holdExpiresAt }))];
    [None] when some [new Date(d)] is an Invalid Date, which Prisma refuses. *)
Fixpoint createInput (bookingId : string) (holdExpiresAt : Z) (daysList : list string)
  : option (list BookedDay.t) :=
  match daysList with
  | [] => Some []
  | d :: rest =>
      match Time.jsDate d, createInput bookingId holdExpiresAt rest with
      | Some day, Some rows => Some (BookedDay.mk bookingId day Day_HELD (Some holdExpiresAt) :: rows)
      | _, _ => None
      end
  end.

Definition expiredHold (now : Z) (d : BookedDay.t) : bool :=
  BookedDayStatus_eqb (BookedDay.status d) Day_HELD &&
  match BookedDay.holdExpiresAt d with Some t => t <? now | None => false end.

(** The callback of [prisma.$transaction] in [POST]; [newCustomerId] and
    [newBookingId] are the ids the database generates for the rows created. *)
Definition holdTransaction (E : Externals) (now holdExpiresAt : Z) (b : Body.t)
  (daysList : list string) (newCustomerId newBookingId : string) (tx : DB)
  : Result string * DB :=
  (* Clear expired holds upfront *)
  let tx := set_bookedDay (Prisma.deleteMany (expiredHold now) (bookedDay tx)) tx in
  (* Blackout check *)
  match Time.jsDate (Body.startDate b), Time.jsDate (Body.endDateExclusive b) with
  | Some gte, Some lt =>
      let blackoutCount :=
        Prisma.count (fun x => (gte <=? Blackout.day x) && (Blackout.day x <? lt)) (blackout tx) in
      if 0 <? blackoutCount then (Throw "Dates include blackouts", tx) else
      let '(days, perDay, total) :=
        Pricing.quoteRange (DAY_PRICE_CENTS E) (Body.startDate b) (Body.endDateExclusive b) in
      let (policy_, tx) := getOrCreateDefaultPolicy E tx in
      let deposit :=
        Pricing.computeDeposit total (Policy.depositType policy_) (Policy.depositValue policy_) in
      (* Customer upsert *)
      let (cust, customers) := customerUpsert (Body.customer b) newCustomerId (customer tx) in
      let tx := set_customer customers tx in
      (* Create booking first *)
      let booking_ :=
        Booking.mk newBookingId (Customer.id cust) gte lt HELD deposit total
          (days, perDay, total) None in
      let tx := set_booking (booking tx ++ [booking_]) tx in
      (* Reserve days *)
      match createInput (Booking.id booking_) holdExpiresAt daysList with
      | None => (Throw "Invalid value for argument `day`", tx)
      | Some data =>
          let (count, rows) := Prisma.createManySkipDuplicates data (bookedDay tx) in
          let tx := set_bookedDay rows tx in
          if negb (count =? List.length daysList)%nat
          then (Throw "Some days are no longer available", tx)
          else (Ok (Booking.id booking_), tx)
      end
  | _, _ => (Throw "Invalid value for argument `gte`", tx)
  end.

(** [POST(req)], on a body that is a JSON object with the three fields. *)
Definition POST (E : Externals) (now : Z) (newCustomerId newBookingId : string)
  (b : Body.t) (s : State) : Response * State :=
  if negb (HoldRequestSchema E b) then (Rejected 400 "Invalid body", s) else
  let daysList := Time.enumerateDates (Body.startDate b) (Body.endDateExclusive b) in
  if (List.length daysList =? 0)%nat then (Rejected 400 "Empty range", s) else
  let ttlMinutes := HOLD_TTL_MINUTES E in
  let holdExpiresAt := now + ttlMinutes * 60 * 1000 in
  match Prisma.transaction
          (holdTransaction E now holdExpiresAt b daysList newCustomerId newBookingId) (db s) with
  | (Ok bookingId, d) =>
      (* Enqueue hold expiration *)
      let q := enqueue hold_expire bookingId None (ttlMinutes * 60 * 1000)
                 ("hold-expire:" ++ bookingId) (jobs s) in
      (Created bookingId holdExpiresAt, mkState d q)
  | (Throw message, d) =>
      (Rejected 409 (if String.eqb message "" then "Hold failed" else message), mkState d (jobs s))
  end.

End Holds.

(** ** app/api/stripe/webhook/route.ts *)

Module Webhook.

(** The request: the [stripe-signature] header and the raw body. *)
Record Request : Type := mkRequest { signature : option string; body : string }.

(** [Error status error] is [{ error }] with that status; [Received] is
    [{ received: true }]. *)
Inductive Response : Type :=
| Error (status : Z) (error : string)
| Received.

(** A string that JavaScript takes for true: present and not empty. *)
Definition truthy (o : option string) : option string :=
  match o with
  | Some s => if String.eqb s "" then None else Some s
  | None => None
  end.

Definition reminderOffsets : list Z := [14; 7; 2; 1].

(** [where: { id: bookingId }] *)
Definition hasId (bookingId : string) (r : Booking.t) : bool :=
  String.eqb (Booking.id r) bookingId.

(** [where: { stripePaymentIntentId }] *)
Definition hasIntent (paymentIntentId : string) (r : Payment.t) : bool :=
  String.eqb (Payment.stripePaymentIntentId r) paymentIntentId.

(** [where: { bookingId, status: 'HELD' }] *)
Definition heldDayOf (bookingId : string) (r : BookedDay.t) : bool :=
  String.eqb (BookedDay.bookingId r) bookingId
  && BookedDayStatus_eqb (BookedDay.status r) Day_HELD.

(** [data: { status: 'BOOKED', holdExpiresAt: null }] *)
Definition booked (r : BookedDay.t) : BookedDay.t :=
  BookedDay.mk (BookedDay.bookingId r) (BookedDay.day r) Day_BOOKED None.

(** [data: { status: 'CONFIRMED', stripeCustomerId: customerId ?? undefined }] *)
Definition confirmed (customerId : option string) (r : Booking.t) : Booking.t :=
  let r := Booking.with_status CONFIRMED r in
  match customerId with
  | Some c => Booking.with_stripeCustomerId (Some c) r
  | None => r
  end.

(** The block "Schedule remainder charge and reminders" for a booking that
    starts on day [startDate]. *)
Definition scheduleJobs (E : Externals) (now : Z) (bookingId : string) (startDate : Z)
  (policy_ : Policy.t) (q : list Job.t) : list Job.t :=
  let start := startDate * msPerDay in
  let chargeAt := minusDaysAtHour E start (Policy.remainderDaysBeforeStart policy_) 10 in
  let delayMs := Z.max (chargeAt - now) 0 in
  let q := enqueue remainder_charge bookingId None delayMs
             ("remainder-charge:" ++ bookingId) q in
  fold_left (fun q n =>
      let sendAt := minusDaysAtHour E start n 9 in
      let dly := Z.max (sendAt - now) 0 in
      enqueue reminder_email bookingId (Some ("reminder-" ++ numberToString n ++ "d")%string) dly
        ("reminder-" ++ numberToString n ++ "d:" ++ bookingId) q)
    reminderOffsets q.

(** The transaction of [case 'checkout.session.completed']. *)
Definition confirmTransaction (bookingId paymentIntentId : string)
  (customerId : option string) (tx : DB) : Result unit * DB :=
  match Prisma.findUnique (hasId bookingId) (booking tx) with
  | None => (Ok tt, tx)
  | Some booking_ =>
      (* Create payment record (unique on PI id enforces idempotency) *)
      let tx :=
        set_payment
          (Prisma.upsert (hasIntent paymentIntentId) (Payment.with_status succeeded)
             (Payment.mk bookingId paymentIntentId (Booking.depositAmount booking_)
                DEPOSIT succeeded)
             (payment tx)) tx in
      if BookingStatus_eqb (Booking.status booking_) CONFIRMED then (Ok tt, tx) (* idempotent *)
      else
        (* Confirm booking and convert days to BOOKED *)
        let tx :=
          set_bookedDay (Prisma.updateMany (heldDayOf bookingId) booked (bookedDay tx)) tx in
        let tx :=
          set_booking (Prisma.updateMany (hasId bookingId) (confirmed customerId) (booking tx)) tx in
        (Ok tt, tx)
  end.

(** [case 'checkout.session.completed'] *)
Definition checkoutSessionCompleted (E : Externals) (now : Z)
  (bookingId paymentIntentId : string) (customerId : option string) (s : State) : State :=
  let (_, d) :=
    Prisma.transaction (confirmTransaction bookingId paymentIntentId customerId) (db s) in
  (* Schedule remainder charge and reminders *)
  let booking_ := Prisma.findUnique (hasId bookingId) (booking d) in
  let (policy_, d) := getOrCreateDefaultPolicy E d in
  match booking_ with
  | Some b => mkState d (scheduleJobs E now bookingId (Booking.startDate b) policy_ (jobs s))
  | None => mkState d (jobs s)
  end.

(** [prisma.payment.upsert] of the two [payment_intent] cases; the created row
    refers to its booking, so the creation throws when there is none. *)
Definition paymentUpsert (pi : Stripe.PaymentIntent) (bookingId : string)
  (st : PaymentStatus) (d : DB) : Result DB :=
  let where_ r := String.eqb (Payment.stripePaymentIntentId r) (Stripe.id pi) in
  if existsb where_ (payment d)
  then Ok (set_payment (Prisma.updateMany where_ (Payment.with_status st) (payment d)) d)
  else if existsb (fun r => String.eqb (Booking.id r) bookingId) (booking d)
  then
    let created :=
      Payment.mk bookingId (Stripe.id pi) (Stripe.amount pi)
        (match Stripe.metadata_type pi with Some t => t | None => REMAINDER end) st in
    Ok (set_payment (payment d ++ [created]) d)
  else Throw "Foreign key constraint failed on the field: `bookingId`".

(** [case 'payment_intent.succeeded'] *)
Definition paymentIntentSucceeded (pi : Stripe.PaymentIntent) (s : State) : State :=
  match truthy (Stripe.metadata_bookingId pi) with
  | None => s
  | Some bookingId =>
      match paymentUpsert pi bookingId succeeded (db s) with
      | Ok d => mkState d (jobs s)
      | Throw _ => s
      end
  end.

(** The number of failed remainder payments of a booking:
    [prisma.payment.count({ where: { bookingId, type: 'REMAINDER', status: 'failed' } })] *)
Definition failedRemainders (bookingId : string) (d : DB) : Z :=
  Prisma.count
    (fun r => String.eqb (Payment.bookingId r) bookingId
              && PaymentType_eqb (Payment.type r) REMAINDER
              && PaymentStatus_eqb (Payment.status r) failed)
    (payment d).

Definition retryJobId (failures : Z) (bookingId : string) : string :=
  ("remainder-charge-retry" ++ numberToString failures ++ ":" ++ bookingId)%string.

(** [case 'payment_intent.payment_failed'] *)
Definition paymentIntentPaymentFailed (pi : Stripe.PaymentIntent) (s : State) : State :=
  match truthy (Stripe.metadata_bookingId pi) with
  | None => s
  | Some bookingId =>
      match paymentUpsert pi bookingId failed (db s) with
      | Throw _ => s
      | Ok d =>
          (* simple retry: up to 3 attempts with backoff *)
          let failures := failedRemainders bookingId d in
          if failures <? 3 then
            let delay := if failures =? 1 then 6 * 60 * 60 * 1000 else 24 * 60 * 60 * 1000 in
            mkState d (enqueue remainder_charge bookingId None delay
                         (retryJobId failures bookingId) (jobs s))
          else mkState d (jobs s)
      end
  end.

(** The [switch (event.type)] of [POST]: the part that acts on the state. *)
Definition handleEvent (E : Externals) (now : Z) (event : Stripe.Event) (s : State) : State :=
  match event with
  | Stripe.checkout_session_completed bookingId paymentIntentId customerId =>
      checkoutSessionCompleted E now bookingId paymentIntentId customerId s
  | Stripe.payment_intent_succeeded pi => paymentIntentSucceeded pi s
  | Stripe.payment_intent_payment_failed pi => paymentIntentPaymentFailed pi s
  | Stripe.other => s
  end.

(** [POST(req)] *)
Definition POST (E : Externals) (now : Z) (req : Request) (s : State) : Response * State :=
  match truthy (signature req) with
  | None => (Error 400 "Missing signature", s)
  | Some sig =>
      match truthy (STRIPE_WEBHOOK_SECRET E) with
      | None => (Error 500 "Missing webhook secret", s)
      | Some webhookSecret =>
          match constructEvent E (body req) sig webhookSecret with
          | None => (Error 400 "Invalid signature", s)
          | Some event => (Received, handleEvent E now event s)
          end
      end
  end.

End Webhook.

(** ** emails/templates.ts and lib/emails.ts *)

Module Emails.

Record Attachment : Type := mkAttachment {
  filename : string; content : string; contentType : option string }.

(** The argument of [resend.emails.send]. *)
Record Email : Type := mkEmail {
  from : string;
  to : string;
  subject : string;
  html : string;
  attachments : option (list Attachment) }.

(** The double quote of the [href] attributes. *)
Definition dquote : string := String (ascii_of_nat 34) EmptyString.

(** [reminderTemplate(params)]: the subject and the body. *)
Definition reminderTemplate (bookingId startDate manageUrl : string) : string * string :=
  let subject := ("Reminder: upcoming booking on " ++ startDate)%string in
  let html :=
    ("<p>Your booking starts on " ++ startDate ++ ". Manage here: <a href=" ++ dquote
       ++ manageUrl ++ dquote ++ ">" ++ manageUrl ++ "</a></p>")%string in
  (subject, html).

(** [sendEmail(to, subject, html, attachments)]: the email handed to Resend;
    [EMAIL_FROM] is the environment variable. *)
Definition sendEmail (EMAIL_FROM : option string) (to subject html : string)
  (attachments : option (list Attachment)) : Email :=
  let from :=
    match Webhook.truthy EMAIL_FROM with
    | Some f => f
    | None => "Sonny Venue <no-reply@example.com>"%string
    end in
  mkEmail from to subject html attachments.

(** [sendReminder(params)] *)
Definition sendReminder (EMAIL_FROM : option string) (email bookingId startDate manageUrl : string)
  : Email :=
  let (subject, html) := reminderTemplate bookingId startDate manageUrl in
  sendEmail EMAIL_FROM email subject html None.

End Emails.

(** ** workers/index.ts *)

Module Worker.

Definition activeHold (now : Z) (d : BookedDay.t) : bool :=
  BookedDayStatus_eqb (BookedDay.status d) Day_HELD &&
  match BookedDay.holdExpiresAt d with Some t => now <? t | None => false end.

(** [handleHoldExpire(job)] with [job.data = { bookingId }] *)
Definition handleHoldExpire (now : Z) (bookingId : string) (s : State) : State :=
  let (_, d) :=
    Prisma.transaction (fun tx =>
      match Prisma.findUnique (fun r => String.eqb (Booking.id r) bookingId) (booking tx) with
      | None => (Ok tt, tx)
      | Some booking_ =>
          if negb (BookingStatus_eqb (Booking.status booking_) HELD) then (Ok tt, tx) else
          let days :=
            Prisma.findMany (fun r => String.eqb (BookedDay.bookingId r) (Booking.id booking_))
              (bookedDay tx) in
          let anyActiveHolds := existsb (activeHold now) days in
          if anyActiveHolds then (Ok tt, tx) (* Not yet expired *) else
          let tx :=
            set_bookedDay
              (Prisma.deleteMany
                 (fun r => String.eqb (BookedDay.bookingId r) (Booking.id booking_)
                           && BookedDayStatus_eqb (BookedDay.status r) Day_HELD)
                 (bookedDay tx)) tx in
          let tx :=
            set_booking
              (Prisma.updateMany (fun r => String.eqb (Booking.id r) (Booking.id booking_))
                 (Booking.with_status CANCELLED) (booking tx)) tx in
          (Ok tt, tx)
      end) (db s) in
  mkState d (jobs s).

(** [handleRemainderCharge(job)]; [charge] is what
    [stripe.paymentIntents.create] answers: the id and status of the payment
    intent, or [None] when the call throws. *)
Definition handleRemainderCharge (charge : option (string * PaymentStatus))
  (bookingId : string) (s : State) : State :=
  match Prisma.findUnique (fun r => String.eqb (Booking.id r) bookingId) (booking (db s)) with
  | None => s
  | Some booking_ =>
      if negb (BookingStatus_eqb (Booking.status booking_) CONFIRMED) then s else
      let payments :=
        Prisma.findMany (fun r => String.eqb (Payment.bookingId r) (Booking.id booking_))
          (payment (db s)) in
      let alreadyCharged :=
        existsb (fun p => PaymentType_eqb (Payment.type p) REMAINDER
                          && PaymentStatus_eqb (Payment.status p) succeeded) payments in
      if alreadyCharged then s else
      let amount := Booking.totalAmount booking_ - Booking.depositAmount booking_ in
      if amount <=? 0 then s else
      match Booking.stripeCustomerId booking_ with
      | None => s
      | Some _ =>
          match charge with
          | None => s
          | Some (pi_id, pi_status) =>
              (* [prisma.payment.create] throws on a payment-intent id already
                 recorded; the [catch] logs and goes on *)
              if existsb (fun r => String.eqb (Payment.stripePaymentIntentId r) pi_id)
                   (payment (db s))
              then s
              else
                mkState
                  (set_payment
                     (payment (db s)
                      ++ [Payment.mk (Booking.id booking_) pi_id amount REMAINDER pi_status])
                     (db s))
                  (jobs s)
          end
      end
  end.

(** [handleReminderEmail(job)] with [job.data = { bookingId, template }]: the
    email it sends, [None] when it returns without sending one.  The
    Notification row it writes afterwards is read by no handler and is left
    out; [booking.customer] is a required relation. *)
Definition handleReminderEmail (EMAIL_FROM NEXT_PUBLIC_BASE_URL : option string)
  (bookingId : string) (s : State) : option Emails.Email :=
  match Prisma.findUnique (fun r => String.eqb (Booking.id r) bookingId) (booking (db s)) with
  | None => None
  | Some booking_ =>
      if negb (BookingStatus_eqb (Booking.status booking_) CONFIRMED) then None else
      match Prisma.findUnique (fun r => String.eqb (Customer.id r) (Booking.customerId booking_))
              (customer (db s)) with
      | None => None
      | Some customer_ =>
          let baseUrl :=
            match Webhook.truthy NEXT_PUBLIC_BASE_URL with
            | Some u => u
            | None => "http://localhost:3000"%string
            end in
          let manageUrl := (baseUrl ++ "/manage/" ++ Booking.id booking_)%string in
          Some (Emails.sendReminder EMAIL_FROM (Customer.email customer_) (Booking.id booking_)
                  (Time.isoOfDay (Booking.startDate booking_)) manageUrl)
      end
  end.

(** The processor of [new Worker('jobs', async (job) => ...)]: the state after
    the job and the email it sent.  [now] is the instant the job runs at,
    [charge] what Stripe answers to a remainder charge. *)
Definition processJob (EMAIL_FROM NEXT_PUBLIC_BASE_URL : option string) (now : Z)
  (charge : option (string * PaymentStatus)) (job : Job.t) (s : State)
  : State * option Emails.Email :=
  match Job.name job with
  | hold_expire => (handleHoldExpire now (Job.bookingId job) s, None)
  | remainder_charge => (handleRemainderCharge charge (Job.bookingId job) s, None)
  | reminder_email =>
      (s, handleReminderEmail EMAIL_FROM NEXT_PUBLIC_BASE_URL (Job.bookingId job) s)
  | email_send => (s, None)
  end.

End Worker.

(** ** app/api/availability/route.ts *)

Module Availability.

(** [taken.add(x)] on a [Set<string>] kept in insertion order. *)
Definition setAdd (x : string) (taken : list string) : list string :=
  if existsb (String.eqb x) taken then taken else taken ++ [x].

Definition inRange (gte lt day : Z) : bool := (gte <=? day) && (day <? lt).

(** [d.status === 'BOOKED' || (d.status === 'HELD' && d.holdExpiresAt && d.holdExpiresAt > now)] *)
Definition takenDay (now : Z) (d : BookedDay.t) : bool :=
  BookedDayStatus_eqb (BookedDay.status d) Day_BOOKED
  || (BookedDayStatus_eqb (BookedDay.status d) Day_HELD
      && match BookedDay.holdExpiresAt d with Some t => now <? t | None => false end).

Inductive MonthResponse : Type :=
| MonthError (status : Z) (error : string)
| Month (year month : Z) (unavailable : list string).

(** [GET(req)] with the query [year], [month] read as integers. *)
Definition GET (now : Z) (year month : Z) (s : State) : MonthResponse * State :=
  if negb (MonthQuerySchema year month) then (MonthError 400 "Invalid query", s) else
  let (startISO, endISO) := Time.monthBounds year month in
  match Time.jsDate startISO, Time.jsDate endISO with
  | Some gte, Some lt =>
      (* Fetch booked/held days and blackouts *)
      let days := Prisma.findMany (fun r => inRange gte lt (BookedDay.day r)) (bookedDay (db s)) in
      let blackouts := Prisma.findMany (fun r => inRange gte lt (Blackout.day r)) (blackout (db s)) in
      let taken :=
        fold_left (fun taken d =>
          (* consider held days as taken only if not expired *)
          if takenDay now d then setAdd (Time.isoOfDay (BookedDay.day d)) taken else taken)
          days [] in
      let taken :=
        fold_left (fun taken b => setAdd (Time.isoOfDay (Blackout.day b)) taken) blackouts taken in
      (Month year month taken, s)
  | _, _ => (MonthError 500 "Invalid value for argument `gte`", s)
  end.

Inductive RangeResponse : Type :=
| RangeError (status : Z) (error : string)
| RangeFree
| RangeConflicts (conflicts : list string).

(** [POST(req)] on a body with the two date fields. *)
Definition POST (now : Z) (startDate endDateExclusive : string) (s : State)
  : RangeResponse * State :=
  if negb (RangeSchema startDate endDateExclusive) then (RangeError 400 "Invalid body", s) else
  match Time.jsDate startDate, Time.jsDate endDateExclusive with
  | Some gte, Some lt =>
      let conflicts :=
        Prisma.findMany (fun r => inRange gte lt (BookedDay.day r) && takenDay now r)
          (bookedDay (db s)) in
      let blackouts := Prisma.findMany (fun r => inRange gte lt (Blackout.day r)) (blackout (db s)) in
      if (0 <? List.length conflicts)%nat || (0 <? List.length blackouts)%nat
      then (RangeConflicts (map (fun r => Time.isoOfDay (BookedDay.day r)) conflicts
                            ++ map (fun r => Time.isoOfDay (Blackout.day r)) blackouts), s)
      else (RangeFree, s)
  | _, _ => (RangeError 500 "Invalid value for argument `gte`", s)
  end.

End Availability.

(** ** app/api/bookings/[bookingId]/cancel/route.ts *)

Module Cancel.

Inductive Response : Type :=
| Error (status : Z) (error : string)
| Cancelled (refunded : Z).

(** [payments.filter((p) => p.status === 'succeeded').reduce((s, p) => s + p.amount, 0)] *)
Definition paidOf (payments : list Payment.t) : Z :=
  fold_left (fun s p => s + Payment.amount p)
    (filter (fun p => PaymentStatus_eqb (Payment.status p) succeeded) payments) 0.

(** [refundable] of a booking with these payments. *)
Definition refundableOf (depositAmount : Z) (payments : list Payment.t) : Z :=
  Z.max 0 (paidOf payments - depositAmount).

(** The [for (const pay of remainderPayments)] loop: the amount refunded so far
    and the Refund rows written. *)
Fixpoint refundLoop (E : Externals) (bookingId : string) (refundable : Z)
  (remainderPayments : list Payment.t) (refunded : Z) (refunds : list Refund.t)
  : Z * list Refund.t :=
  match remainderPayments with
  | [] => (refunded, refunds)
  | pay :: rest =>
      if refundable <=? refunded then (refunded, refunds) (* break *)
      else
        let toRefund := Z.min (refundable - refunded) (Payment.amount pay) in
        let r := refundsCreate E (Payment.stripePaymentIntentId pay) toRefund in
        refundLoop E bookingId refundable rest (refunded + toRefund)
          (refunds ++ [Refund.mk bookingId r toRefund "requested_by_customer"])
  end.

(** [POST(_req, { params: { bookingId } })]; the Stripe refunds are taken to
    succeed. *)
Definition POST (E : Externals) (now : Z) (bookingId : string) (s : State) : Response * State :=
  match Prisma.findUnique (fun r => String.eqb (Booking.id r) bookingId) (booking (db s)) with
  | None => (Error 404 "Not found", s)
  | Some booking_ =>
      if negb (BookingStatus_eqb (Booking.status booking_) CONFIRMED)
      then (Error 400 "Only confirmed bookings can be cancelled", s)
      else
        let payments :=
          Prisma.findMany (fun r => String.eqb (Payment.bookingId r) (Booking.id booking_))
            (payment (db s)) in
        let (policy_, d) := getOrCreateDefaultPolicy E (db s) in
        let start := startOfDay E (Booking.startDate booking_ * msPerDay) in
        let cutoff := start - Policy.cancelCutoffHours policy_ * (60 * 60 * 1000) in
        if cutoff <? now then (Error 400 "Cancellation window closed", mkState d (jobs s)) else
        (* Compute refundable (paid - deposit) *)
        let refundable := refundableOf (Booking.depositAmount booking_) payments in
        let (refunded, refunds) :=
          if 0 <? refundable then
            (* Prefer refunding from remainder payment(s) *)
            let remainderPayments :=
              filter (fun p => PaymentType_eqb (Payment.type p) REMAINDER
                               && PaymentStatus_eqb (Payment.status p) succeeded) payments in
            refundLoop E (Booking.id booking_) refundable remainderPayments 0 (refund d)
          else (0, refund d) in
        let d := set_refund refunds d in
        let (_, d) :=
          Prisma.transaction (fun tx =>
            let tx :=
              set_bookedDay
                (Prisma.deleteMany
                   (fun r => String.eqb (BookedDay.bookingId r) (Booking.id booking_))
                   (bookedDay tx)) tx in
            let tx :=
              set_booking
                (Prisma.updateMany (fun r => String.eqb (Booking.id r) (Booking.id booking_))
                   (Booking.with_status CANCELLED) (booking tx)) tx in
            (Ok tt, tx)) d in
        (Cancelled refunded, mkState d (jobs s))
  end.

End Cancel.

(** ** app/(public)/manage/[bookingId]/page.tsx *)

Module ManageBookingPage.

(** [paid], [remainderDue], [remainderPaid] and [remainderOutstanding] of the
    page, from the booking and its payments. *)
Definition remainderDue (b : Booking.t) : Z :=
  Z.max (Booking.totalAmount b - Booking.depositAmount b) 0.

Definition remainderPaid (b : Booking.t) (payments : list Payment.t) : Z :=
  Z.max (Cancel.paidOf payments - Booking.depositAmount b) 0.

Definition remainderOutstanding (b : Booking.t) (payments : list Payment.t) : Z :=
  Z.max (remainderDue b - remainderPaid b payments) 0.

End ManageBookingPage.

(** ** app/api/admin/blackouts/route.ts *)

Module Blackouts.

Inductive Response : Type :=
| Error (status : Z) (error : string)
| Done.

(** [POST(req)] on a body [{ day, reason }]; the [day] column is unique
    ([DELETE] finds a blackout by it with [findUnique]). *)
Definition POST (day : string) (reason : option string) (s : State) : Response * State :=
  if negb (dateRegex day) then (Error 400 "Invalid body", s) else
  match Time.jsDate day with
  | None => (Error 400 "Invalid value for argument `day`", s)
  | Some d =>
      if existsb (fun r => Blackout.day r =? d) (blackout (db s))
      then (Error 400 "Unique constraint failed on the fields: (`day`)", s)
      else
        (Done,
         mkState
           (mkDB (bookedDay (db s)) (booking (db s)) (customer (db s)) (payment (db s))
              (refund (db s)) (blackout (db s) ++ [Blackout.mk d reason]) (policy (db s)))
           (jobs s))
  end.

(** [DELETE(req)] with the query [day] *)
Definition DELETE (day : string) (s : State) : Response * State :=
  match Time.jsDate day with
  | None => (Error 500 "Invalid value for argument `day`", s)
  | Some d =>
      match Prisma.findUnique (fun r => Blackout.day r =? d) (blackout (db s)) with
      | None => (Done, s)
      | Some _ =>
          (Done,
           mkState
             (mkDB (bookedDay (db s)) (booking (db s)) (customer (db s)) (payment (db s))
                (refund (db s))
                (Prisma.deleteMany (fun r => Blackout.day r =? d) (blackout (db s)))
                (policy (db s)))
             (jobs s))
      end
  end.

End Blackouts.

(** ** app/api/checkout/route.ts *)

Module Checkout.

Inductive Response : Type :=
| Error (status : Z) (error : string)
| Url.

(** [POST(req)] on a body [{ bookingId }]; [newStripeCustomer] is the id
    [stripe.customers.create] answers when the customer has none yet. *)
Definition POST (newStripeCustomer : string) (bookingId : string) (s : State)
  : Response * State :=
  match Prisma.findUnique (fun r => String.eqb (Booking.id r) bookingId) (booking (db s)) with
  | None => (Error 404 "Not found", s)
  | Some booking_ =>
      if negb (BookingStatus_eqb (Booking.status booking_) HELD)
      then (Error 400 "Invalid state", s)
      else
        match Prisma.findUnique
                (fun r => String.eqb (Customer.id r) (Booking.customerId booking_))
                (customer (db s)) with
        | None => (Error 500 "Cannot read properties of null", s)
        | Some customer_ =>
            match Webhook.truthy (Booking.stripeCustomerId booking_),
                  Webhook.truthy (Customer.stripeCustomerId customer_) with
            | None, None =>
                (* Ensure Stripe customer exists *)
                let d := db s in
                let d :=
                  set_customer
                    (Prisma.updateMany
                       (fun r => String.eqb (Customer.id r) (Booking.customerId booking_))
                       (fun r => Customer.mk (Customer.id r) (Customer.email r) (Customer.name r)
                                   (Customer.phone r) (Some newStripeCustomer))
                       (customer d)) d in
                let d :=
                  set_booking
                    (Prisma.updateMany
                       (fun r => String.eqb (Booking.id r) (Booking.id booking_))
                       (Booking.with_stripeCustomerId (Some newStripeCustomer))
                       (booking d)) d in
                (Url, mkState d (jobs s))
            | _, _ => (Url, s)
            end
        end
  end.

End Checkout.

(** ** app/api/admin/refunds/route.ts *)

Module AdminRefunds.

Inductive Response : Type :=
| Error (status : Z) (error : string)
| Done.

(** [POST(req)] on a body [{ bookingId, amountCents }]; [refundId] is the id
    of the refund Stripe creates on the latest succeeded payment. *)
Definition POST (refundId : string) (bookingId : string) (amountCents : Z) (s : State)
  : Response * State :=
  if negb (0 <? amountCents) then (Error 400 "Invalid body", s) else
  match Prisma.findUnique (fun r => String.eqb (Booking.id r) bookingId) (booking (db s)) with
  | None => (Error 404 "Not found", s)
  | Some booking_ =>
      let succeeded_ :=
        filter (fun p => PaymentStatus_eqb (Payment.status p) succeeded)
          (Prisma.findMany (fun r => String.eqb (Payment.bookingId r) (Booking.id booking_))
             (payment (db s))) in
      if (List.length succeeded_ =? 0)%nat then (Error 400 "No payments", s) else
      (Done,
       mkState (set_refund (refund (db s) ++ [Refund.mk bookingId refundId amountCents "admin"])
                  (db s))
         (jobs s))
  end.

End AdminRefunds.

(** ** The system as a transition system *)

(** One request or one job, handled to its end: the handlers run one at a
    time, as transactions serialised by the database. *)
Inductive Step (E : Externals) : State -> State -> Prop :=
| step_createHold now c k b s :
    Step E s (snd (Holds.POST E now c k b s))
| step_webhook now req s :
    Step E s (snd (Webhook.POST E now req s))
| step_holdExpire now bookingId s :
    Step E s (Worker.handleHoldExpire now bookingId s)
| step_remainderCharge charge bookingId s :
    Step E s (Worker.handleRemainderCharge charge bookingId s)
| step_cancel now bookingId s :
    Step E s (snd (Cancel.POST E now bookingId s))
| step_availability now year month s :
    Step E s (snd (Availability.GET now year month s))
| step_checkRange now startDate endDateExclusive s :
    Step E s (snd (Availability.POST now startDate endDateExclusive s))
| step_blackoutCreate day reason s :
    Step E s (snd (Blackouts.POST day reason s))
| step_blackoutDelete day s :
    Step E s (snd (Blackouts.DELETE day s))
| step_checkout newStripeCustomer bookingId s :
    Step E s (snd (Checkout.POST newStripeCustomer bookingId s))
| step_adminRefund refundId bookingId amountCents s :
    Step E s (snd (AdminRefunds.POST refundId bookingId amountCents s)).

(** The states the site can be in, from the empty database and queue. *)
Inductive Reachable (E : Externals) : State -> Prop :=
| reachable_empty : Reachable E emptyState
| reachable_step s s' : Reachable E s -> Step E s s' -> Reachable E s'.

(** ** Vocabulary of the properties *)

(** The [n] civil days from [cur] on. *)
Fixpoint daysFrom (n : nat) (cur : Time.DateTime) : list Time.DateTime :=
  match n with
  | O => []
  | S k => cur :: daysFrom k (Time.plusDay cur)
  end.

(** The [n] day numbers from [z] on. *)
Fixpoint zseq (z : Z) (n : nat) : list Z :=
  match n with
  | O => []
  | S k => z :: zseq (z + 1) k
  end.

(** A civil date: month and day in range, whatever the year. *)
Definition isCivil (c : Time.DateTime) : bool :=
  (1 <=? Time.month c) && (Time.month c <=? 12) && (1 <=? Time.day c)
  && (Time.day c <=? Time.daysInMonth (Time.year c) (Time.month c)).

(** The mutual-exclusion invariant: no two rows of BookedDay (each is HELD or
    BOOKED) have the same date. *)
Definition uniqueDays (s : State) : Prop :=
  NoDup (map BookedDay.day (bookedDay (db s))).

(** No two Payment rows carry the same payment-intent id. *)
Definition uniquePayments (s : State) : Prop :=
  NoDup (map Payment.stripePaymentIntentId (payment (db s))).

(** No two jobs of the queue carry the same job id. *)
Definition uniqueJobIds (s : State) : Prop :=
  NoDup (map Job.jobId (jobs s)).

(** A BOOKED day carries no hold expiry ([holdExpiry] is "present only when
    HELD"). *)
Definition bookedCleared (s : State) : Prop :=
  forall r, In r (bookedDay (db s)) ->
    BookedDay.status r = Day_BOOKED -> BookedDay.holdExpiresAt r = None.

(** The Policy row exists as soon as a day was ever reserved: only hold
    creation inserts days, and it reads or creates the policy first. *)
Definition policySeeded (s : State) : Prop :=
  bookedDay (db s) <> [] -> policy (db s) <> None.

(** The invariant of the reachable states. *)
Definition Inv (s : State) : Prop :=
  uniqueDays s /\ uniquePayments s /\ uniqueJobIds s /\ bookedCleared s /\ policySeeded s.

(** Two requested ranges overlap: some date is enumerated for both. *)
Definition overlapping (b1 b2 : Holds.Body.t) : Prop :=
  exists d,
    In d (Time.enumerateDates (Holds.Body.startDate b1) (Holds.Body.endDateExclusive b1)) /\
    In d (Time.enumerateDates (Holds.Body.startDate b2) (Holds.Body.endDateExclusive b2)).

(** The rows of BookedDay that belong to a booking. *)
Definition daysOf (bookingId : string) (s : State) : list BookedDay.t :=
  filter (fun r => String.eqb (BookedDay.bookingId r) bookingId) (bookedDay (db s)).

Definition statusOf (bookingId : string) (s : State) : option BookingStatus :=
  option_map Booking.status
    (Prisma.findUnique (fun r => String.eqb (Booking.id r) bookingId) (booking (db s))).

(** The policy a handler works with: the row of the table, or the default
    row it creates. *)
Definition thePolicy (E : Externals) (d : DB) : Policy.t :=
  fst (getOrCreateDefaultPolicy E d).

(** The rows a request asks to insert: one HELD row per day number. *)
Definition holdRows (bookingId : string) (holdExpiresAt : Z) (z : Z) (n : nat)
  : list BookedDay.t :=
  map (fun d => BookedDay.mk bookingId d Day_HELD (Some holdExpiresAt)) (zseq z n).

Definition blackoutsIn (gte lt : Z) (d : DB) : Z :=
  Prisma.count (fun x => (gte <=? Blackout.day x) && (Blackout.day x <? lt)) (blackout d).

(** The Booking row a request creates. *)
Definition heldBooking (E : Externals) (newCustomerId newBookingId : string) (b : Holds.Body.t)
  (gte lt : Z) (d : DB) : Booking.t :=
  let days := Z.of_nat (Z.to_nat (lt - gte)) in
  let total := Pricing.mulDouble days (DAY_PRICE_CENTS E) in
  let policy_ := thePolicy E d in
  Booking.mk newBookingId
    (Customer.id (fst (Holds.customerUpsert (Holds.Body.customer b) newCustomerId (customer d))))
    gte lt HELD
    (Pricing.computeDeposit total (Policy.depositType policy_) (Policy.depositValue policy_))
    total (days, DAY_PRICE_CENTS E, total) None.

(** The ids of the five jobs [Webhook.scheduleJobs] asks for. *)
Definition confirmJobIds (bookingId : string) : list string :=
  ("remainder-charge:" ++ bookingId)%string
  :: map (fun n => ("reminder-" ++ numberToString n ++ "d:" ++ bookingId)%string)
       Webhook.reminderOffsets.

(** The sum of the amounts of a list of rows. *)
Definition totalOf {A} (amount : A -> Z) (l : list A) : Z :=
  fold_right (fun r acc => amount r + acc) 0 l.

(** A zone in which every day of the calendar starts at a midnight of its
    own: the offsets of the zone differ by less than a day, and the offset at
    the midnight of a day is the same whichever offset of the zone the
    midnight is first looked up with (the clock does not change that close to
    midnight). *)
Definition regularZone (tz : Luxon.Zone) : Prop :=
  (forall t t', Z.abs (tz t - tz t') < 24 * 60) /\
  (forall d t t',
     tz (d * Luxon.dayMs - tz t * 60 * 1000) = tz (d * Luxon.dayMs - tz t' * 60 * 1000)).

(** The offset of a zone at the midnight that starts day [d], and the
    [DateTime] of the zone at that midnight. *)
Definition offsetOfDay (tz : Luxon.Zone) (d : Z) : Z :=
  tz (d * Luxon.dayMs - tz 0 * 60 * 1000).

Definition midnight (tz : Luxon.Zone) (d : Z) : Luxon.t :=
  Luxon.mk (d * Luxon.dayMs - offsetOfDay tz d * 60 * 1000) (offsetOfDay tz d).

(** ** Sample data

    A configuration and a few states the properties are exercised on: the
    venue in UTC, the default prices, and a Stripe library that accepts the
    signature ["v1=good"] only. *)

Definition sampleE : Externals :=
  mkExternals 15 50000 20000 14 48 (Some "whsec_test"%string)
    (fun _ => true)
    (fun ms => ms - ms mod msPerDay)
    (fun ms days hour => (ms - ms mod msPerDay) - days * msPerDay + hour * (60 * 60 * 1000))
    (fun body sig secret =>
       if String.eqb sig "v1=good"
       then Some (Stripe.checkout_session_completed body "pi_1" None)
       else None)
    (fun pi _ => ("re_" ++ pi)%string).

(** America/New_York in 2025: UTC-5, and UTC-4 from 9 March, 2:00, to
    2 November, 2:00. *)
Definition newYork2025 : Luxon.Zone :=
  fun t => if (1741503600000 <=? t) && (t <? 1762063200000) then -240 else -300.

(** Pacific/Apia at the end of 2011, when the zone left out 30 December: UTC-10
    until the end of the 29th, UTC+14 from then to 1 April 2012, UTC+13 after. *)
Definition apia2011 : Luxon.Zone :=
  fun t => if t <? 1325239200000 then -600 else if t <? 1333202400000 then 840 else 780.

Definition sampleBody (startDate endDateExclusive : string) : Holds.Body.t :=
  Holds.Body.mk startDate endDateExclusive
    (Holds.CustomerInput.mk "ann@example.com" (Some "Ann"%string) None).

(** After Ann's hold of 10 to 12 March 2025, made at instant 1000. *)
Definition sampleHeld : State :=
  snd (Holds.POST sampleE 1000 "cus_1" "bk_1" (sampleBody "2025-03-10" "2025-03-13") emptyState).

(** After her deposit was paid. *)
Definition sampleConfirmed : State :=
  Webhook.checkoutSessionCompleted sampleE 2000 "bk_1" "pi_1" (Some "cus_stripe_1"%string) sampleHeld.

(** After the remainder was charged. *)
Definition samplePaid : State :=
  Webhook.paymentIntentSucceeded
    (Stripe.mkPaymentIntent "pi_2" 130000 (Some "bk_1"%string) (Some REMAINDER)) sampleConfirmed.

(** The failures of a list of payment intents, handled in order. *)
Definition failures (pis : list Stripe.PaymentIntent) (s : State) : State :=
  fold_left (fun s pi => Webhook.paymentIntentPaymentFailed pi s) pis s.

(** The queue holds a job with this id. *)
Definition hasJob (k : string) (q : list Job.t) : bool :=
  existsb (fun j => String.eqb (Job.jobId j) k) q.

(** A BOOKED row carries no hold expiry. *)
Definition cleared (rows : list BookedDay.t) : Prop :=
  forall r, In r rows -> BookedDay.status r = Day_BOOKED -> BookedDay.holdExpiresAt r = None.

(** The two backoff delays of the remainder-charge retries. *)
Definition sixHours : Z := 6 * 60 * 60 * 1000.
Definition oneDay : Z := 24 * 60 * 60 * 1000.

(** A [payment_intent.payment_failed] payload for a remainder payment of a
    booking. *)
Definition isRemainderFailure (b : string) (pi : Stripe.PaymentIntent) : Prop :=
  Webhook.truthy (Stripe.metadata_bookingId pi) = Some b /\
  match Stripe.metadata_type pi with Some t => t | None => REMAINDER end = REMAINDER.

(** No Payment row carries the id of this payment intent yet. *)
Definition freshIntent (pi : Stripe.PaymentIntent) (s : State) : Prop :=
  existsb (fun r => String.eqb (Payment.stripePaymentIntentId r) (Stripe.id pi))
    (payment (db s)) = false.

(** The dates the availability queries report for the days [gte] to [lt - 1]:
    those of a BOOKED day, of a HELD day whose hold expires after [now], or of
    a blackout. *)
Definition unavailableIn (now gte lt : Z) (s : State) (iso : string) : Prop :=
  (exists r, In r (bookedDay (db s)) /\ gte <= BookedDay.day r < lt /\
             BookedDay.status r = Day_BOOKED /\ iso = Time.isoOfDay (BookedDay.day r)) \/
  (exists r t, In r (bookedDay (db s)) /\ gte <= BookedDay.day r < lt /\
               BookedDay.status r = Day_HELD /\ BookedDay.holdExpiresAt r = Some t /\
               now < t /\ iso = Time.isoOfDay (BookedDay.day r)) \/
  (exists x, In x (blackout (db s)) /\ gte <= Blackout.day x < lt /\
             iso = Time.isoOfDay (Blackout.day x)).

(** The state without the HELD days whose hold is over. *)
Definition withoutExpired (now : Z) (s : State) : State :=
  mkState (set_bookedDay (filter (Availability.takenDay now) (bookedDay (db s))) (db s)) (jobs s).

(** * Properties *)

(** ** The calendar *)

Module TimeFacts.
Import Time.

Lemma isValid_civil c : isValid c = true -> isCivil c = true.
Proof.
  unfold isValid, isCivil. rewrite !andb_true_iff. tauto.
Qed.

Lemma isValid_iff c :
  isValid c = true <-> isCivil c = true /\ 0 <= year c <= 9999.
Proof.
  unfold isValid, isCivil. rewrite !andb_true_iff, !Z.leb_le. tauto.
Qed.

Lemma isLeapYear_spec y :
  isLeapYear y = true <-> (y mod 4 = 0 /\ y mod 100 <> 0) \/ y mod 400 = 0.
Proof.
  unfold isLeapYear.
  rewrite orb_true_iff, andb_true_iff, negb_true_iff, !Z.eqb_eq, Z.eqb_neq. tauto.
Qed.

Lemma daysBeforeYear_succ y :
  daysBeforeYear (y + 1) = daysBeforeYear y + 365 + (if isLeapYear y then 1 else 0).
Proof.
  unfold daysBeforeYear.
  replace (y + 1 - 1) with y by lia.
  destruct (isLeapYear y) eqn:L.
  - apply isLeapYear_spec in L. Z.div_mod_to_equations. lia.
  - assert (~ ((y mod 4 = 0 /\ y mod 100 <> 0) \/ y mod 400 = 0)) as N
      by (rewrite <- isLeapYear_spec; congruence).
    Z.div_mod_to_equations. lia.
Qed.

Lemma isCivil_iff c :
  isCivil c = true <-> 1 <= month c <= 12 /\ 1 <= day c <= daysInMonth (year c) (month c).
Proof.
  unfold isCivil. rewrite !andb_true_iff, !Z.leb_le. tauto.
Qed.

Lemma epochDay_plusDay c :
  isCivil c = true -> epochDay (plusDay c) = epochDay c + 1.
Proof.
  destruct c as [y m d]. rewrite isCivil_iff. cbn [year month day].
  intros [Hm Hd]. unfold plusDay, epochDay. cbn [year month day].
  destruct (d <? daysInMonth y m) eqn:Hlt.
  - cbn [year month day]. lia.
  - apply Z.ltb_ge in Hlt. assert (d = daysInMonth y m) as -> by lia. clear Hlt Hd.
    destruct (m <? 12) eqn:H12; cbn [year month day].
    + apply Z.ltb_lt in H12.
      assert (daysBeforeMonth y (m + 1) = daysBeforeMonth y m + daysInMonth y m) as ->.
      { unfold daysBeforeMonth, daysInMonth.
        assert (m = 1 \/ m = 2 \/ m = 3 \/ m = 4 \/ m = 5 \/ m = 6 \/
                m = 7 \/ m = 8 \/ m = 9 \/ m = 10 \/ m = 11) as Hc by lia.
        repeat (destruct Hc as [Hc | Hc]; [subst m; destruct (isLeapYear y); reflexivity | ]).
        subst m; destruct (isLeapYear y); reflexivity. }
      lia.
    + apply Z.ltb_ge in H12. assert (m = 12) as -> by lia.
      rewrite daysBeforeYear_succ. generalize (daysBeforeYear y); intros k.
      assert (daysBeforeMonth (y + 1) 1 = 0) as ->
        by (unfold daysBeforeMonth; destruct (isLeapYear (y + 1)); reflexivity).
      assert (daysBeforeMonth y 12 + daysInMonth y 12 = 365 + (if isLeapYear y then 1 else 0))
        by (unfold daysBeforeMonth, daysInMonth; destruct (isLeapYear y); reflexivity).
      lia.
Qed.

Lemma isCivil_plusDay c : isCivil c = true -> isCivil (plusDay c) = true.
Proof.
  destruct c as [y m d]. rewrite !isCivil_iff. cbn [year month day].
  intros [Hm Hd]. unfold plusDay. cbn [year month day].
  destruct (d <? daysInMonth y m) eqn:Hlt.
  - apply Z.ltb_lt in Hlt. cbn [year month day]. lia.
  - destruct (m <? 12) eqn:H12; cbn [year month day].
    + apply Z.ltb_lt in H12. split; [lia|].
      unfold daysInMonth. destruct (m + 1 =? 2); [destruct (isLeapYear y); lia|].
      destruct ((m + 1 =? 4) || (m + 1 =? 6) || (m + 1 =? 9) || (m + 1 =? 11)); lia.
    + unfold daysInMonth. cbn. lia.
Qed.

Lemma year_plusDay c : year c <= year (plusDay c) <= year c + 1.
Proof.
  unfold plusDay. destruct (day c <? _); [cbn; lia|]. destruct (month c <? 12); cbn; lia.
Qed.

Lemma daysBeforeYear_mono y1 y2 : y1 <= y2 -> daysBeforeYear y1 <= daysBeforeYear y2.
Proof.
  intros H. unfold daysBeforeYear. Z.div_mod_to_equations. lia.
Qed.

Ltac eval_nth :=
  match goal with
  | |- context [nth ?n ?l ?d] =>
      let v := eval vm_compute in (nth n l d) in change (nth n l d) with v
  end.

Lemma dayOfYear_bounds y m d :
  1 <= m <= 12 -> 1 <= d <= daysInMonth y m ->
  0 <= daysBeforeMonth y m + d - 1 < 365 + (if isLeapYear y then 1 else 0).
Proof.
  intros Hm. unfold daysBeforeMonth, daysInMonth.
  assert (m = 1 \/ m = 2 \/ m = 3 \/ m = 4 \/ m = 5 \/ m = 6 \/
          m = 7 \/ m = 8 \/ m = 9 \/ m = 10 \/ m = 11 \/ m = 12) as Hc by lia.
  intros Hd.
  repeat (destruct Hc as [Hc | Hc]; [subst m | ]). 12: subst m.
  all: destruct (isLeapYear y); eval_nth; cbn -[Z.add Z.sub] in *; lia.
Qed.

Lemma epochDay_year_bounds c :
  isCivil c = true ->
  daysBeforeYear (year c) - 719162 <= epochDay c < daysBeforeYear (year c + 1) - 719162.
Proof.
  rewrite isCivil_iff. intros [Hm Hd]. unfold epochDay.
  pose proof (dayOfYear_bounds _ _ _ Hm Hd). rewrite daysBeforeYear_succ. lia.
Qed.

Lemma year_bound_of_epochDay c b :
  isCivil c = true -> isValid b = true -> epochDay c < epochDay b -> year c <= 9999.
Proof.
  intros Hc Hb Hlt. apply isValid_iff in Hb. destruct Hb as [Hb Hy].
  pose proof (epochDay_year_bounds _ Hc) as Bc.
  pose proof (epochDay_year_bounds _ Hb) as Bb.
  destruct (Z_le_gt_dec (year c) 9999) as [|Hgt]; [assumption | exfalso].
  pose proof (daysBeforeYear_mono (year b + 1) (year c) ltac:(lia)). lia.
Qed.

Lemma digitVal_digitChar k : 0 <= k <= 9 -> digitVal (digitChar k) = Some k.
Proof.
  intros H.
  assert (k = 0 \/ k = 1 \/ k = 2 \/ k = 3 \/ k = 4 \/ k = 5 \/ k = 6 \/ k = 7 \/ k = 8 \/ k = 9)
    as Hc by lia.
  repeat (destruct Hc as [Hc | Hc]; [subst k; reflexivity | ]). subst k; reflexivity.
Qed.

Lemma num2_pad n a b :
  0 <= n <= 99 -> a = digitChar (n / 10 mod 10) -> b = digitChar (n mod 10) ->
  num2 a b = Some n.
Proof.
  intros H -> ->. unfold num2.
  rewrite !digitVal_digitChar by (Z.div_mod_to_equations; lia).
  f_equal. Z.div_mod_to_equations. lia.
Qed.

Lemma fromISO_toISODate c : isValid c = true -> fromISO (toISODate c) = Some c.
Proof.
  intros Hv. pose proof Hv as Hv'. apply isValid_iff in Hv'. destruct Hv' as [Hc Hy].
  apply isCivil_iff in Hc. destruct Hc as [Hm Hd].
  assert (daysInMonth (year c) (month c) <= 31) as H31.
  { unfold daysInMonth. destruct (_ =? 2); [destruct (isLeapYear _); lia|].
    destruct (_ || _); lia. }
  destruct c as [y m d]. cbn [year month day] in *.
  unfold toISODate, pad4, pad2. cbn [year month day append].
  unfold fromISO.
  assert (num4 (digitChar (y / 1000 mod 10)) (digitChar (y / 100 mod 10))
            (digitChar (y / 10 mod 10)) (digitChar (y mod 10)) = Some y) as ->.
  { unfold num4, num2.
    rewrite !digitVal_digitChar by (Z.div_mod_to_equations; lia).
    f_equal. Z.div_mod_to_equations. lia. }
  rewrite (num2_pad m) by (reflexivity || lia).
  rewrite (num2_pad d) by (reflexivity || lia).
  cbv zeta. rewrite Hv. reflexivity.
Qed.

Lemma fromISO_valid s c : fromISO s = Some c -> isValid c = true.
Proof.
  unfold fromISO. intros H.
  repeat match type of H with
         | match ?x with _ => _ end = _ => destruct x eqn:?; try discriminate
         | (if ?x then _ else _) = _ => destruct x eqn:?; try discriminate
         end.
  congruence.
Qed.

Lemma daysInMonth_le_31 y m : daysInMonth y m <= 31.
Proof.
  unfold daysInMonth. destruct (_ =? 2); [destruct (isLeapYear _); lia|].
  destruct (_ || _); lia.
Qed.

Lemma digitChar_digitVal a x : digitVal a = Some x -> digitChar x = a /\ 0 <= x <= 9.
Proof.
  destruct a as [[] [] [] [] [] [] [] []]; vm_compute; intros H; try discriminate;
    injection H as <-; (split; [reflexivity | split; discriminate]).
Qed.

Lemma pad2_num2 a b n :
  num2 a b = Some n -> pad2 n = String a (String b EmptyString) /\ 0 <= n <= 99.
Proof.
  unfold num2. destruct (digitVal a) as [x|] eqn:Ha; [|discriminate].
  destruct (digitVal b) as [y|] eqn:Hb; [|discriminate].
  intros H. assert (n = 10 * x + y) as -> by congruence. clear H.
  apply digitChar_digitVal in Ha, Hb. destruct Ha as [<- Hx], Hb as [<- Hy].
  unfold pad2. split; [|lia].
  replace ((10 * x + y) / 10 mod 10) with x by (Z.div_mod_to_equations; lia).
  replace ((10 * x + y) mod 10) with y by (Z.div_mod_to_equations; lia).
  reflexivity.
Qed.

Lemma pad4_num4 a b c d n :
  num4 a b c d = Some n ->
  pad4 n = String a (String b (String c (String d EmptyString))).
Proof.
  unfold num4. destruct (num2 a b) as [x|] eqn:Hab; [|discriminate].
  destruct (num2 c d) as [y|] eqn:Hcd; [|discriminate].
  intros H. assert (n = 100 * x + y) as -> by congruence. clear H.
  apply pad2_num2 in Hab, Hcd. destruct Hab as [Hab Hx], Hcd as [Hcd Hy].
  unfold pad4. unfold pad2 in *.
  injection Hab as E1 E2. injection Hcd as E3 E4.
  replace ((100 * x + y) / 1000 mod 10) with (x / 10 mod 10) by (Z.div_mod_to_equations; lia).
  replace ((100 * x + y) / 100 mod 10) with (x mod 10) by (Z.div_mod_to_equations; lia).
  replace ((100 * x + y) / 10 mod 10) with (y / 10 mod 10) by (Z.div_mod_to_equations; lia).
  replace ((100 * x + y) mod 10) with (y mod 10) by (Z.div_mod_to_equations; lia).
  now rewrite E1, E2, E3, E4.
Qed.

(** A string that [fromISO] reads is the ISO date of what it reads. *)
Lemma toISODate_fromISO s c : fromISO s = Some c -> toISODate c = s.
Proof.
  unfold fromISO. intros H.
  repeat match type of H with
         | match ?x with _ => _ end = _ => destruct x eqn:?; try discriminate
         | (if ?x then _ else _) = _ => destruct x eqn:?; try discriminate
         end.
  assert (H' := f_equal (fun o => match o with Some x => x | None => c end) H).
  cbv beta iota in H'. subst c.
  unfold toISODate. cbn [year month day].
  match goal with H : num4 _ _ _ _ = Some _ |- _ => rewrite (pad4_num4 _ _ _ _ _ H) end.
  repeat match goal with
         | H : num2 _ _ = Some _ |- _ => rewrite (proj1 (pad2_num2 _ _ _ H)); clear H
         end.
  subst. reflexivity.
Qed.

Lemma jsDate_toISODate c : isValid c = true -> jsDate (toISODate c) = Some (epochDay c).
Proof.
  intros Hv. pose proof Hv as Hv'. apply isValid_iff in Hv'. destruct Hv' as [Hc Hy].
  apply isCivil_iff in Hc. destruct Hc as [Hm Hd].
  pose proof (daysInMonth_le_31 (year c) (month c)) as H31.
  destruct c as [y m d]. cbn [year month day] in *.
  unfold toISODate, pad4, pad2. cbn [year month day append].
  unfold jsDate.
  assert (num4 (digitChar (y / 1000 mod 10)) (digitChar (y / 100 mod 10))
            (digitChar (y / 10 mod 10)) (digitChar (y mod 10)) = Some y) as ->.
  { unfold num4, num2.
    rewrite !digitVal_digitChar by (Z.div_mod_to_equations; lia).
    f_equal. Z.div_mod_to_equations. lia. }
  rewrite (num2_pad m) by (reflexivity || lia).
  rewrite (num2_pad d) by (reflexivity || lia).
  assert ((1 <=? m) && (m <=? 12) && (1 <=? d) && (d <=? 31) = true) as ->
    by (rewrite !andb_true_iff, !Z.leb_le; lia).
  reflexivity.
Qed.

(** On a calendar date, [new Date(iso)] and [DateTime.fromISO(iso)] name the
    same day. *)
Lemma jsDate_fromISO s c : fromISO s = Some c -> jsDate s = Some (epochDay c).
Proof.
  intros H. rewrite <- (toISODate_fromISO s c H).
  apply jsDate_toISODate. now apply (fromISO_valid s).
Qed.


(** [civilFromDays] inverts [epochDay]: the calendar fields a UTC [Date] shows
    are those of the day it holds. *)
Lemma era_split z :
  let era := z / 146097 in
  let doe := z - era * 146097 in
  0 <= doe <= 146096.
Proof. cbv zeta. Z.div_mod_to_equations. lia. Qed.

Lemma yoe_bounds doe :
  0 <= doe <= 146096 ->
  let yoe := (doe - doe / 1460 + doe / 36524 - doe / 146096) / 365 in
  let doy := doe - (365 * yoe + yoe / 4 - yoe / 100) in
  0 <= yoe <= 399 /\ 0 <= doy <= 365 /\
  (doy = 365 -> (yoe + 1) mod 4 = 0 /\ ((yoe + 1) mod 100 <> 0 \/ (yoe + 1) mod 400 = 0)).
Proof.
  intros H yoe doy. unfold doy, yoe. Z.div_mod_to_equations. lia.
Qed.

Lemma daysBeforeYear_era yoe era :
  0 <= yoe <= 399 ->
  daysBeforeYear (yoe + era * 400 + 1) = era * 146097 + 365 * yoe + yoe / 4 - yoe / 100.
Proof.
  intros H. unfold daysBeforeYear.
  replace (yoe + era * 400 + 1 - 1) with (yoe + era * 400) by lia.
  Z.div_mod_to_equations. lia.
Qed.

Lemma isLeapYear_era yoe era k :
  isLeapYear (yoe + era * 400 + k) = isLeapYear (yoe + k).
Proof.
  unfold isLeapYear.
  replace (yoe + era * 400 + k) with (yoe + k + era * 100 * 4) at 1 by lia.
  replace (yoe + era * 400 + k) with (yoe + k + era * 4 * 100) at 1 by lia.
  replace (yoe + era * 400 + k) with (yoe + k + era * 400) by lia.
  now rewrite !Z.mod_add by lia.
Qed.

Lemma mp_bounds doy :
  0 <= doy <= 365 ->
  let mp := (5 * doy + 2) / 153 in
  0 <= mp <= 11 /\ 153 * mp <= 5 * doy + 2 < 153 * mp + 153.
Proof.
  intros H mp. unfold mp. Z.div_mod_to_equations. lia.
Qed.

Lemma civilFromDays_epochDay z :
  isCivil (civilFromDays z) = true /\ epochDay (civilFromDays z) = z.
Proof.
  unfold civilFromDays.
  pose proof (era_split (z + 719468)) as He. cbv zeta in He.
  set (era := (z + 719468) / 146097) in *.
  assert (z = era * 146097 + ((z + 719468) - era * 146097) - 719468) as Hz by lia.
  revert He Hz. generalize ((z + 719468) - era * 146097). intros doe He Hz.
  cbv zeta.
  pose proof (yoe_bounds doe He) as Hy. cbv zeta in Hy.
  set (yoe := (doe - doe / 1460 + doe / 36524 - doe / 146096) / 365) in *.
  assert (doe = 365 * yoe + yoe / 4 - yoe / 100
                + (doe - (365 * yoe + yoe / 4 - yoe / 100))) as Hdoe by lia.
  revert Hy Hdoe. generalize (doe - (365 * yoe + yoe / 4 - yoe / 100)).
  intros doy (Hyoe & Hdoy & Hleap) Hdoe.
  pose proof (mp_bounds doy Hdoy) as Hm. cbv zeta in Hm.
  pose proof (daysBeforeYear_era yoe era Hyoe) as Hby.
  pose proof (daysBeforeYear_succ (yoe + era * 400)) as Hs.
  pose proof (isLeapYear_era yoe era 1) as Hl.
  assert (doy = 365 -> isLeapYear (yoe + 1) = true) as Hleap'.
  { intros E. apply isLeapYear_spec. destruct (Hleap E) as [? [?|?]]; auto. }
  clear Hleap.
  revert Hm. generalize ((5 * doy + 2) / 153). intros mp [Hmp Hm].
  rewrite isCivil_iff. unfold epochDay. cbn [year month day].
  generalize dependent (yoe / 4). intros q4. generalize (yoe / 100). intros q100 **.
  assert (mp = 0 \/ mp = 1 \/ mp = 2 \/ mp = 3 \/ mp = 4 \/ mp = 5 \/
          mp = 6 \/ mp = 7 \/ mp = 8 \/ mp = 9 \/ mp = 10 \/ mp = 11) as Hc by lia.
  clear Hmp.
  repeat (destruct Hc as [Hc | Hc]; [subst mp | ]). 12: subst mp.
  all: match goal with
       | |- context [(?a + 2) / 5] =>
           let v := eval vm_compute in ((a + 2) / 5) in change ((a + 2) / 5) with v
       end.
  all: match goal with
       | |- context [if ?b then ?x else ?y] =>
         match b with
         | Z.ltb _ _ => let v := eval vm_compute in (if b then x else y) in
                          change (if b then x else y) with v
         end
       end.
  all: match goal with
       | |- context [if ?b then 1 else 0] =>
         match b with
         | Z.leb _ _ => let v := eval vm_compute in (if b then 1 else 0) in
                          change (if b then 1 else 0) with v
         end
       end.
  all: unfold daysInMonth, daysBeforeMonth.
  all: eval_nth.
  all: match goal with
       | |- context [Z.ltb 2 ?m] =>
           let v := eval vm_compute in (Z.ltb 2 m) in change (Z.ltb 2 m) with v
       end.
  all: cbn [Z.eqb Pos.eqb orb].
  all: rewrite ?andb_true_r, ?andb_false_r.
  all: rewrite ?Z.add_0_r, ?Hl.
  all: destruct (isLeapYear (yoe + era * 400)); try destruct (isLeapYear (yoe + 1)) eqn:L.
  all: try (split; [split; lia | lia]).
  all: split; [split; [lia|] | lia].
  all: destruct (Z.eq_dec doy 365) as [E|E]; [apply Hleap' in E; congruence | lia].
Qed.

(** Printing a date-only [Date] and reading it back gives the same day
    (0000-01-01 to 9999-12-31). *)
Lemma jsDate_isoOfDay z :
  -719528 <= z <= 2932896 -> jsDate (isoOfDay z) = Some z.
Proof.
  intros H. destruct (civilFromDays_epochDay z) as [Hc He].
  unfold isoOfDay. rewrite jsDate_toISODate; [now rewrite He|].
  apply isValid_iff. split; [assumption|].
  pose proof (epochDay_year_bounds _ Hc) as B. rewrite He in B.
  destruct (Z_le_gt_dec 0 (year (civilFromDays z))) as [H0|H0].
  - split; [assumption|].
    destruct (Z_le_gt_dec (year (civilFromDays z)) 9999) as [|Hgt]; [assumption | exfalso].
    pose proof (daysBeforeYear_mono 10000 (year (civilFromDays z)) ltac:(lia)) as M.
    change (daysBeforeYear 10000) with 3652059 in M. lia.
  - exfalso.
    pose proof (daysBeforeYear_mono (year (civilFromDays z) + 1) 0 ltac:(lia)) as M.
    change (daysBeforeYear 0) with (-366) in M. lia.
Qed.

Lemma daysBeforeYear_strict y1 y2 : y1 < y2 -> daysBeforeYear y1 + 365 <= daysBeforeYear y2.
Proof.
  intros H. unfold daysBeforeYear. Z.div_mod_to_equations. lia.
Qed.

(** The year of a civil date is the one whose days contain its day number. *)
Lemma year_of_epochDay c y :
  isCivil c = true ->
  daysBeforeYear y - 719162 <= epochDay c < daysBeforeYear (y + 1) - 719162 ->
  year c = y.
Proof.
  intros Hc Hb. pose proof (epochDay_year_bounds c Hc) as B.
  destruct (Z.lt_trichotomy (year c) y) as [Hlt | [Heq | Hgt]]; [exfalso | assumption | exfalso].
  - pose proof (daysBeforeYear_mono (year c + 1) y ltac:(lia)). lia.
  - pose proof (daysBeforeYear_mono (y + 1) (year c) ltac:(lia)). lia.
Qed.

Lemma month_cases y m d :
  1 <= m <= 12 -> 1 <= d <= daysInMonth y m ->
  let L := if isLeapYear y then 1 else 0 in
  (m = 1 /\ daysBeforeMonth y m = 0 /\ d <= 31) \/
  (m = 2 /\ daysBeforeMonth y m = 31 /\ d <= 28 + L) \/
  (m = 3 /\ daysBeforeMonth y m = 59 + L /\ d <= 31) \/
  (m = 4 /\ daysBeforeMonth y m = 90 + L /\ d <= 30) \/
  (m = 5 /\ daysBeforeMonth y m = 120 + L /\ d <= 31) \/
  (m = 6 /\ daysBeforeMonth y m = 151 + L /\ d <= 30) \/
  (m = 7 /\ daysBeforeMonth y m = 181 + L /\ d <= 31) \/
  (m = 8 /\ daysBeforeMonth y m = 212 + L /\ d <= 31) \/
  (m = 9 /\ daysBeforeMonth y m = 243 + L /\ d <= 30) \/
  (m = 10 /\ daysBeforeMonth y m = 273 + L /\ d <= 31) \/
  (m = 11 /\ daysBeforeMonth y m = 304 + L /\ d <= 30) \/
  (m = 12 /\ daysBeforeMonth y m = 334 + L /\ d <= 31).
Proof.
  intros Hm. unfold daysBeforeMonth, daysInMonth.
  assert (m = 1 \/ m = 2 \/ m = 3 \/ m = 4 \/ m = 5 \/ m = 6 \/
          m = 7 \/ m = 8 \/ m = 9 \/ m = 10 \/ m = 11 \/ m = 12) as Hc by lia.
  intros Hd.
  repeat (destruct Hc as [Hc | Hc]; [subst m | ]). 12: subst m.
  all: destruct (isLeapYear y); eval_nth; cbn -[Z.add Z.sub] in *; lia.
Qed.

(** Two civil dates with the same day number are the same date. *)
Lemma epochDay_inj c1 c2 :
  isCivil c1 = true -> isCivil c2 = true -> epochDay c1 = epochDay c2 -> c1 = c2.
Proof.
  intros H1 H2 He.
  assert (year c1 = year c2) as Hy.
  { apply year_of_epochDay; [assumption|]. rewrite He. now apply epochDay_year_bounds. }
  destruct c1 as [y1 m1 d1], c2 as [y2 m2 d2]. cbn [year] in Hy. subst y2.
  apply isCivil_iff in H1, H2. cbn [year month day] in H1, H2.
  unfold epochDay in He. cbn [year month day] in He.
  pose proof (month_cases y1 m1 d1 (proj1 H1) (proj2 H1)) as C1.
  pose proof (month_cases y1 m2 d2 (proj1 H2) (proj2 H2)) as C2.
  cbv zeta in C1, C2.
  assert (0 <= (if isLeapYear y1 then 1 else 0) <= 1) as HL by (destruct (isLeapYear y1); lia).
  revert C1 C2 HL He. generalize (if isLeapYear y1 then 1 else 0).
  generalize (daysBeforeMonth y1 m1), (daysBeforeMonth y1 m2), (daysBeforeYear y1).
  intros g1 g2 k L C1 C2 HL He.
  assert (m1 = m2 /\ d1 = d2) as [-> ->] by lia. reflexivity.
Qed.

(** [civilFromDays] is the inverse of [epochDay] on civil dates. *)
Lemma civilFromDays_inv c : isCivil c = true -> civilFromDays (epochDay c) = c.
Proof.
  intros Hc. destruct (civilFromDays_epochDay (epochDay c)) as [H1 H2].
  now apply epochDay_inj.
Qed.

Lemma isoOfDay_epochDay c : isCivil c = true -> isoOfDay (epochDay c) = toISODate c.
Proof. intros Hc. unfold isoOfDay. now rewrite civilFromDays_inv. Qed.

End TimeFacts.

(** ** enumerateDates *)

Module EnumerateFacts.
Import Time TimeFacts.

Lemma enumerateLoop_spec n : forall cur end_ acc,
  isCivil cur = true ->
  n = Z.to_nat (epochDay end_ - epochDay cur) ->
  enumerateLoop n cur end_ acc = Some (acc ++ map toISODate (daysFrom n cur)).
Proof.
  induction n as [|n IH]; intros cur end_ acc Hc Hn.
  - cbn [enumerateLoop daysFrom map].
    destruct (epochDay cur <? epochDay end_) eqn:Hlt.
    + apply Z.ltb_lt in Hlt. lia.
    + now rewrite app_nil_r.
  - cbn [enumerateLoop daysFrom map].
    destruct (epochDay cur <? epochDay end_) eqn:Hlt.
    + rewrite IH.
      * now rewrite <- app_assoc.
      * now apply isCivil_plusDay.
      * rewrite epochDay_plusDay by assumption. lia.
    + apply Z.ltb_ge in Hlt. lia.
Qed.

(** The loop of [enumerateDates] ends within the fuel it is given. *)
Lemma enumerateDates_spec s e a b :
  fromISO s = Some a -> fromISO e = Some b ->
  enumerateDates s e = map toISODate (daysFrom (Z.to_nat (epochDay b - epochDay a)) a).
Proof.
  intros Ha Hb. unfold enumerateDates. rewrite Ha, Hb.
  rewrite (enumerateLoop_spec _ a b []); [reflexivity | | reflexivity].
  apply isValid_civil. eapply fromISO_valid; eassumption.
Qed.

Lemma enumerateDates_invalid s e :
  fromISO s = None \/ fromISO e = None -> enumerateDates s e = [].
Proof.
  unfold enumerateDates. intros [H | H]; rewrite H; [reflexivity|].
  destruct (fromISO s); reflexivity.
Qed.

Lemma length_daysFrom n : forall c, List.length (daysFrom n c) = n.
Proof. induction n; intros c; cbn; [reflexivity | now rewrite IHn]. Qed.

Lemma length_zseq n : forall z, List.length (zseq z n) = n.
Proof. induction n; intros z; cbn; [reflexivity | now rewrite IHn]. Qed.

Lemma In_zseq n : forall z x, In x (zseq z n) <-> z <= x < z + Z.of_nat n.
Proof.
  induction n as [|n IH]; intros z x; cbn [zseq In].
  - lia.
  - rewrite IH. lia.
Qed.

Lemma NoDup_zseq n : forall z, NoDup (zseq z n).
Proof.
  induction n as [|n IH]; intros z; cbn [zseq]; constructor.
  - rewrite In_zseq. lia.
  - apply IH.
Qed.

Lemma epochDay_daysFrom n : forall c,
  isCivil c = true -> map epochDay (daysFrom n c) = zseq (epochDay c) n.
Proof.
  induction n as [|n IH]; intros c Hc; cbn [daysFrom map zseq]; [reflexivity|].
  rewrite IH by now apply isCivil_plusDay.
  now rewrite epochDay_plusDay.
Qed.

(** Every day the loop visits before [end_] is a valid date of the years
    0000 to 9999, so it is printed and read back without loss. *)
Lemma daysFrom_valid n : forall c b,
  isCivil c = true -> 0 <= year c -> isValid b = true ->
  epochDay c + Z.of_nat n <= epochDay b ->
  Forall (fun x => isValid x = true) (daysFrom n c).
Proof.
  induction n as [|n IH]; intros c b Hc Hy Hb Hle; cbn [daysFrom]; constructor.
  - apply isValid_iff. split; [assumption|]. split; [assumption|].
    apply (year_bound_of_epochDay c b); try assumption. lia.
  - apply (IH _ b).
    + now apply isCivil_plusDay.
    + pose proof (year_plusDay c). lia.
    + assumption.
    + rewrite epochDay_plusDay by assumption. lia.
Qed.

End EnumerateFacts.

(** ** The tables *)

Module PrismaFacts.
Import Prisma.

Lemma set_policy_same d : set_policy (policy d) d = d.
Proof. destruct d; reflexivity. Qed.

(** Deleting rows keeps a unique column unique. *)
Lemma NoDup_map_filter {Row Key : Type} (key : Row -> Key) (keep : Row -> bool)
  (rows : list Row) (Huniq : NoDup (map key rows)) :
  NoDup (map key (filter keep rows)).
Proof.
  induction rows as [|x rows IH]; cbn [map filter] in *; [constructor|].
  inversion Huniq as [|? ? Hx Hrows]; subst.
  destruct (keep x); cbn [map]; [constructor|]; auto.
  intros Hin. apply Hx. apply in_map_iff in Hin. destruct Hin as [y [Hy Hin]].
  apply filter_In in Hin. apply in_map_iff. exists y. tauto.
Qed.

Lemma map_updateMany {A B} (f : A -> B) (w : A -> bool) (g : A -> A) (l : list A) :
  (forall r, f (g r) = f r) -> map f (updateMany w g l) = map f l.
Proof.
  intros H. unfold updateMany. rewrite map_map. apply map_ext.
  intros r. destruct (w r); auto.
Qed.

Lemma existsb_day_In (x : Z) (rows : list BookedDay.t) :
  existsb (fun r => BookedDay.day r =? x) rows = true <-> In x (map BookedDay.day rows).
Proof.
  rewrite existsb_exists, in_map_iff. split; intros [r H]; exists r.
  - destruct H as [H1 H2]. apply Z.eqb_eq in H2. tauto.
  - destruct H as [H1 H2]. rewrite Z.eqb_eq. tauto.
Qed.

Lemma createMany_count_le data : forall rows,
  (fst (createManySkipDuplicates data rows) <= List.length data)%nat.
Proof.
  induction data as [|r data IH]; intros rows; cbn [createManySkipDuplicates fst List.length].
  - lia.
  - destruct (existsb _ rows).
    + specialize (IH rows). lia.
    + specialize (IH (rows ++ [r])).
      destruct (createManySkipDuplicates data (rows ++ [r])). cbn [fst] in *. lia.
Qed.

Lemma createMany_NoDup data : forall rows,
  NoDup (map BookedDay.day rows) ->
  NoDup (map BookedDay.day (snd (createManySkipDuplicates data rows))).
Proof.
  induction data as [|r data IH]; intros rows H; cbn [createManySkipDuplicates snd].
  - assumption.
  - destruct (existsb _ rows) eqn:Hex.
    + now apply IH.
    + specialize (IH (rows ++ [r])).
      destruct (createManySkipDuplicates data (rows ++ [r])). cbn [snd] in *.
      apply IH. rewrite map_app. cbn [map].
      apply NoDup_app; [assumption | repeat constructor; intros [] | ].
      intros x Hx [Hx' | []]. subst x.
      apply existsb_day_In in Hx. congruence.
Qed.

(** Insert-or-fail: a date that already has a row costs one insertion. *)
Lemma createMany_conflict data : forall rows,
  (exists r, In r data /\ In (BookedDay.day r) (map BookedDay.day rows)) ->
  (fst (createManySkipDuplicates data rows) < List.length data)%nat.
Proof.
  induction data as [|r data IH]; intros rows [x [Hx Hin]]; [destruct Hx|].
  cbn [createManySkipDuplicates List.length].
  destruct (existsb _ rows) eqn:Hex.
  - pose proof (createMany_count_le data rows). lia.
  - destruct Hx as [-> | Hx].
    + apply existsb_day_In in Hin. congruence.
    + specialize (IH (rows ++ [r])).
      destruct (createManySkipDuplicates data (rows ++ [r])). cbn [fst] in *.
      apply -> Nat.succ_lt_mono. apply IH. exists x. split; [assumption|].
      rewrite map_app. apply in_or_app. now left.
Qed.

(** When every row was inserted, the table is the old one followed by the
    rows of the request. *)
Lemma createMany_full data : forall rows,
  fst (createManySkipDuplicates data rows) = List.length data ->
  snd (createManySkipDuplicates data rows) = rows ++ data.
Proof.
  induction data as [|r data IH]; intros rows; cbn [createManySkipDuplicates List.length fst snd].
  - now rewrite app_nil_r.
  - destruct (existsb _ rows) eqn:Hex.
    + pose proof (createMany_count_le data rows). lia.
    + specialize (IH (rows ++ [r])).
      destruct (createManySkipDuplicates data (rows ++ [r])). cbn [fst snd] in *.
      intros Hn. rewrite IH by lia. now rewrite <- app_assoc.
Qed.

(** When the dates of the request are distinct and none has a row, every row
    is inserted. *)
Lemma createMany_free data : forall rows,
  NoDup (map BookedDay.day data) ->
  (forall r, In r data -> ~ In (BookedDay.day r) (map BookedDay.day rows)) ->
  fst (createManySkipDuplicates data rows) = List.length data.
Proof.
  induction data as [|r data IH]; intros rows Hnd Hfree; [reflexivity|].
  cbn [createManySkipDuplicates List.length].
  destruct (existsb _ rows) eqn:Hex.
  - apply existsb_day_In in Hex. exfalso. apply (Hfree r); [now left | assumption].
  - specialize (IH (rows ++ [r])).
    destruct (createManySkipDuplicates data (rows ++ [r])). cbn [fst] in *.
    f_equal. cbn [map] in Hnd. inversion Hnd as [|? ? Hr Hd]; subst. apply IH; [assumption|].
    intros x Hx. rewrite map_app. intros Hin. apply in_app_or in Hin.
    destruct Hin as [Hin | [Hin | []]].
    + apply (Hfree x); [now right | assumption].
    + apply Hr. rewrite Hin. now apply in_map.
Qed.

End PrismaFacts.

(** ** Hold creation *)

Module HoldsFacts.
Import Prisma PrismaFacts Time TimeFacts EnumerateFacts Holds.

Lemma createInput_map k exp l :
  Forall (fun x => isValid x = true) l ->
  createInput k exp (map toISODate l)
  = Some (map (fun d => BookedDay.mk k d Day_HELD (Some exp)) (map epochDay l)).
Proof.
  induction 1 as [|c l Hc Hl IH]; cbn [map createInput]; [reflexivity|].
  rewrite jsDate_toISODate by assumption. now rewrite IH.
Qed.

Lemma createInput_enumerate k exp s e a b :
  fromISO s = Some a -> fromISO e = Some b ->
  createInput k exp (enumerateDates s e)
  = Some (holdRows k exp (epochDay a) (Z.to_nat (epochDay b - epochDay a))).
Proof.
  intros Ha Hb. rewrite (enumerateDates_spec s e a b Ha Hb).
  pose proof (fromISO_valid _ _ Ha) as Va. pose proof (fromISO_valid _ _ Hb) as Vb.
  pose proof Va as Va'. apply isValid_iff in Va'. destruct Va' as [Ca Ya].
  rewrite createInput_map.
  - unfold holdRows. now rewrite epochDay_daysFrom.
  - destruct (Z_le_gt_dec (epochDay a) (epochDay b)) as [Hle | Hgt].
    + apply (daysFrom_valid _ a b); try assumption; lia.
    + replace (Z.to_nat (epochDay b - epochDay a)) with O by lia. constructor.
Qed.

Lemma length_enumerateDates s e a b :
  fromISO s = Some a -> fromISO e = Some b ->
  List.length (enumerateDates s e) = Z.to_nat (epochDay b - epochDay a).
Proof.
  intros Ha Hb. rewrite (enumerateDates_spec s e a b Ha Hb).
  now rewrite length_map, length_daysFrom.
Qed.

Lemma policy_getOrCreate E d :
  policy (snd (getOrCreateDefaultPolicy E d)) = Some (thePolicy E d).
Proof. unfold thePolicy, getOrCreateDefaultPolicy. destruct (policy d) eqn:H; cbn; auto. Qed.

Lemma getOrCreate_eq E d :
  getOrCreateDefaultPolicy E d = (thePolicy E d, set_policy (Some (thePolicy E d)) d).
Proof.
  unfold thePolicy, getOrCreateDefaultPolicy. destruct (policy d) eqn:H; cbn [fst snd]; [|reflexivity].
  rewrite <- H. now rewrite set_policy_same.
Qed.

Lemma thePolicy_existing E d p : policy d = Some p -> thePolicy E d = p.
Proof. unfold thePolicy, getOrCreateDefaultPolicy. now intros ->. Qed.

(** What [POST] does on a request that passes the schema and names two
    calendar dates in order. *)
Lemma POST_run E now c k b s a e :
  HoldRequestSchema E b = true ->
  fromISO (Body.startDate b) = Some a -> fromISO (Body.endDateExclusive b) = Some e ->
  epochDay a < epochDay e ->
  let n := Z.to_nat (epochDay e - epochDay a) in
  let exp := now + HOLD_TTL_MINUTES E * 60 * 1000 in
  let swept := deleteMany (expiredHold now) (bookedDay (db s)) in
  let data := holdRows k exp (epochDay a) n in
  let policy_ := thePolicy E (db s) in
  POST E now c k b s =
  if 0 <? blackoutsIn (epochDay a) (epochDay e) (db s)
  then (Rejected 409 "Dates include blackouts", s)
  else if (fst (createManySkipDuplicates data swept) =? n)%nat
  then (Created k exp,
        mkState
          (mkDB (swept ++ data)
             (booking (db s) ++ [heldBooking E c k b (epochDay a) (epochDay e) (db s)])
             (snd (customerUpsert (Body.customer b) c (customer (db s))))
             (payment (db s)) (refund (db s)) (blackout (db s)) (Some policy_))
          (enqueue hold_expire k None (HOLD_TTL_MINUTES E * 60 * 1000)
             ("hold-expire:" ++ k) (jobs s)))
  else (Rejected 409 "Some days are no longer available",
        mkState (set_policy (Some policy_) (db s)) (jobs s)).
Proof.
  intros Hs Ha He Hlt n exp swept data policy_.
  unfold POST. rewrite Hs. cbn [negb].
  rewrite (length_enumerateDates _ _ a e Ha He). fold n.
  assert (n <> O) as Hn by (unfold n; lia).
  destruct (Nat.eqb_spec n 0) as [|_]; [contradiction|].
  cbv zeta. fold exp.
  unfold transaction, holdTransaction.
  rewrite (jsDate_fromISO _ _ Ha), (jsDate_fromISO _ _ He).
  cbn [blackout set_bookedDay].
  fold (blackoutsIn (epochDay a) (epochDay e) (db s)).
  destruct (0 <? blackoutsIn (epochDay a) (epochDay e) (db s)) eqn:Hb.
  - cbn [policy set_bookedDay]. rewrite set_policy_same. destruct s; reflexivity.
  - unfold Pricing.quoteRange. rewrite (length_enumerateDates _ _ a e Ha He). fold n.
    cbv beta iota zeta.
    unfold getOrCreateDefaultPolicy at 1.
    cbn [policy set_bookedDay].
    destruct (policy (db s)) eqn:Hp.
    all: destruct (customerUpsert (Body.customer b) c (customer (db s))) as [cust customers] eqn:Hcu.
    all: cbn [customer set_bookedDay set_policy set_customer set_booking booking bookedDay Booking.id].
    all: rewrite ?Hcu.
    all: cbn [customer set_bookedDay set_policy set_customer set_booking booking bookedDay Booking.id].
    all: rewrite (createInput_enumerate _ _ _ _ a e Ha He); fold n; fold data; fold swept.
    all: destruct (createManySkipDuplicates data swept) as [cnt rows] eqn:Hcm.
    all: cbn [fst].
    all: pose proof (createMany_full data swept) as Hfull; rewrite Hcm in Hfull; cbn [fst snd] in Hfull.
    all: assert (List.length data = n) as Hlen
        by (unfold data, holdRows; now rewrite length_map, length_zseq).
    all: unfold policy_, heldBooking, thePolicy, getOrCreateDefaultPolicy; rewrite Hp, Hcu; cbn [fst snd].
    all: replace (Z.of_nat (Z.to_nat (epochDay e - epochDay a))) with (Z.of_nat n) by reflexivity.
    all: destruct (Nat.eqb_spec cnt n) as [Heq | Hne]; cbn [negb].
    all: try (rewrite Hfull by congruence).
    all: cbn [fst snd policy set_policy set_customer set_booking set_bookedDay
              booking customer payment refund blackout bookedDay]; try reflexivity.
    all: unfold set_bookedDay, set_booking, set_customer, set_policy;
      cbn [policy booking customer payment refund blackout bookedDay]; rewrite ?Hp; reflexivity.
Qed.

End HoldsFacts.

(** ** The webhook and the workers *)

Module HandlerFacts.
Import Prisma PrismaFacts HoldsFacts Webhook Worker.

Lemma thePolicy_ext E d1 d2 : policy d1 = policy d2 -> thePolicy E d1 = thePolicy E d2.
Proof.
  unfold thePolicy, getOrCreateDefaultPolicy. intros ->. destruct (policy d2); reflexivity.
Qed.

Lemma find_updateMany {A} (w : A -> bool) (g : A -> A) (l : list A) :
  (forall r, w (g r) = w r) ->
  findUnique w (updateMany w g l) = option_map g (findUnique w l).
Proof.
  intros H. unfold findUnique, updateMany.
  induction l as [|x l IH]; cbn [map find]; [reflexivity|].
  destruct (w x) eqn:Hx.
  - now rewrite H, Hx.
  - now rewrite Hx.
Qed.

Lemma hasId_confirmed id c r : hasId id (confirmed c r) = hasId id r.
Proof. unfold hasId, confirmed. destruct c; reflexivity. Qed.

Lemma startDate_confirmed c r : Booking.startDate (confirmed c r) = Booking.startDate r.
Proof. unfold confirmed. destruct c; reflexivity. Qed.

Lemma status_confirmed c r : Booking.status (confirmed c r) = CONFIRMED.
Proof. unfold confirmed. destruct c; reflexivity. Qed.

(** What [checkout.session.completed] does. *)
Lemma confirm_run E now id pi cust s :
  checkoutSessionCompleted E now id pi cust s =
  match findUnique (hasId id) (booking (db s)) with
  | None => mkState (set_policy (Some (thePolicy E (db s))) (db s)) (jobs s)
  | Some b =>
      let done := BookingStatus_eqb (Booking.status b) CONFIRMED in
      mkState
        (mkDB
           (if done then bookedDay (db s)
            else updateMany (heldDayOf id) booked (bookedDay (db s)))
           (if done then booking (db s)
            else updateMany (hasId id) (confirmed cust) (booking (db s)))
           (customer (db s))
           (upsert (hasIntent pi) (Payment.with_status succeeded)
              (Payment.mk id pi (Booking.depositAmount b) DEPOSIT succeeded) (payment (db s)))
           (refund (db s)) (blackout (db s)) (Some (thePolicy E (db s))))
        (scheduleJobs E now id (Booking.startDate b) (thePolicy E (db s)) (jobs s))
  end.
Proof.
  unfold checkoutSessionCompleted, transaction, confirmTransaction.
  destruct (findUnique (hasId id) (booking (db s))) as [b|] eqn:Hf.
  - destruct (BookingStatus_eqb (Booking.status b) CONFIRMED) eqn:Hst; cbv zeta.
    + cbn [booking set_payment]. rewrite Hf, getOrCreate_eq.
      rewrite (thePolicy_ext E _ (db s)) by reflexivity. reflexivity.
    + cbn [booking set_payment set_booking set_bookedDay bookedDay].
      rewrite find_updateMany by apply hasId_confirmed. rewrite Hf. cbn [option_map].
      rewrite getOrCreate_eq. rewrite (thePolicy_ext E _ (db s)) by reflexivity.
      rewrite startDate_confirmed. reflexivity.
  - rewrite Hf, getOrCreate_eq. reflexivity.
Qed.

(** What [handleHoldExpire] does. *)
Lemma expire_run now id s :
  handleHoldExpire now id s =
  match findUnique (hasId id) (booking (db s)) with
  | None => s
  | Some b =>
      if negb (BookingStatus_eqb (Booking.status b) HELD) then s
      else if existsb (activeHold now)
                (findMany (fun r => String.eqb (BookedDay.bookingId r) (Booking.id b))
                   (bookedDay (db s)))
      then s
      else
        mkState
          (mkDB
             (deleteMany (fun r => String.eqb (BookedDay.bookingId r) (Booking.id b)
                                   && BookedDayStatus_eqb (BookedDay.status r) Day_HELD)
                (bookedDay (db s)))
             (updateMany (fun r => String.eqb (Booking.id r) (Booking.id b))
                (Booking.with_status CANCELLED) (booking (db s)))
             (customer (db s)) (payment (db s)) (refund (db s)) (blackout (db s))
             (policy (db s)))
          (jobs s)
  end.
Proof.
  unfold handleHoldExpire, transaction, hasId.
  destruct (findUnique _ (booking (db s))) as [b|].
  - destruct (negb _); [destruct s as [[]]; reflexivity|].
    destruct (existsb _ _); [destruct s as [[]]; reflexivity|].
    reflexivity.
  - destruct s as [[]]; reflexivity.
Qed.

End HandlerFacts.

(** ** The queue and upserts *)

Module QueueFacts.
Import Prisma.

Lemma hasJob_In k q : hasJob k q = true <-> In k (map Job.jobId q).
Proof.
  unfold hasJob. rewrite existsb_exists, in_map_iff.
  split; intros [j [H1 H2]]; exists j.
  - apply String.eqb_eq in H2. tauto.
  - split; [tauto|]. apply String.eqb_eq. tauto.
Qed.

Lemma enqueue_present n b t d k q : hasJob k q = true -> enqueue n b t d k q = q.
Proof. unfold enqueue, hasJob. now intros ->. Qed.

Lemma enqueue_absent n b t d k q :
  hasJob k q = false -> enqueue n b t d k q = q ++ [Job.mk n b t d k].
Proof. unfold enqueue, hasJob. now intros ->. Qed.

Lemma enqueue_has n b t d k q : hasJob k (enqueue n b t d k q) = true.
Proof.
  destruct (hasJob k q) eqn:H.
  - now rewrite enqueue_present.
  - rewrite enqueue_absent by assumption. unfold hasJob.
    rewrite existsb_app. cbn. rewrite String.eqb_refl. apply orb_true_r.
Qed.

Lemma enqueue_keeps n b t d k k' q :
  hasJob k' q = true -> hasJob k' (enqueue n b t d k q) = true.
Proof.
  intros H. destruct (hasJob k q) eqn:Hk.
  - now rewrite enqueue_present.
  - rewrite enqueue_absent by assumption. unfold hasJob in *.
    rewrite existsb_app, H. reflexivity.
Qed.

Lemma enqueue_NoDup n b t d k q :
  NoDup (map Job.jobId q) -> NoDup (map Job.jobId (enqueue n b t d k q)).
Proof.
  intros H. destruct (hasJob k q) eqn:Hk.
  - now rewrite enqueue_present.
  - rewrite enqueue_absent by assumption. rewrite map_app. cbn [map Job.jobId].
    apply NoDup_app; [assumption | repeat constructor; intros [] | ].
    intros x Hx [<- | []]. apply hasJob_In in Hx. congruence.
Qed.

(** In a list without repeated keys, a key that occurs is the key of exactly
    one element. *)
Lemma count_key_NoDup {A} (key : A -> string) (k : string) (l : list A) :
  NoDup (map key l) -> In k (map key l) ->
  List.length (filter (fun r => String.eqb (key r) k) l) = 1%nat.
Proof.
  induction l as [|x l IH]; cbn [map filter]; intros Hnd Hin; [destruct Hin|].
  inversion Hnd as [|? ? Hx Hl]; subst.
  destruct (String.eqb_spec (key x) k) as [Heq | Hne].
  - cbn [List.length]. f_equal.
    destruct (filter (fun r => String.eqb (key r) k) l) as [|y l'] eqn:Hf; [reflexivity|].
    exfalso. assert (In y (filter (fun r => String.eqb (key r) k) l)) as Hy
      by (rewrite Hf; now left).
    apply filter_In in Hy. destruct Hy as [Hy1 Hy2]. apply String.eqb_eq in Hy2.
    apply Hx. rewrite Heq, <- Hy2. now apply in_map.
  - apply IH; [assumption|]. destruct Hin as [Hin | Hin]; [congruence | assumption].
Qed.

Lemma existsb_updateMany {A} (w : A -> bool) (g : A -> A) (l : list A) :
  (forall r, w (g r) = w r) -> existsb w (updateMany w g l) = existsb w l.
Proof.
  intros H. unfold updateMany. induction l as [|x l IH]; cbn [map existsb]; [reflexivity|].
  rewrite IH. destruct (w x) eqn:Hx; [now rewrite H, Hx | now rewrite Hx].
Qed.

Lemma updateMany_idem {A} (w : A -> bool) (g : A -> A) (l : list A) :
  (forall r, w (g r) = w r) -> (forall r, g (g r) = g r) ->
  updateMany w g (updateMany w g l) = updateMany w g l.
Proof.
  intros Hw Hg. unfold updateMany. rewrite map_map. apply map_ext.
  intros r. destruct (w r) eqn:Hr; [now rewrite Hw, Hr, Hg | now rewrite Hr].
Qed.

Lemma updateMany_none {A} (w : A -> bool) (g : A -> A) (l : list A) :
  existsb w l = false -> updateMany w g l = l.
Proof.
  unfold updateMany. induction l as [|x l IH]; cbn [map existsb]; [reflexivity|].
  intros H. apply orb_false_iff in H. destruct H as [Hx Hl].
  now rewrite Hx, IH.
Qed.

(** An upsert applied twice is the upsert applied once. *)
Lemma upsert_idem {A} (w : A -> bool) (g : A -> A) (c : A) (l : list A) :
  (forall r, w (g r) = w r) -> (forall r, g (g r) = g r) -> w c = true -> g c = c ->
  upsert w g c (upsert w g c l) = upsert w g c l.
Proof.
  intros Hw Hg Hc Hgc.
  destruct (existsb w l) eqn:He.
  - assert (upsert w g c l = updateMany w g l) as -> by (unfold upsert; now rewrite He).
    unfold upsert. rewrite existsb_updateMany, He by assumption.
    now apply updateMany_idem.
  - assert (upsert w g c l = l ++ [c]) as -> by (unfold upsert; now rewrite He).
    unfold upsert. rewrite existsb_app. cbn [existsb]. rewrite Hc, orb_true_r.
    unfold updateMany. rewrite map_app. cbn [map]. rewrite Hc, Hgc.
    f_equal. now apply updateMany_none.
Qed.

(** After an upsert on a table without repeated keys, exactly one row carries
    the key. *)
Lemma upsert_one (pi : string) (g : Payment.t -> Payment.t) (c : Payment.t) (l : list Payment.t) :
  (forall r, Payment.stripePaymentIntentId (g r) = Payment.stripePaymentIntentId r) ->
  Payment.stripePaymentIntentId c = pi ->
  NoDup (map Payment.stripePaymentIntentId l) ->
  NoDup (map Payment.stripePaymentIntentId (upsert (Webhook.hasIntent pi) g c l)) /\
  List.length (filter (Webhook.hasIntent pi) (upsert (Webhook.hasIntent pi) g c l)) = 1%nat.
Proof.
  intros Hg Hc Hnd.
  assert (NoDup (map Payment.stripePaymentIntentId (upsert (Webhook.hasIntent pi) g c l))
          /\ In pi (map Payment.stripePaymentIntentId (upsert (Webhook.hasIntent pi) g c l)))
    as [H1 H2].
  { unfold upsert. destruct (existsb (Webhook.hasIntent pi) l) eqn:He.
    - rewrite PrismaFacts.map_updateMany by assumption. split; [assumption|].
      apply existsb_exists in He. destruct He as [r [Hr Hk]].
      apply String.eqb_eq in Hk. rewrite <- Hk. now apply in_map.
    - rewrite map_app. cbn [map]. rewrite Hc. split.
      + apply NoDup_app; [assumption | repeat constructor; intros [] | ].
        intros x Hx [<- | []]. apply in_map_iff in Hx. destruct Hx as [r [Hk Hr]].
        assert (existsb (Webhook.hasIntent pi) l = true) as Ht; [|congruence].
        apply existsb_exists. exists r. split; [assumption|]. now apply String.eqb_eq.
      + apply in_or_app. right. now left. }
  split; [assumption|]. now apply (count_key_NoDup Payment.stripePaymentIntentId).
Qed.

End QueueFacts.

(** ** Confirmation *)

Module ConfirmFacts.
Import Prisma PrismaFacts HoldsFacts Webhook HandlerFacts QueueFacts.

Ltac job_present := repeat first [apply enqueue_has | apply enqueue_keeps].

Lemma scheduleJobs_idem E now1 now2 id sd p1 p2 q :
  scheduleJobs E now2 id sd p2 (scheduleJobs E now1 id sd p1 q)
  = scheduleJobs E now1 id sd p1 q.
Proof.
  unfold scheduleJobs, reminderOffsets. cbn [fold_left]. cbv zeta.
  rewrite !enqueue_present by job_present. reflexivity.
Qed.

Lemma scheduleJobs_has E now id sd p q k :
  In k (confirmJobIds id) -> hasJob k (scheduleJobs E now id sd p q) = true.
Proof.
  unfold confirmJobIds, scheduleJobs, reminderOffsets. cbn [map fold_left In]. cbv zeta.
  intros [<- | [<- | [<- | [<- | [<- | []]]]]]; job_present.
Qed.

Lemma scheduleJobs_NoDup E now id sd p q :
  NoDup (map Job.jobId q) -> NoDup (map Job.jobId (scheduleJobs E now id sd p q)).
Proof.
  intros H. unfold scheduleJobs, reminderOffsets. cbn [fold_left]. cbv zeta.
  repeat apply enqueue_NoDup. assumption.
Qed.

Lemma with_status_idem st r : Payment.with_status st (Payment.with_status st r) = Payment.with_status st r.
Proof. reflexivity. Qed.

Lemma hasIntent_with_status pi st r : hasIntent pi (Payment.with_status st r) = hasIntent pi r.
Proof. reflexivity. Qed.

Lemma depositAmount_confirmed c r : Booking.depositAmount (confirmed c r) = Booking.depositAmount r.
Proof. unfold confirmed. destruct c; reflexivity. Qed.

Lemma BookingStatus_eqb_eq a b : BookingStatus_eqb a b = true <-> a = b.
Proof. destruct a, b; cbn; split; congruence. Qed.

(** Handling the same [checkout.session.completed] event a second time
    leaves the state as the first handling left it. *)
Lemma confirm_twice E now1 now2 id pi cust s :
  checkoutSessionCompleted E now2 id pi cust (checkoutSessionCompleted E now1 id pi cust s)
  = checkoutSessionCompleted E now1 id pi cust s.
Proof.
  rewrite (confirm_run E now1 id pi cust s).
  destruct (findUnique (hasId id) (booking (db s))) as [b|] eqn:Hf.
  - cbv zeta. rewrite confirm_run. cbn [db jobs booking payment bookedDay customer refund blackout].
    assert (exists b', (if BookingStatus_eqb (Booking.status b) CONFIRMED
                        then booking (db s)
                        else updateMany (hasId id) (confirmed cust) (booking (db s))) = b' /\
                       exists b1, findUnique (hasId id) b' = Some b1 /\
                         Booking.status b1 = CONFIRMED /\
                         Booking.depositAmount b1 = Booking.depositAmount b /\
                         Booking.startDate b1 = Booking.startDate b) as [b' [Hb' [b1 [H1 [H2 [H3 H4]]]]]].
    { eexists. split; [reflexivity|].
      destruct (BookingStatus_eqb (Booking.status b) CONFIRMED) eqn:Hst.
      - exists b. apply BookingStatus_eqb_eq in Hst. tauto.
      - exists (confirmed cust b). rewrite find_updateMany by apply hasId_confirmed.
        rewrite Hf. cbn [option_map].
        rewrite status_confirmed, depositAmount_confirmed, startDate_confirmed. tauto. }
    rewrite Hb', H1. cbv zeta. rewrite H2, H3, H4. cbn [BookingStatus_eqb].
    rewrite (thePolicy_existing E _ (thePolicy E (db s))) by reflexivity.
    rewrite scheduleJobs_idem.
    rewrite upsert_idem; try reflexivity.
    unfold hasIntent. cbn. apply String.eqb_refl.
  - rewrite confirm_run. cbn [db jobs booking set_policy]. rewrite Hf.
    rewrite (thePolicy_existing E _ (thePolicy E (db s))) by reflexivity.
    reflexivity.
Qed.

End ConfirmFacts.

(** ** The invariant *)

Module InvFacts.
Import Prisma PrismaFacts HoldsFacts Webhook Worker HandlerFacts QueueFacts ConfirmFacts.

Ltac break :=
  repeat match goal with
         | |- context [match ?x with _ => _ end] => destruct x eqn:?
         end.

Ltac simpl_state :=
  cbn [db jobs bookedDay booking customer payment refund blackout policy
       set_bookedDay set_booking set_customer set_payment set_refund set_policy fst snd] in *.

Lemma NoDup_days_filter p rows :
  NoDup (map BookedDay.day rows) -> NoDup (map BookedDay.day (deleteMany p rows)).
Proof. apply NoDup_map_filter. Qed.

Lemma NoDup_days_booked w rows :
  NoDup (map BookedDay.day rows) -> NoDup (map BookedDay.day (updateMany w booked rows)).
Proof. now rewrite map_updateMany by reflexivity. Qed.

Lemma cleared_filter p rows : cleared rows -> cleared (deleteMany p rows).
Proof.
  unfold cleared, deleteMany. intros H r Hr. apply filter_In in Hr. now apply H.
Qed.

Lemma cleared_booked w rows : cleared rows -> cleared (updateMany w booked rows).
Proof.
  unfold cleared, updateMany. intros H r Hr. apply in_map_iff in Hr.
  destruct Hr as [x [Hx Hin]]. destruct (w x); subst r; [reflexivity | now apply H].
Qed.

Lemma cleared_held k exp z n rows : cleared rows -> cleared (rows ++ holdRows k exp z n).
Proof.
  unfold cleared, holdRows. intros H r Hr. apply in_app_or in Hr. destruct Hr as [Hr | Hr].
  - now apply H.
  - apply in_map_iff in Hr. destruct Hr as [x [<- _]]. discriminate.
Qed.

Lemma filter_nonempty {A} (p : A -> bool) (l : list A) : filter p l <> [] -> l <> [].
Proof. destruct l; [cbn; congruence | discriminate]. Qed.

Create HintDb inv.

#[local] Hint Resolve NoDup_days_filter NoDup_days_booked cleared_filter cleared_booked
  cleared_held enqueue_NoDup scheduleJobs_NoDup : inv.

Lemma Inv_expire now id s : Inv s -> Inv (handleHoldExpire now id s).
Proof.
  intros (Hd & Hp & Hj & Hc & Hs). rewrite expire_run.
  break; repeat split; try assumption;
    unfold Inv, uniqueDays, uniquePayments, uniqueJobIds, bookedCleared, policySeeded in *;
    fold (cleared (bookedDay (db s))) in Hc; simpl_state; auto with inv.
  - now apply cleared_filter.
  - intros H. apply Hs. revert H. apply filter_nonempty.
Qed.

Lemma Inv_confirm E now id pi cust s : Inv s -> Inv (checkoutSessionCompleted E now id pi cust s).
Proof.
  intros (Hd & Hp & Hj & Hc & Hs). rewrite confirm_run.
  unfold Inv, uniqueDays, uniquePayments, uniqueJobIds, bookedCleared, policySeeded in *.
  fold (cleared (bookedDay (db s))) in Hc.
  destruct (findUnique (hasId id) (booking (db s))) as [b|]; cbv zeta.
  - repeat split; simpl_state.
    + destruct (BookingStatus_eqb _ _); auto with inv.
    + refine (proj1 (upsert_one _ _ _ _ _ _ Hp)); reflexivity.
    + auto with inv.
    + fold (cleared (if BookingStatus_eqb (Booking.status b) CONFIRMED
                     then bookedDay (db s)
                     else updateMany (heldDayOf id) booked (bookedDay (db s)))).
      destruct (BookingStatus_eqb _ _); auto with inv.
    + discriminate.
  - repeat split; simpl_state; try assumption. discriminate.
Qed.

Lemma NoDup_snoc_fresh (pi : string) (c : Payment.t) (l : list Payment.t) :
  existsb (fun r => String.eqb (Payment.stripePaymentIntentId r) pi) l = false ->
  Payment.stripePaymentIntentId c = pi ->
  NoDup (map Payment.stripePaymentIntentId l) ->
  NoDup (map Payment.stripePaymentIntentId (l ++ [c])).
Proof.
  intros He Hc Hnd. rewrite map_app. cbn [map]. rewrite Hc.
  apply NoDup_app; [assumption | repeat constructor; intros [] | ].
  intros x Hx [<- | []]. apply in_map_iff in Hx. destruct Hx as [r [Hk Hr]].
  assert (existsb (fun r => String.eqb (Payment.stripePaymentIntentId r) pi) l = true) as Ht;
    [|congruence].
  apply existsb_exists. exists r. split; [assumption|]. now apply String.eqb_eq.
Qed.

Lemma paymentUpsert_payments pi id st d d' :
  paymentUpsert pi id st d = Ok d' ->
  NoDup (map Payment.stripePaymentIntentId (payment d)) ->
  NoDup (map Payment.stripePaymentIntentId (payment d')) /\
  bookedDay d' = bookedDay d /\ policy d' = policy d /\ booking d' = booking d.
Proof.
  unfold paymentUpsert. intros H Hnd.
  destruct (existsb _ (payment d)) eqn:He.
  - injection H as <-. simpl_state. repeat split; try reflexivity.
    now rewrite map_updateMany by reflexivity.
  - destruct (existsb _ (booking d)); [|discriminate].
    injection H as <-. simpl_state. repeat split; try reflexivity.
    now apply (NoDup_snoc_fresh (Stripe.id pi)).
Qed.

Lemma Inv_same_days s s' :
  Inv s ->
  bookedDay (db s') = bookedDay (db s) -> policy (db s') = policy (db s) ->
  uniquePayments s' -> uniqueJobIds s' -> Inv s'.
Proof.
  unfold Inv, uniqueDays, bookedCleared, policySeeded.
  intros (Hd & Hp & Hj & Hc & Hs) -> -> Hp' Hj'. tauto.
Qed.

Lemma Inv_succeeded pi s : Inv s -> Inv (paymentIntentSucceeded pi s).
Proof.
  intros HI. unfold paymentIntentSucceeded.
  destruct (truthy _); [|assumption].
  destruct (paymentUpsert _ _ _ _) as [d|] eqn:Hu; [|assumption].
  pose proof HI as (Hd & Hp & Hj & Hc & Hs).
  destruct (paymentUpsert_payments _ _ _ _ _ Hu Hp) as (H1 & H2 & H3 & H4).
  apply (Inv_same_days s); assumption.
Qed.

Lemma Inv_failed pi s : Inv s -> Inv (paymentIntentPaymentFailed pi s).
Proof.
  intros HI. unfold paymentIntentPaymentFailed.
  destruct (truthy _); [|assumption].
  destruct (paymentUpsert _ _ _ _) as [d|] eqn:Hu; [|assumption].
  pose proof HI as (Hd & Hp & Hj & Hc & Hs).
  destruct (paymentUpsert_payments _ _ _ _ _ Hu Hp) as (H1 & H2 & H3 & H4).
  destruct (_ <? 3); apply (Inv_same_days s); try assumption.
  unfold uniqueJobIds. cbn [jobs]. now apply enqueue_NoDup.
Qed.

Lemma Inv_webhook E now req s : Inv s -> Inv (snd (Webhook.POST E now req s)).
Proof.
  intros HI. unfold Webhook.POST.
  destruct (truthy (signature req)); [|assumption].
  destruct (truthy (STRIPE_WEBHOOK_SECRET E)); [|assumption].
  destruct (constructEvent E _ _ _) as [event|]; [|assumption].
  cbn [snd]. destruct event; cbn [handleEvent];
    auto using Inv_confirm, Inv_succeeded, Inv_failed.
Qed.

Lemma Inv_remainderCharge charge id s : Inv s -> Inv (handleRemainderCharge charge id s).
Proof.
  intros HI. unfold handleRemainderCharge.
  break; try assumption.
  pose proof HI as (Hd & Hp & Hj & Hc & Hs).
  apply (Inv_same_days s); try assumption; try reflexivity.
  unfold uniquePayments. simpl_state. eapply NoDup_snoc_fresh; eauto.
Qed.

Lemma Inv_cancel E now id s : Inv s -> Inv (snd (Cancel.POST E now id s)).
Proof.
  intros HI. pose proof HI as (Hd & Hp & Hj & Hc & Hs).
  unfold Cancel.POST, transaction.
  destruct (findUnique _ _) as [b|]; [|assumption].
  destruct (negb _); [assumption|].
  rewrite getOrCreate_eq.
  destruct (_ <? now).
  - cbn [snd]. unfold Inv, uniqueDays, uniquePayments, uniqueJobIds, bookedCleared, policySeeded in *.
    simpl_state. repeat split; try assumption. discriminate.
  - destruct (if 0 <? _ then _ else _) as [refunded refunds]. cbn [snd].
    unfold Inv, uniqueDays, uniquePayments, uniqueJobIds, bookedCleared, policySeeded in *.
    fold (cleared (bookedDay (db s))) in Hc.
    simpl_state. repeat split; auto with inv.
    + now apply cleared_filter.
    + discriminate.
Qed.

Lemma Inv_availability now y m s : Inv s -> Inv (snd (Availability.GET now y m s)).
Proof.
  intros HI. unfold Availability.GET. break; assumption.
Qed.

Lemma Inv_checkRange now a b s : Inv s -> Inv (snd (Availability.POST now a b s)).
Proof.
  intros HI. unfold Availability.POST. break; assumption.
Qed.

Lemma Inv_blackouts day reason s :
  Inv s -> Inv (snd (Blackouts.POST day reason s)) /\ Inv (snd (Blackouts.DELETE day s)).
Proof.
  intros HI. unfold Blackouts.POST, Blackouts.DELETE.
  split; break; cbn [snd]; try assumption; apply (Inv_same_days s); try reflexivity;
    try assumption; apply HI.
Qed.

Lemma Inv_checkout c id s : Inv s -> Inv (snd (Checkout.POST c id s)).
Proof.
  intros HI. unfold Checkout.POST.
  break; cbn [snd]; try assumption; apply (Inv_same_days s); try reflexivity;
    try assumption; apply HI.
Qed.

Lemma Inv_adminRefund r id a s : Inv s -> Inv (snd (AdminRefunds.POST r id a s)).
Proof.
  intros HI. unfold AdminRefunds.POST.
  break; cbn [snd]; try assumption; apply (Inv_same_days s); try reflexivity;
    try assumption; apply HI.
Qed.

End InvFacts.

Module ReachFacts.
Import Prisma PrismaFacts Time TimeFacts EnumerateFacts Holds HoldsFacts QueueFacts InvFacts.

#[local] Hint Resolve NoDup_days_filter cleared_filter cleared_held enqueue_NoDup : inv.

Lemma enumerateDates_cases s e :
  enumerateDates s e = [] \/
  exists a b, fromISO s = Some a /\ fromISO e = Some b /\ epochDay a < epochDay b.
Proof.
  destruct (fromISO s) as [a|] eqn:Ha; [|left; apply enumerateDates_invalid; now left].
  destruct (fromISO e) as [b|] eqn:Hb; [|left; apply enumerateDates_invalid; now right].
  destruct (Z_lt_ge_dec (epochDay a) (epochDay b)) as [Hlt | Hge].
  - right. exists a, b. tauto.
  - left. apply List.length_zero_iff_nil.
    rewrite (length_enumerateDates s e a b Ha Hb). lia.
Qed.

(** A request that fails the schema or names an empty range changes nothing. *)
Lemma POST_early E now c k b s :
  HoldRequestSchema E b = false \/
  enumerateDates (Body.startDate b) (Body.endDateExclusive b) = [] ->
  exists msg, POST E now c k b s = (Rejected 400 msg, s).
Proof.
  unfold POST. destruct (HoldRequestSchema E b).
  - intros [H | H]; [discriminate|]. rewrite H. cbn. eauto.
  - intros _. cbn. eauto.
Qed.

Lemma days_holdRows k exp z n : map BookedDay.day (holdRows k exp z n) = zseq z n.
Proof. unfold holdRows. rewrite map_map. cbn. apply map_id. Qed.

Lemma length_holdRows k exp z n : List.length (holdRows k exp z n) = n.
Proof. unfold holdRows. now rewrite length_map, length_zseq. Qed.

Lemma Inv_hold E now c k b s : Inv s -> Inv (snd (POST E now c k b s)).
Proof.
  intros HI.
  destruct (HoldRequestSchema E b) eqn:Hs;
    [|destruct (POST_early E now c k b s (or_introl Hs)) as [msg ->]; assumption].
  destruct (enumerateDates_cases (Body.startDate b) (Body.endDateExclusive b))
    as [Hnil | (a & e & Ha & He & Hlt)];
    [destruct (POST_early E now c k b s (or_intror Hnil)) as [msg ->]; assumption|].
  rewrite (POST_run E now c k b s a e Hs Ha He Hlt). cbv zeta.
  destruct (0 <? _); [assumption|].
  pose proof HI as (Hd & Hp & Hj & Hc & Hsd).
  destruct (Nat.eqb_spec
              (fst (createManySkipDuplicates
                      (holdRows k (now + HOLD_TTL_MINUTES E * 60 * 1000) (epochDay a)
                         (Z.to_nat (epochDay e - epochDay a)))
                      (deleteMany (expiredHold now) (bookedDay (db s)))))
              (Z.to_nat (epochDay e - epochDay a))) as [Heq | Hne]; cbn [snd].
  - unfold Inv, uniqueDays, uniquePayments, uniqueJobIds, bookedCleared, policySeeded in *.
    fold (cleared (bookedDay (db s))) in Hc. simpl_state.
    repeat split; auto with inv.
    + rewrite <- createMany_full by (now rewrite length_holdRows).
      apply createMany_NoDup. auto with inv.
    + apply cleared_held. now apply cleared_filter.
    + discriminate.
  - unfold Inv, uniqueDays, uniquePayments, uniqueJobIds, bookedCleared, policySeeded in *.
    simpl_state. repeat split; try assumption. discriminate.
Qed.

(** Every operation preserves the invariant. *)
Lemma Step_Inv E s s' : Step E s s' -> Inv s -> Inv s'.
Proof.
  intros H HI. destruct H as [| | | | | | | d r s | d s | |].
  - now apply Inv_hold.
  - now apply Inv_webhook.
  - now apply Inv_expire.
  - now apply Inv_remainderCharge.
  - now apply Inv_cancel.
  - now apply Inv_availability.
  - now apply Inv_checkRange.
  - now apply Inv_blackouts.
  - now apply (Inv_blackouts _ None).
  - now apply Inv_checkout.
  - now apply Inv_adminRefund.
Qed.

Lemma Inv_empty : Inv emptyState.
Proof.
  unfold Inv, uniqueDays, uniquePayments, uniqueJobIds, bookedCleared, policySeeded.
  cbn. repeat split; try constructor; intros; try contradiction.
Qed.

Lemma Reachable_Inv E s : Reachable E s -> Inv s.
Proof.
  induction 1 as [|s s' Hr IH Hstep]; [apply Inv_empty | now apply (Step_Inv E s)].
Qed.

End ReachFacts.

(** * The properties the specification states *)

Import Prisma PrismaFacts Time TimeFacts EnumerateFacts HoldsFacts HandlerFacts QueueFacts
  ConfirmFacts InvFacts ReachFacts.

(** ** Deposit *)

(** The arithmetic of doubles, on the integers of the pricing functions. *)

Module DoubleFacts.
Import Pricing.

Lemma nearestDouble_sign n d : 0 <= n -> 0 < d -> 0 <= fst (nearestDouble n d).
Proof.
  intros Hn Hd. unfold nearestDouble.
  destruct (Z.eqb_spec n 0) as [|Hne]; [cbn; lia|].
  cbv zeta. cbn [fst].
  match goal with |- context [Z.max ?x 0] =>
    match x with - _ => fail 1 | _ => set (e := x) end end.
  set (num := Z.abs n * 2 ^ Z.max (- e) 0).
  set (den := d * 2 ^ Z.max e 0).
  assert (0 < den) as Hden by (unfold den; apply Z.mul_pos_pos; [lia | apply Z.pow_pos_nonneg; lia]).
  assert (0 <= num) as Hnum by (unfold num; apply Z.mul_nonneg_nonneg; [lia | apply Z.pow_nonneg; lia]).
  assert (0 <= num / den) by (apply Z.div_pos; lia).
  assert (Z.sgn n = 1) as -> by (apply Z.sgn_pos; lia).
  destruct (_ <? den); [lia|]. destruct (den <? _); [lia|]. destruct (Z.even _); lia.
Qed.

Lemma integerOf_nonneg x : 0 <= fst x -> 0 <= integerOf x.
Proof.
  destruct x as [m e]. cbn [fst integerOf]. intros H.
  destruct (Z.leb_spec 0 e).
  - apply Z.mul_nonneg_nonneg; [lia | apply Z.pow_nonneg; lia].
  - apply Z.div_pos; [lia | apply Z.pow_pos_nonneg; lia].
Qed.

Lemma Math_round_nonneg x : 0 <= fst x -> 0 <= Math_round x.
Proof.
  destruct x as [m e]. cbn [fst Math_round]. intros H.
  destruct (Z.leb_spec 0 e).
  - apply Z.mul_nonneg_nonneg; [lia | apply Z.pow_nonneg; lia].
  - apply Z.div_pos; [|apply Z.pow_pos_nonneg; lia].
    pose proof (Z.pow_nonneg 2 (- e) ltac:(lia)). lia.
Qed.

Lemma mulDouble_nonneg a b : 0 <= a -> 0 <= b -> 0 <= mulDouble a b.
Proof.
  intros Ha Hb. unfold mulDouble. apply integerOf_nonneg.
  apply nearestDouble_sign; [apply Z.mul_nonneg_nonneg; lia | lia].
Qed.

(** The binary exponent [nearestDouble] works with. *)
Lemma exponent_bounds a d :
  0 < a -> 0 < d ->
  let k := Z.log2 a - Z.log2 d in
  let fits := if 0 <=? k then d * 2 ^ k <=? a else d <=? a * 2 ^ (- k) in
  let lg := if fits then k else k - 1 in
  k - 1 <= lg <= k.
Proof. intros Ha Hd k fits lg. unfold lg. destruct fits; lia. Qed.

(** A product below 2^53 is exact. *)
Lemma mulDouble_exact a b : Z.abs (a * b) < 2 ^ 53 -> mulDouble a b = a * b.
Proof.
  intros H. unfold mulDouble, nearestDouble.
  destruct (Z.eqb_spec (a * b) 0) as [->|Hne]; [reflexivity|].
  set (n := a * b) in *. cbv zeta.
  change (Z.log2 1) with 0. rewrite Z.sub_0_r.
  assert (0 < Z.abs n) as Hpos by lia.
  pose proof (Z.log2_nonneg (Z.abs n)) as Hlg0.
  assert (Z.log2 (Z.abs n) < 53) as Hlg by (apply Z.log2_lt_pow2; lia).
  destruct (Z.leb_spec 0 (Z.log2 (Z.abs n))) as [_|]; [|lia].
  rewrite Z.mul_1_l.
  assert ((2 ^ Z.log2 (Z.abs n) <=? Z.abs n) = true) as ->
    by (apply Z.leb_le; apply Z.log2_spec; lia).
  set (e := Z.log2 (Z.abs n) - 52).
  assert (e <= 0) as He by (unfold e; lia).
  rewrite (Z.max_l _ 0) by lia. rewrite (Z.max_r e 0) by lia.
  change (2 ^ 0) with 1. rewrite Z.mul_1_l, Z.div_1_r, Z.mod_1_r.
  cbn [Z.mul Z.ltb Z.compare]. unfold integerOf.
  destruct (Z.leb_spec 0 e).
  - assert (e = 0) as -> by lia. cbn [Z.opp]. change (2 ^ 0) with 1. rewrite !Z.mul_1_r.
    rewrite Z.mul_comm. apply Z.abs_sgn.
  - rewrite Z.mul_assoc, Z.div_mul by (apply Z.pow_nonzero; lia).
    rewrite Z.mul_comm. apply Z.abs_sgn.
Qed.

(** The quotient by 100 of an integer below 2^53, rounded as a double and then
    by [Math.round], is the quotient rounded half up. *)
Lemma round_div100 p :
  0 <= p < 2 ^ 53 -> Math_round (divDouble p 100) = (p + 50) / 100.
Proof.
  intros Hp. unfold divDouble, nearestDouble.
  destruct (Z.eqb_spec p 0) as [->|Hne]; [reflexivity|].
  rewrite (Z.abs_eq p) by lia. cbv zeta.
  change (Z.log2 100) with 6.
  assert (Z.log2 p < 53) as Hlg by (apply Z.log2_lt_pow2; lia).
  set (k := Z.log2 p - 6).
  set (lg := if if 0 <=? k then 100 * 2 ^ k <=? p else 100 <=? p * 2 ^ (- k) then k else k - 1).
  assert (lg <= 46) as Hl by (unfold lg, k; destruct (if 0 <=? _ then _ else _); lia).
  set (e := lg - 52). assert (e <= -6) as He by (unfold e; lia).
  rewrite (Z.max_l _ 0) by lia. rewrite (Z.max_r e 0) by lia.
  change (2 ^ 0) with 1. rewrite Z.mul_1_r.
  assert (Z.sgn p = 1) as -> by (apply Z.sgn_pos; lia). rewrite Z.mul_1_l.
  set (S := 2 ^ (- e)).
  assert (64 <= S) as HS.
  { unfold S. change 64 with (2 ^ 6). apply Z.pow_le_mono_r; lia. }
  assert (exists S', S = 2 * S') as [S' HS'].
  { exists (2 ^ (- e - 1)). unfold S. rewrite <- Z.pow_succ_r by lia. f_equal. lia. }
  set (q := p * S / 100). set (r := (p * S) mod 100).
  assert (p * S = 100 * q + r /\ 0 <= r < 100) as [Hq Hr].
  { unfold q, r. pose proof (Z.div_mod (p * S) 100 ltac:(lia)).
    pose proof (Z.mod_pos_bound (p * S) 100 ltac:(lia)). lia. }
  set (m := if 2 * r <? 100 then q else if 100 <? 2 * r then q + 1
            else if Z.even q then q else q + 1).
  assert (Z.abs (100 * m - p * S) <= 50) as Hm.
  { unfold m. destruct (Z.ltb_spec (2 * r) 100); [lia|].
    destruct (Z.ltb_spec 100 (2 * r)); [lia|]. destruct (Z.even q); lia. }
  unfold Math_round.
  destruct (Z.leb_spec 0 e) as [|_]; [lia|].
  replace (- e + 1) with (Z.succ (- e)) by lia. rewrite Z.pow_succ_r by lia. fold S.
  clearbody m S q r. clear Hq Hr q r.
  symmetry. apply Z.div_unique with (r := 2 * m + S - 2 * S * ((p + 50) / 100)).
  2: lia.
  pose proof (Z.div_mod (p + 50) 100 ltac:(lia)) as Hd.
  pose proof (Z.mod_pos_bound (p + 50) 100 ltac:(lia)) as Hb.
  set (r0 := (p + 50) / 100) in *. set (t := (p + 50) mod 100) in *.
  clearbody r0 t. subst S.
  assert (p = 100 * r0 + t - 50) as -> by lia. clear Hd.
  left. nia.
Qed.

End DoubleFacts.

Import DoubleFacts.

(** The Booking row a successful hold creates carries the deposit that
    [computeDeposit] gives for its total. *)
Lemma hold_deposit E now c k b s id exp s' :
  Holds.POST E now c k b s = (Holds.Created id exp, s') ->
  exists bk,
    booking (db s') = booking (db s) ++ [bk] /\ Booking.id bk = id /\
    Booking.status bk = HELD /\
    Booking.depositAmount bk
    = Pricing.computeDeposit (Booking.totalAmount bk)
        (Policy.depositType (thePolicy E (db s))) (Policy.depositValue (thePolicy E (db s))) /\
    Booking.depositAmount bk <= Booking.totalAmount bk.
Proof.
  intros H.
  destruct (Holds.HoldRequestSchema E b) eqn:Hs;
    [|destruct (POST_early E now c k b s (or_introl Hs)) as [msg Hm]; congruence].
  destruct (enumerateDates_cases (Holds.Body.startDate b) (Holds.Body.endDateExclusive b))
    as [Hnil | (a & e & Ha & He & Hlt)];
    [destruct (POST_early E now c k b s (or_intror Hnil)) as [msg Hm]; congruence|].
  rewrite (POST_run E now c k b s a e Hs Ha He Hlt) in H. cbv zeta in H.
  destruct (0 <? _); [discriminate|]. destruct (_ =? _)%nat; [|discriminate].
  injection H as <- <- <-. exists (heldBooking E c k b (epochDay a) (epochDay e) (db s)).
  cbn [db booking]. unfold heldBooking.
  cbn [Booking.id Booking.status Booking.depositAmount Booking.totalAmount].
  split; [reflexivity|]. split; [reflexivity|]. split; [reflexivity|].
  split; [reflexivity|].
  generalize (Pricing.mulDouble (Z.of_nat (Z.to_nat (epochDay e - epochDay a))) (DAY_PRICE_CENTS E)).
  intros total.
  destruct (Policy.depositType _); cbn [Pricing.computeDeposit]; lia.
Qed.

(** C10. For a non-negative total and a non-negative policy value,
    [computeDeposit] returns an amount between 0 and the total, whatever the
    size of the numbers.  A FIXED deposit is the value clamped to the total:
    the value when it is at most the total, the total otherwise.
    A PERCENT deposit is round(total * value / 100) clamped to the total:
    while the product is below 2^53 (where it is exact), the rounded amount is
    the integer [pct] with pct - 1/2 <= total * value / 100 < pct + 1/2; a
    larger product is rounded to a double first, as for 2100000000000105 at
    10 percent.  The Booking row of a successful hold carries this deposit,
    at most its total. *)
Theorem computeDeposit_within_total (total value : Z) (depositType : Pricing.DepositType) :
  0 <= total -> 0 <= value ->
  0 <= Pricing.computeDeposit total depositType value <= total /\
  ((value <= total -> Pricing.computeDeposit total Pricing.FIXED value = value) /\
   (total <= value -> Pricing.computeDeposit total Pricing.FIXED value = total)) /\
  (total * value < 2 ^ 53 ->
   (exists pct, 100 * pct - 50 <= total * value < 100 * pct + 50) /\
   forall pct, 100 * pct - 50 <= total * value < 100 * pct + 50 ->
     Pricing.computeDeposit total Pricing.PERCENT value = Z.min pct total) /\
  (forall E now c k b s id exp s',
     Holds.POST E now c k b s = (Holds.Created id exp, s') ->
     exists bk,
       booking (db s') = booking (db s) ++ [bk] /\ Booking.id bk = id /\
       Booking.depositAmount bk
       = Pricing.computeDeposit (Booking.totalAmount bk)
           (Policy.depositType (thePolicy E (db s))) (Policy.depositValue (thePolicy E (db s))) /\
       Booking.depositAmount bk <= Booking.totalAmount bk) /\
  (* above 2^53 the product is rounded before the division *)
  Pricing.computeDeposit 2100000000000105 Pricing.PERCENT 10 = 210000000000010.
Proof.
  intros Ht Hv.
  split; [|split; [split; intros; cbn [Pricing.computeDeposit]; lia|split; [|split]]].
  4:{ vm_compute. reflexivity. }
  - destruct depositType; cbn [Pricing.computeDeposit]; [lia|].
    pose proof (mulDouble_nonneg total value Ht Hv) as Hp.
    pose proof (Math_round_nonneg (Pricing.divDouble (Pricing.mulDouble total value) 100)
                  (nearestDouble_sign _ 100 Hp ltac:(lia))) as Hr.
    cbv zeta. lia.
  - intros Hsafe.
    assert (0 <= total * value) as Hprod by (apply Z.mul_nonneg_nonneg; lia).
    split.
    + exists ((total * value + 50) / 100). Z.div_mod_to_equations. lia.
    + intros pct Hpct. cbn [Pricing.computeDeposit]. cbv zeta.
      rewrite mulDouble_exact by (rewrite Z.abs_eq; lia).
      rewrite round_div100 by lia.
      f_equal. Z.div_mod_to_equations. lia.
  - intros E now c k b s id exp s' H.
    destruct (hold_deposit E now c k b s id exp s' H) as (bk & H1 & H2 & _ & H4 & H5).
    exists bk. tauto.
Qed.

Lemma computeDeposit_within_total_witness :
  0 <= 150000 /\ 0 <= 30 /\
  0 <= Pricing.computeDeposit 150000 Pricing.PERCENT 30 <= 150000 /\
  (* 30% of 150000 *)
  Pricing.computeDeposit 150000 Pricing.PERCENT 30 = 45000 /\
  (* 166.5 rounds up, 163.17 rounds down *)
  Pricing.computeDeposit 333 Pricing.PERCENT 50 = 167 /\
  Pricing.computeDeposit 333 Pricing.PERCENT 49 = 163 /\
  (* 250% is clamped to the total *)
  Pricing.computeDeposit 50000 Pricing.PERCENT 250 = 50000.
Proof.
  split; [lia | split; [lia|]].
  split; [apply (computeDeposit_within_total 150000 30 Pricing.PERCENT); lia|].
  split.
  { apply (proj2 (proj1 (proj2 (proj2 (computeDeposit_within_total
                                          150000 30 Pricing.PERCENT ltac:(lia) ltac:(lia))))
                   ltac:(reflexivity)) 45000). lia. }
  split.
  { apply (proj2 (proj1 (proj2 (proj2 (computeDeposit_within_total
                                          333 50 Pricing.PERCENT ltac:(lia) ltac:(lia))))
                   ltac:(reflexivity)) 167). lia. }
  split.
  { apply (proj2 (proj1 (proj2 (proj2 (computeDeposit_within_total
                                          333 49 Pricing.PERCENT ltac:(lia) ltac:(lia))))
                   ltac:(reflexivity)) 163). lia. }
  apply (proj2 (proj1 (proj2 (proj2 (computeDeposit_within_total
                                        50000 250 Pricing.PERCENT ltac:(lia) ltac:(lia))))
                 ltac:(reflexivity)) 125000). lia.
Defined.

(** Above 2^53 the product is rounded before the division, as JavaScript
    rounds it: 2100000000000105 * 10 is held as 21000000000001048, whose
    hundredth rounds to 210000000000010 (the exact quotient, 210000000000010.5,
    would round to 210000000000011). *)
Example computeDeposit_samples :
  Pricing.computeDeposit 50000 Pricing.FIXED 20000 = 20000 /\
  Pricing.computeDeposit 10000 Pricing.FIXED 20000 = 10000 /\
  Pricing.mulDouble 2100000000000105 10 = 21000000000001048 /\
  Pricing.computeDeposit 2100000000000105 Pricing.PERCENT 10 = 210000000000010 /\
  (2100000000000105 * 10 + 50) / 100 = 210000000000011.
Proof. repeat split; vm_compute; reflexivity. Qed.

(** ** Cancellation and refund *)

Lemma fold_left_amount (l : list Payment.t) : forall acc,
  fold_left (fun s p => s + Payment.amount p) l acc = acc + totalOf Payment.amount l.
Proof.
  induction l as [|p l IH]; intros acc; cbn [fold_left totalOf fold_right]; [lia|].
  rewrite IH. unfold totalOf. lia.
Qed.

(** [paid] is the total of the succeeded payments. *)
Lemma paidOf_total payments :
  Cancel.paidOf payments
  = totalOf Payment.amount
      (filter (fun p => PaymentStatus_eqb (Payment.status p) succeeded) payments).
Proof. unfold Cancel.paidOf. now rewrite fold_left_amount. Qed.

(** The loop never refunds more than [refundable], and writes one Refund row
    per refund, for the amount refunded. *)
Lemma refundLoop_spec E id refundable pays : forall refunded refunds,
  refunded <= refundable ->
  exists rows,
    snd (Cancel.refundLoop E id refundable pays refunded refunds) = refunds ++ rows /\
    fst (Cancel.refundLoop E id refundable pays refunded refunds)
    = refunded + totalOf Refund.amount rows /\
    fst (Cancel.refundLoop E id refundable pays refunded refunds) <= refundable.
Proof.
  induction pays as [|pay pays IH]; intros refunded refunds Hle; cbn [Cancel.refundLoop].
  - exists []. unfold totalOf. cbn [fst snd fold_right]. rewrite app_nil_r. repeat split; lia.
  - destruct (refundable <=? refunded) eqn:Hb.
    + exists []. unfold totalOf. cbn [fst snd fold_right]. rewrite app_nil_r. repeat split; lia.
    + cbv zeta.
      destruct (IH (refunded + Z.min (refundable - refunded) (Payment.amount pay))
                  (refunds ++ [Refund.mk id
                     (refundsCreate E (Payment.stripePaymentIntentId pay)
                        (Z.min (refundable - refunded) (Payment.amount pay)))
                     (Z.min (refundable - refunded) (Payment.amount pay))
                     "requested_by_customer"]))
        as (rows & H1 & H2 & H3); [lia|].
      eexists (_ :: rows). rewrite H1, H2. rewrite <- app_assoc. cbn [app].
      repeat split; [|lia]. cbn [totalOf fold_right Refund.amount]. unfold totalOf. lia.
Qed.

(** C6. On the cancellation of a CONFIRMED booking inside the window, the
    refundable amount is max(0, succeeded payments - deposit); what is
    refunded never exceeds it, so the site keeps the deposit (or all that was
    paid, when less was paid).  With total 500000, deposit 20000 and a
    succeeded remainder of 480000, the refundable amount is 480000. *)
Theorem deposit_non_refundable (E : Externals) (now : Z) (bookingId : string) (s : State)
  (b : Booking.t) :
  findUnique (fun r => String.eqb (Booking.id r) bookingId) (booking (db s)) = Some b ->
  Booking.status b = CONFIRMED ->
  now <= startOfDay E (Booking.startDate b * msPerDay)
         - Policy.cancelCutoffHours (thePolicy E (db s)) * (60 * 60 * 1000) ->
  let payments :=
    findMany (fun r => String.eqb (Payment.bookingId r) (Booking.id b)) (payment (db s)) in
  let paid :=
    totalOf Payment.amount
      (filter (fun p => PaymentStatus_eqb (Payment.status p) succeeded) payments) in
  let refundable := Cancel.refundableOf (Booking.depositAmount b) payments in
  refundable = Z.max 0 (paid - Booking.depositAmount b) /\
  (exists refunded s' rows,
     Cancel.POST E now bookingId s = (Cancel.Cancelled refunded, s') /\
     refund (db s') = refund (db s) ++ rows /\
     totalOf Refund.amount rows = refunded /\
     refunded <= refundable /\
     Z.min paid (Booking.depositAmount b) <= paid - refunded) /\
  Cancel.refundableOf 20000
    [Payment.mk bookingId "pi_deposit" 20000 DEPOSIT succeeded;
     Payment.mk bookingId "pi_remainder" 480000 REMAINDER succeeded] = 480000.
Proof.
  intros Hf Hst Hwin payments paid refundable.
  assert (refundable = Z.max 0 (paid - Booking.depositAmount b)) as Hr
    by (unfold refundable, Cancel.refundableOf, paid; now rewrite paidOf_total).
  split; [assumption|]. split; [|reflexivity].
  unfold Cancel.POST, transaction. rewrite Hf, Hst. cbn [BookingStatus_eqb negb].
  rewrite getOrCreate_eq.
  destruct (_ <? now) eqn:Hc; [apply Z.ltb_lt in Hc; lia|].
  fold payments. fold refundable.
  destruct (0 <? refundable) eqn:Hpos.
  - destruct (refundLoop_spec E (Booking.id b) refundable
                (filter (fun p => PaymentType_eqb (Payment.type p) REMAINDER
                                  && PaymentStatus_eqb (Payment.status p) succeeded) payments)
                0 (refund (set_policy (Some (thePolicy E (db s))) (db s))))
      as (rows & H1 & H2 & H3); [apply Z.ltb_lt in Hpos; lia|].
    destruct (Cancel.refundLoop _ _ _ _ _ _) as [refunded refunds].
    cbn [fst snd] in H1, H2, H3. subst refunds.
    exists refunded. eexists. exists rows. split; [reflexivity|].
    simpl_state. repeat split; lia.
  - apply Z.ltb_ge in Hpos. exists 0. eexists. exists []. split; [reflexivity|].
    simpl_state. rewrite app_nil_r. repeat split; cbn; lia.
Qed.

Lemma deposit_non_refundable_witness :
  exists b,
    findUnique (fun r => String.eqb (Booking.id r) "bk_1") (booking (db samplePaid)) = Some b /\
    Booking.status b = CONFIRMED /\
    Cancel.refundableOf (Booking.depositAmount b)
      (findMany (fun r => String.eqb (Payment.bookingId r) (Booking.id b))
         (payment (db samplePaid))) = 130000 /\
    fst (Cancel.POST sampleE 3000 "bk_1" samplePaid) = Cancel.Cancelled 130000.
Proof.
  eexists. split; [vm_compute; reflexivity|]. split; [reflexivity|].
  split; [|vm_compute; reflexivity].
  refine (eq_trans (proj1 (deposit_non_refundable sampleE 3000 "bk_1" samplePaid _ _ _ _)) _).
  - vm_compute. reflexivity.
  - reflexivity.
  - vm_compute. discriminate.
  - vm_compute. reflexivity.
Defined.

(** ** Webhook authenticity *)

(** C9. A webhook request without a signature, or whose signature Stripe's
    library does not verify, is answered with an error and nothing is
    handled: no payment is recorded, no booking changes, no job is scheduled. *)
Theorem unverified_webhook_rejected (E : Externals) (now : Z) (req : Webhook.Request)
  (s : State) :
  (Webhook.truthy (Webhook.signature req) = None \/
   forall sig secret,
     Webhook.truthy (Webhook.signature req) = Some sig ->
     Webhook.truthy (STRIPE_WEBHOOK_SECRET E) = Some secret ->
     constructEvent E (Webhook.body req) sig secret = None) ->
  snd (Webhook.POST E now req s) = s /\
  (Webhook.truthy (Webhook.signature req) = None ->
   fst (Webhook.POST E now req s) = Webhook.Error 400 "Missing signature") /\
  (forall sig secret,
     Webhook.truthy (Webhook.signature req) = Some sig ->
     Webhook.truthy (STRIPE_WEBHOOK_SECRET E) = Some secret ->
     fst (Webhook.POST E now req s) = Webhook.Error 400 "Invalid signature") /\
  fst (Webhook.POST E now req s) <> Webhook.Received.
Proof.
  intros H. unfold Webhook.POST.
  destruct (Webhook.truthy (Webhook.signature req)) as [sig|] eqn:Hsig.
  - destruct H as [H | H]; [discriminate|].
    destruct (Webhook.truthy (STRIPE_WEBHOOK_SECRET E)) as [secret|] eqn:Hsec.
    + rewrite (H sig secret eq_refl eq_refl). cbn [fst snd].
      split; [reflexivity|]. split; [discriminate|]. split; [reflexivity | discriminate].
    + cbn [fst snd].
      split; [reflexivity|]. split; [discriminate|]. split; [discriminate | discriminate].
  - cbn [fst snd].
    split; [reflexivity|]. split; [reflexivity|]. split; [discriminate | discriminate].
Qed.

Lemma unverified_webhook_rejected_witness :
  let req := Webhook.mkRequest (Some "v1=forged"%string) "bk_1" in
  (forall sig secret,
     Webhook.truthy (Webhook.signature req) = Some sig ->
     Webhook.truthy (STRIPE_WEBHOOK_SECRET sampleE) = Some secret ->
     constructEvent sampleE (Webhook.body req) sig secret = None) /\
  snd (Webhook.POST sampleE 2000 req sampleHeld) = sampleHeld /\
  snd (Webhook.POST sampleE 2000 (Webhook.mkRequest (Some "v1=good"%string) "bk_1") sampleHeld)
  <> sampleHeld.
Proof.
  intros req.
  assert (forall sig secret,
     Webhook.truthy (Webhook.signature req) = Some sig ->
     Webhook.truthy (STRIPE_WEBHOOK_SECRET sampleE) = Some secret ->
     constructEvent sampleE (Webhook.body req) sig secret = None) as H.
  { intros sig secret Hs Hk. injection Hs as <-. reflexivity. }
  split; [exact H|]. split.
  - apply (unverified_webhook_rejected sampleE 2000 req sampleHeld). right. exact H.
  - vm_compute. discriminate.
Defined.

(** ** Half-open ranges *)

(** The loop of [enumerateDates] in a zone where every day starts at a
    midnight of its own. *)
Module LuxonFacts.
Import Luxon.

Lemma offsetOfDay_any tz d t :
  regularZone tz -> tz (d * dayMs - tz t * 60 * 1000) = offsetOfDay tz d.
Proof. intros [_ H2]. apply H2. Qed.

Lemma fixOffset_regular tz d t :
  regularZone tz ->
  fixOffset (d * dayMs) (tz t) tz = (d * dayMs - offsetOfDay tz d * 60 * 1000, offsetOfDay tz d).
Proof.
  intros Hr. unfold fixOffset. cbv zeta.
  rewrite (offsetOfDay_any tz d t Hr).
  destruct (Z.eqb_spec (tz t) (offsetOfDay tz d)) as [Heq | Hne].
  - now rewrite Heq.
  - replace (d * dayMs - tz t * 60 * 1000 - (offsetOfDay tz d - tz t) * 60 * 1000)
      with (d * dayMs - offsetOfDay tz d * 60 * 1000) by lia.
    unfold offsetOfDay at 2 3. rewrite (offsetOfDay_any tz d _ Hr).
    now rewrite Z.eqb_refl.
Qed.

Lemma offset_at_midnight tz d :
  regularZone tz -> tz (ts (midnight tz d)) = offsetOfDay tz d.
Proof.
  intros Hr. unfold midnight. cbn [ts]. unfold offsetOfDay at 1.
  apply (offsetOfDay_any tz d _ Hr).
Qed.

Lemma fromISO_regular tz now s c :
  regularZone tz -> Time.fromISO s = Some c ->
  fromISO tz now s = Some (midnight tz (epochDay c)).
Proof.
  intros Hr Hs. unfold fromISO. rewrite Hs. unfold objToLocalTS.
  rewrite Z.add_0_r, fixOffset_regular by assumption. reflexivity.
Qed.

Lemma tsToObj_midnight tz d :
  tsToObj (ts (midnight tz d)) (o (midnight tz d)) = (civilFromDays d, 0).
Proof.
  unfold tsToObj, midnight. cbn [ts o]. cbv zeta.
  replace (d * dayMs - offsetOfDay tz d * 60 * 1000 + offsetOfDay tz d * 60 * 1000)
    with (d * dayMs) by lia.
  rewrite Z.div_mul by (unfold dayMs; lia). rewrite Z.mod_mul by (unfold dayMs; lia).
  reflexivity.
Qed.

Lemma toISODate_midnight tz d : toISODate (midnight tz d) = isoOfDay d.
Proof. unfold toISODate. now rewrite tsToObj_midnight. Qed.

Lemma offsets_close tz d1 d2 :
  regularZone tz -> Z.abs (offsetOfDay tz d1 - offsetOfDay tz d2) < 24 * 60.
Proof. intros [H1 _]. apply H1. Qed.

Lemma objToLocalTS_next c :
  objToLocalTS (mkDateTime (year c) (month c) (day c + 1)) 0 = (epochDay c + 1) * dayMs.
Proof.
  destruct c as [y m dd]. unfold objToLocalTS, epochDay. cbn [year month day].
  generalize dayMs. intros. ring.
Qed.

Lemma midnight_apart tz d :
  regularZone tz -> ts (midnight tz (d + 1)) <> ts (midnight tz d).
Proof.
  intros Hr. pose proof (offsets_close tz (d + 1) d Hr) as Hd.
  unfold midnight. cbn [ts]. revert Hd.
  generalize (offsetOfDay tz (d + 1)), (offsetOfDay tz d). intros a b Hd.
  unfold dayMs. lia.
Qed.

(** The day after a midnight is the next midnight. *)
Lemma plusDay_midnight tz d :
  regularZone tz -> plusDay tz (midnight tz d) = midnight tz (d + 1).
Proof.
  intros Hr. unfold plusDay. rewrite tsToObj_midnight.
  destruct (civilFromDays_epochDay d) as [Hc He].
  apply isCivil_iff in Hc.
  rewrite Z.min_l by (revert Hc; generalize (civilFromDays d); intros; lia).
  rewrite objToLocalTS_next, He.
  replace (o (midnight tz d)) with (tz (ts (midnight tz d)))
    by (rewrite offset_at_midnight by assumption; reflexivity).
  rewrite (fixOffset_regular tz (d + 1) _ Hr).
  pose proof (midnight_apart tz d Hr) as Hne.
  pose proof (offset_at_midnight tz (d + 1) Hr) as Ho.
  unfold midnight at 1 in Hne. unfold midnight at 1 in Ho. cbn [ts] in Hne, Ho.
  destruct (Z.eqb_spec ((d + 1) * dayMs - offsetOfDay tz (d + 1) * 60 * 1000)
              (ts (midnight tz d))) as [Heq | _]; [contradiction|].
  rewrite Ho. reflexivity.
Qed.

(** Midnights compare as their days do. *)
Lemma midnight_lt tz d1 d2 :
  regularZone tz -> (ts (midnight tz d1) <? ts (midnight tz d2)) = (d1 <? d2).
Proof.
  intros Hr. unfold midnight. cbn [ts].
  destruct (Z.eq_dec d1 d2) as [-> | Hne]; [now rewrite !Z.ltb_irrefl|].
  pose proof (offsets_close tz d1 d2 Hr) as Hd. revert Hd.
  generalize (offsetOfDay tz d1), (offsetOfDay tz d2). intros a b Hd.
  unfold dayMs.
  destruct (Z.ltb_spec d1 d2), (Z.ltb_spec (d1 * (24 * 60 * 60 * 1000) - a * 60 * 1000)
                                  (d2 * (24 * 60 * 60 * 1000) - b * 60 * 1000));
    try reflexivity; exfalso; lia.
Qed.

Lemma enumerateLoop_regular tz n : forall fuel d1 d2 dates,
  regularZone tz -> n = Z.to_nat (d2 - d1) -> (n <= fuel)%nat ->
  enumerateLoop fuel tz (midnight tz d1) (midnight tz d2) dates
  = Some (dates ++ map isoOfDay (zseq d1 n)).
Proof.
  induction n as [|n IH]; intros fuel d1 d2 dates Hr Hn Hf.
  - destruct fuel; cbn [enumerateLoop zseq map]; rewrite midnight_lt by assumption;
      (destruct (Z.ltb_spec d1 d2); [lia | now rewrite app_nil_r]).
  - destruct fuel as [|fuel]; [lia|].
    cbn [enumerateLoop zseq map]. rewrite midnight_lt by assumption.
    destruct (Z.ltb_spec d1 d2); [|lia].
    rewrite plusDay_midnight, toISODate_midnight by assumption.
    rewrite (IH fuel (d1 + 1) d2) by (assumption || lia).
    now rewrite <- app_assoc.
Qed.

(** The dates of the zone-free loop, by day number. *)
Lemma enumerateDates_isoOfDay s e a b :
  Time.fromISO s = Some a -> Time.fromISO e = Some b ->
  Time.enumerateDates s e = map isoOfDay (zseq (epochDay a) (Z.to_nat (epochDay b - epochDay a))).
Proof.
  intros Ha Hb. rewrite (enumerateDates_spec s e a b Ha Hb).
  assert (isCivil a = true) as Hc by (apply isValid_civil; eapply fromISO_valid; eassumption).
  rewrite <- (epochDay_daysFrom _ a Hc). rewrite map_map.
  assert (forall n c, isCivil c = true ->
            map Time.toISODate (daysFrom n c)
            = map (fun x => isoOfDay (epochDay x)) (daysFrom n c)) as H.
  { induction n as [|n IH]; intros c Hcc; cbn [daysFrom map]; [reflexivity|].
    rewrite isoOfDay_epochDay by assumption. f_equal. apply IH. now apply isCivil_plusDay. }
  now apply H.
Qed.

(** In such a zone, and with fuel for every date, Luxon's loop returns the
    dates of the zone-free loop. *)
Lemma enumerateDates_regular tz now1 now2 fuel s e :
  regularZone tz ->
  (List.length (Time.enumerateDates s e) <= fuel)%nat ->
  enumerateDates fuel tz now1 now2 s e = Some (Time.enumerateDates s e).
Proof.
  intros Hr Hf. unfold enumerateDates.
  destruct (Time.fromISO s) as [a|] eqn:Ha.
  - destruct (Time.fromISO e) as [b|] eqn:Hb.
    + rewrite (fromISO_regular tz now1 s a Hr Ha), (fromISO_regular tz now2 e b Hr Hb).
      rewrite (length_enumerateDates s e a b Ha Hb) in Hf.
      rewrite (enumerateLoop_regular tz _ fuel _ _ [] Hr eq_refl Hf).
      cbn [app]. now rewrite (enumerateDates_isoOfDay s e a b Ha Hb).
    + rewrite (fromISO_regular tz now1 s a Hr Ha).
      unfold fromISO. rewrite Hb. rewrite enumerateDates_invalid by now right. reflexivity.
  - unfold fromISO. rewrite Ha. rewrite enumerateDates_invalid by now left. reflexivity.
Qed.

Lemma newYork2025_regular : regularZone newYork2025.
Proof.
  assert (forall x, newYork2025 x = -240 \/ newYork2025 x = -300) as Hv
    by (intros x; unfold newYork2025; destruct (_ && _); tauto).
  split.
  - intros t t'. destruct (Hv t) as [-> | ->], (Hv t') as [-> | ->]; cbn; lia.
  - intros d t t'.
    destruct (Hv t) as [-> | ->], (Hv t') as [-> | ->]; try reflexivity;
      unfold newYork2025, dayMs;
      repeat match goal with
             | |- context [?a <=? ?b] => destruct (Z.leb_spec a b)
             | |- context [?a <? ?b] => destruct (Z.ltb_spec a b)
             end; cbn [andb]; try reflexivity; exfalso; lia.
Qed.

End LuxonFacts.

Import LuxonFacts.

Lemma jsDate_enumerateDates s e a b :
  fromISO s = Some a -> fromISO e = Some b ->
  map jsDate (enumerateDates s e)
  = map Some (zseq (epochDay a) (Z.to_nat (epochDay b - epochDay a))).
Proof.
  intros Ha Hb. rewrite (enumerateDates_spec s e a b Ha Hb).
  pose proof (fromISO_valid _ _ Ha) as Va. pose proof (fromISO_valid _ _ Hb) as Vb.
  pose proof Va as Va'. apply isValid_iff in Va'. destruct Va' as [Ca Ya].
  assert (Forall (fun x => isValid x = true)
            (daysFrom (Z.to_nat (epochDay b - epochDay a)) a)) as Hall.
  { destruct (Z_le_gt_dec (epochDay a) (epochDay b)) as [Hle | Hgt].
    - apply (daysFrom_valid _ a b); try assumption; lia.
    - replace (Z.to_nat (epochDay b - epochDay a)) with O by lia. constructor. }
  rewrite <- epochDay_daysFrom by assumption.
  rewrite !map_map. apply map_ext_in. intros c Hc.
  rewrite Forall_forall in Hall. now apply jsDate_toISODate, Hall.
Qed.

(** C7. A range is half-open, in a venue zone where every day starts at a
    midnight of its own (the default, America/New_York, is one): the dates
    Luxon's loop enumerates for a request, those reserved by a successful
    hold and those counted by the quote are the days from the start date up
    to the day before the end date; for 2025-03-10 to 2025-03-13 they are
    the 10th, 11th and 12th.  The total of the quote is the product as
    JavaScript rounds it, the exact product below 2^53. *)
Theorem range_half_open (E : Externals) (now : Z) (c k : string) (b : Holds.Body.t)
  (s : State) (start end_ : DateTime) (tz : Luxon.Zone) :
  regularZone tz ->
  fromISO (Holds.Body.startDate b) = Some start ->
  fromISO (Holds.Body.endDateExclusive b) = Some end_ ->
  let n := Z.to_nat (epochDay end_ - epochDay start) in
  let daysList := enumerateDates (Holds.Body.startDate b) (Holds.Body.endDateExclusive b) in
  (* the loop in the venue zone ends and returns the dates *)
  (forall fuel now1 now2, (n <= fuel)%nat ->
     Luxon.enumerateDates fuel tz now1 now2
       (Holds.Body.startDate b) (Holds.Body.endDateExclusive b) = Some daysList) /\
  (* the dates, as day numbers, are start, start + 1, ..., end - 1 *)
  map jsDate daysList = map Some (zseq (epochDay start) n) /\
  (forall d, In d (zseq (epochDay start) n) <-> epochDay start <= d < epochDay end_) /\
  daysList = map toISODate (daysFrom n start) /\
  (* the quote counts them *)
  Pricing.quoteRange (DAY_PRICE_CENTS E) (Holds.Body.startDate b) (Holds.Body.endDateExclusive b)
  = (Z.of_nat n, DAY_PRICE_CENTS E, Pricing.mulDouble (Z.of_nat n) (DAY_PRICE_CENTS E)) /\
  (Z.abs (Z.of_nat n * DAY_PRICE_CENTS E) < 2 ^ 53 ->
   Pricing.quoteRange (DAY_PRICE_CENTS E) (Holds.Body.startDate b) (Holds.Body.endDateExclusive b)
   = (Z.of_nat n, DAY_PRICE_CENTS E, Z.of_nat n * DAY_PRICE_CENTS E)) /\
  (* a successful hold reserves them, and nothing else *)
  (forall id exp s',
     Holds.POST E now c k b s = (Holds.Created id exp, s') ->
     bookedDay (db s')
     = deleteMany (Holds.expiredHold now) (bookedDay (db s)) ++ holdRows id exp (epochDay start) n /\
     map BookedDay.day (holdRows id exp (epochDay start) n) = zseq (epochDay start) n) /\
  Luxon.enumerateDates 3 newYork2025 now now "2025-03-10" "2025-03-13"
  = Some ["2025-03-10"; "2025-03-11"; "2025-03-12"]%string.
Proof.
  intros Hr Ha He n daysList.
  assert (List.length daysList = n) as Hlen by apply (length_enumerateDates _ _ start end_ Ha He).
  split.
  { intros fuel now1 now2 Hf. apply enumerateDates_regular; [assumption|].
    fold daysList. now rewrite Hlen. }
  split; [now apply jsDate_enumerateDates|].
  split; [intros d; rewrite In_zseq; unfold n; lia|].
  split; [now apply enumerateDates_spec|].
  split.
  { unfold Pricing.quoteRange. fold daysList. now rewrite Hlen. }
  split.
  { intros Hp. unfold Pricing.quoteRange. fold daysList. rewrite Hlen.
    now rewrite mulDouble_exact. }
  split.
  2:{ rewrite (enumerateDates_regular newYork2025 now now 3 _ _ newYork2025_regular);
        [reflexivity | vm_compute; lia]. }
  intros id exp s' H. split; [|apply days_holdRows].
  destruct (Holds.HoldRequestSchema E b) eqn:Hs;
    [|destruct (POST_early E now c k b s (or_introl Hs)) as [msg Hm]; congruence].
  destruct (Z_lt_ge_dec (epochDay start) (epochDay end_)) as [Hlt | Hge].
  - rewrite (POST_run E now c k b s start end_ Hs Ha He Hlt) in H. cbv zeta in H.
    destruct (0 <? _); [discriminate|]. destruct (_ =? _)%nat; [|discriminate].
    injection H as <- <- <-. reflexivity.
  - assert (daysList = []) as Hnil.
    { apply List.length_zero_iff_nil. unfold daysList.
      rewrite (length_enumerateDates _ _ start end_ Ha He). lia. }
    destruct (POST_early E now c k b s (or_intror Hnil)) as [msg Hm]. congruence.
Qed.

Lemma range_half_open_witness :
  regularZone newYork2025 /\
  fromISO "2025-03-08" = Some (mkDateTime 2025 3 8) /\
  fromISO "2025-03-11" = Some (mkDateTime 2025 3 11) /\
  Luxon.enumerateDates 3 newYork2025 1000 1000 "2025-03-08" "2025-03-11"
  = Some ["2025-03-08"; "2025-03-09"; "2025-03-10"]%string /\
  Pricing.quoteRange 50000 "2025-03-08" "2025-03-11" = (3, 50000, 150000) /\
  map BookedDay.day
    (bookedDay (db (snd (Holds.POST sampleE 1000 "cus_1" "bk_1"
                           (sampleBody "2025-03-08" "2025-03-11") emptyState))))
  = [20155; 20156; 20157] /\
  map isoOfDay [20155; 20156; 20157] = ["2025-03-08"; "2025-03-09"; "2025-03-10"]%string /\
  (* the hold of 10 to 13 March *)
  map isoOfDay (map BookedDay.day (bookedDay (db sampleHeld)))
  = ["2025-03-10"; "2025-03-11"; "2025-03-12"]%string.
Proof.
  split; [exact newYork2025_regular|].
  split; [reflexivity|]. split; [reflexivity|].
  destruct (range_half_open sampleE 1000 "cus_1" "bk_1" (sampleBody "2025-03-08" "2025-03-11")
              emptyState (mkDateTime 2025 3 8) (mkDateTime 2025 3 11) newYork2025
              newYork2025_regular eq_refl eq_refl)
    as (HL & _ & _ & _ & _ & HQ & H & _).
  split; [refine (eq_trans (HL 3%nat 1000 1000 _) _); vm_compute; [lia | reflexivity]|].
  split; [apply HQ; vm_compute; reflexivity|].
  split.
  { destruct (H "bk_1"%string (1000 + 15 * 60 * 1000)
                (snd (Holds.POST sampleE 1000 "cus_1" "bk_1"
                        (sampleBody "2025-03-08" "2025-03-11") emptyState))) as [H1 H2].
    - vm_compute. reflexivity.
    - rewrite H1. vm_compute. reflexivity. }
  split; [vm_compute; reflexivity|].
  destruct (range_half_open sampleE 1000 "cus_1" "bk_1" (sampleBody "2025-03-10" "2025-03-13")
              emptyState (mkDateTime 2025 3 10) (mkDateTime 2025 3 13) newYork2025
              newYork2025_regular eq_refl eq_refl)
    as (_ & _ & _ & _ & _ & _ & H' & _).
  destruct (H' "bk_1"%string (1000 + 15 * 60 * 1000) sampleHeld) as [H1 H2].
  - vm_compute. reflexivity.
  - rewrite H1. vm_compute. reflexivity.
Defined.

(** The loop itself, run on the clock changes of 2025 in New York, and on the
    days around 30 December 2011 in Apia, a day that zone left out: there the
    dates are not the days of the range. *)
Example enumerateDates_samples :
  Luxon.enumerateDates 9 newYork2025 0 0 "2025-03-08" "2025-03-11"
  = Some ["2025-03-08"; "2025-03-09"; "2025-03-10"]%string /\
  Luxon.enumerateDates 9 newYork2025 0 0 "2025-11-01" "2025-11-04"
  = Some ["2025-11-01"; "2025-11-02"; "2025-11-03"]%string /\
  Luxon.enumerateDates 9 apia2011 1735689600000 1735689600000 "2011-12-29" "2012-01-02"
  = Some ["2011-12-29"; "2011-12-31"; "2012-01-01"]%string /\
  Luxon.enumerateDates 9 apia2011 1735689600000 1735689600000 "2011-12-30" "2011-12-31"
  = Some [] /\
  ~ regularZone apia2011.
Proof.
  repeat (split; [vm_compute; reflexivity|]).
  intros [H _]. specialize (H 0 1325239200000). vm_compute in H. discriminate.
Qed.

(** ** Rollback of a failed hold *)

Lemma state_eta (s : State) : mkState (db s) (jobs s) = s.
Proof. destruct s; reflexivity. Qed.

(** C2. When fewer days are inserted than the request asks for, the
    transaction is rolled back (no Booking row, no day, no customer change
    is kept) and the answer is 409 "Some days are no longer available"; the
    same holds, with "Dates include blackouts", when a blackout lies in the
    range. *)
Theorem failed_hold_rolls_back (E : Externals) (now : Z) (c k : string) (b : Holds.Body.t)
  (s : State) (start end_ : DateTime) :
  policySeeded s ->
  Holds.HoldRequestSchema E b = true ->
  fromISO (Holds.Body.startDate b) = Some start ->
  fromISO (Holds.Body.endDateExclusive b) = Some end_ ->
  epochDay start < epochDay end_ ->
  let n := Z.to_nat (epochDay end_ - epochDay start) in
  let holdExpiresAt := now + HOLD_TTL_MINUTES E * 60 * 1000 in
  let inserted :=
    fst (createManySkipDuplicates (holdRows k holdExpiresAt (epochDay start) n)
           (deleteMany (Holds.expiredHold now) (bookedDay (db s)))) in
  (0 < blackoutsIn (epochDay start) (epochDay end_) (db s) ->
   Holds.POST E now c k b s = (Holds.Rejected 409 "Dates include blackouts", s)) /\
  (blackoutsIn (epochDay start) (epochDay end_) (db s) = 0 -> (inserted < n)%nat ->
   Holds.POST E now c k b s = (Holds.Rejected 409 "Some days are no longer available", s)).
Proof.
  intros Hseed Hs Ha He Hlt n holdExpiresAt inserted.
  rewrite (POST_run E now c k b s start end_ Hs Ha He Hlt). cbv zeta.
  fold n. fold holdExpiresAt. fold inserted.
  split.
  - intros Hb. apply Z.ltb_lt in Hb. now rewrite Hb.
  - intros Hb Hins. rewrite Hb. cbn [Z.ltb Z.compare].
    destruct (Nat.eqb_spec inserted n) as [Heq | _]; [lia|].
    assert (policy (db s) <> None) as Hp.
    { apply Hseed. intros Hnil. unfold inserted in Hins. rewrite Hnil in Hins.
      cbn [deleteMany filter] in Hins.
      rewrite createMany_free in Hins.
      - rewrite length_holdRows in Hins. lia.
      - rewrite days_holdRows. apply NoDup_zseq.
      - intros r _ []. }
    destruct (policy (db s)) as [p|] eqn:Hpol; [|congruence].
    rewrite (thePolicy_existing E (db s) p Hpol), <- Hpol, set_policy_same, state_eta.
    reflexivity.
Qed.

Lemma failed_hold_rolls_back_witness :
  let b := sampleBody "2025-03-12" "2025-03-14" in
  policySeeded sampleHeld /\
  Holds.HoldRequestSchema sampleE b = true /\
  fromISO (Holds.Body.startDate b) = Some (mkDateTime 2025 3 12) /\
  fromISO (Holds.Body.endDateExclusive b) = Some (mkDateTime 2025 3 14) /\
  Holds.POST sampleE 2000 "cus_2" "bk_2" b sampleHeld
  = (Holds.Rejected 409 "Some days are no longer available", sampleHeld).
Proof.
  intros b.
  assert (policySeeded sampleHeld) as Hseed by (intros _; vm_compute; discriminate).
  split; [exact Hseed|]. split; [reflexivity|]. split; [reflexivity|]. split; [reflexivity|].
  apply (failed_hold_rolls_back sampleE 2000 "cus_2" "bk_2" b sampleHeld
           (mkDateTime 2025 3 12) (mkDateTime 2025 3 14) Hseed eq_refl eq_refl eq_refl).
  - vm_compute. reflexivity.
  - vm_compute. reflexivity.
  - vm_compute. lia.
Defined.

(** ** Mutual exclusion *)

Lemma paymentUpsert_frame pi id st d d' :
  Webhook.paymentUpsert pi id st d = Ok d' -> bookedDay d' = bookedDay d.
Proof.
  unfold Webhook.paymentUpsert. intros H.
  destruct (existsb _ (payment d)); [now injection H as <-|].
  destruct (existsb _ (booking d)); [now injection H as <-|discriminate].
Qed.

Lemma uniqueDays_same s s' :
  bookedDay (db s') = bookedDay (db s) -> uniqueDays s -> uniqueDays s'.
Proof. unfold uniqueDays. now intros ->. Qed.

Lemma uniqueDays_hold E now c k b s :
  uniqueDays s -> uniqueDays (snd (Holds.POST E now c k b s)).
Proof.
  intros Hd.
  destruct (Holds.HoldRequestSchema E b) eqn:Hs;
    [|destruct (POST_early E now c k b s (or_introl Hs)) as [msg ->]; assumption].
  destruct (enumerateDates_cases (Holds.Body.startDate b) (Holds.Body.endDateExclusive b))
    as [Hnil | (a & e & Ha & He & Hlt)];
    [destruct (POST_early E now c k b s (or_intror Hnil)) as [msg ->]; assumption|].
  rewrite (POST_run E now c k b s a e Hs Ha He Hlt). cbv zeta.
  destruct (0 <? _); [assumption|].
  destruct (Nat.eqb_spec
              (fst (createManySkipDuplicates
                      (holdRows k (now + HOLD_TTL_MINUTES E * 60 * 1000) (epochDay a)
                         (Z.to_nat (epochDay e - epochDay a)))
                      (deleteMany (Holds.expiredHold now) (bookedDay (db s)))))
              (Z.to_nat (epochDay e - epochDay a))) as [Heq | Hne]; cbn [snd].
  - unfold uniqueDays in *. simpl_state.
    rewrite <- createMany_full by (now rewrite length_holdRows).
    apply createMany_NoDup. now apply NoDup_days_filter.
  - exact Hd.
Qed.

Lemma uniqueDays_confirm E now id pi cust s :
  uniqueDays s -> uniqueDays (Webhook.checkoutSessionCompleted E now id pi cust s).
Proof.
  intros Hd. rewrite confirm_run. unfold uniqueDays in *.
  destruct (findUnique _ _); cbv zeta; simpl_state; [|assumption].
  destruct (BookingStatus_eqb _ _); [assumption | now apply NoDup_days_booked].
Qed.

Lemma uniqueDays_expire now id s :
  uniqueDays s -> uniqueDays (Worker.handleHoldExpire now id s).
Proof.
  intros Hd. rewrite expire_run. unfold uniqueDays in *.
  break; simpl_state; try assumption. now apply NoDup_days_filter.
Qed.

Lemma uniqueDays_cancel E now id s :
  uniqueDays s -> uniqueDays (snd (Cancel.POST E now id s)).
Proof.
  intros Hd. unfold Cancel.POST, transaction.
  destruct (findUnique _ _) as [b|]; [|assumption].
  destruct (negb _); [assumption|].
  rewrite getOrCreate_eq.
  destruct (_ <? now); [exact Hd|].
  destruct (if 0 <? _ then _ else _) as [refunded refunds]. cbn [snd].
  unfold uniqueDays in *. simpl_state. now apply NoDup_days_filter.
Qed.

(** Every operation keeps the dates of the BookedDay rows distinct. *)
Lemma uniqueDays_step E s s' : Step E s s' -> uniqueDays s -> uniqueDays s'.
Proof.
  intros H Hd. destruct H as [| now req s | | | | | | d r s | d s | |].
  - now apply uniqueDays_hold.
  - unfold Webhook.POST. break; cbn [snd]; try assumption.
    match goal with e : Stripe.Event |- _ => destruct e as [? ? ?|pi|pi|] end;
      cbn [Webhook.handleEvent].
    + now apply uniqueDays_confirm.
    + unfold Webhook.paymentIntentSucceeded.
      destruct (Webhook.truthy (Stripe.metadata_bookingId pi)); [|assumption].
      destruct (Webhook.paymentUpsert _ _ _ _) eqn:Hu; [|assumption].
      apply (uniqueDays_same s); [|assumption]. now apply paymentUpsert_frame in Hu.
    + unfold Webhook.paymentIntentPaymentFailed.
      destruct (Webhook.truthy (Stripe.metadata_bookingId pi)); [|assumption].
      destruct (Webhook.paymentUpsert _ _ _ _) eqn:Hu; [|assumption].
      apply paymentUpsert_frame in Hu.
      destruct (_ <? 3); now apply (uniqueDays_same s).
    + assumption.
  - now apply uniqueDays_expire.
  - unfold Worker.handleRemainderCharge. break; assumption.
  - now apply uniqueDays_cancel.
  - unfold Availability.GET. break; assumption.
  - unfold Availability.POST. break; assumption.
  - unfold Blackouts.POST. break; assumption.
  - unfold Blackouts.DELETE. break; assumption.
  - unfold Checkout.POST. break; assumption.
  - unfold AdminRefunds.POST. break; assumption.
Qed.

Lemma In_enumerateDates d s e a b :
  fromISO s = Some a -> fromISO e = Some b -> In d (enumerateDates s e) ->
  exists z, jsDate d = Some z /\ In z (zseq (epochDay a) (Z.to_nat (epochDay b - epochDay a))).
Proof.
  intros Ha Hb Hin.
  apply (in_map jsDate) in Hin. rewrite (jsDate_enumerateDates s e a b Ha Hb) in Hin.
  apply in_map_iff in Hin. destruct Hin as [z [Hz Hin]]. exists z. split; [congruence | assumption].
Qed.

(** A hold that succeeded leaves its rows in the table, and the policy row. *)
Lemma hold_created E now c k b s id exp s' :
  Holds.POST E now c k b s = (Holds.Created id exp, s') ->
  exists a e,
    fromISO (Holds.Body.startDate b) = Some a /\
    fromISO (Holds.Body.endDateExclusive b) = Some e /\
    id = k /\ exp = now + HOLD_TTL_MINUTES E * 60 * 1000 /\
    bookedDay (db s')
    = deleteMany (Holds.expiredHold now) (bookedDay (db s))
      ++ holdRows k exp (epochDay a) (Z.to_nat (epochDay e - epochDay a)) /\
    policy (db s') = Some (thePolicy E (db s)).
Proof.
  intros H.
  destruct (Holds.HoldRequestSchema E b) eqn:Hs;
    [|destruct (POST_early E now c k b s (or_introl Hs)) as [msg Hm]; congruence].
  destruct (enumerateDates_cases (Holds.Body.startDate b) (Holds.Body.endDateExclusive b))
    as [Hnil | (a & e & Ha & He & Hlt)];
    [destruct (POST_early E now c k b s (or_intror Hnil)) as [msg Hm]; congruence|].
  rewrite (POST_run E now c k b s a e Hs Ha He Hlt) in H. cbv zeta in H.
  destruct (0 <? _); [discriminate|]. destruct (_ =? _)%nat; [|discriminate].
  injection H as <- <- <-. exists a, e. simpl_state. repeat split; assumption.
Qed.

(** While a hold is live, a request on an overlapping range inserts fewer
    rows than it asks for. *)
Lemma overlapping_hold_conflicts E s now1 c1 k1 b1 id1 exp1 s1 now2 k2 exp2 b2 a2 e2 :
  Holds.POST E now1 c1 k1 b1 s = (Holds.Created id1 exp1, s1) ->
  overlapping b1 b2 -> now2 <= exp1 ->
  fromISO (Holds.Body.startDate b2) = Some a2 ->
  fromISO (Holds.Body.endDateExclusive b2) = Some e2 ->
  (fst (createManySkipDuplicates
          (holdRows k2 exp2 (epochDay a2) (Z.to_nat (epochDay e2 - epochDay a2)))
          (deleteMany (Holds.expiredHold now2) (bookedDay (db s1))))
   < Z.to_nat (epochDay e2 - epochDay a2))%nat.
Proof.
  intros H1 (d & Hd1 & Hd2) Hlive Ha2 He2.
  destruct (hold_created _ _ _ _ _ _ _ _ _ H1) as (a1 & e1 & Ha1 & He1 & -> & Hexp & Hrows & _).
  destruct (In_enumerateDates d _ _ a1 e1 Ha1 He1 Hd1) as (z & Hz & Hz1).
  destruct (In_enumerateDates d _ _ a2 e2 Ha2 He2 Hd2) as (z' & Hz' & Hz2).
  assert (z' = z) as -> by congruence.
  rewrite <- (length_holdRows k2 exp2 (epochDay a2) (Z.to_nat (epochDay e2 - epochDay a2))) at 2.
  apply createMany_conflict.
  exists (BookedDay.mk k2 z Day_HELD (Some exp2)). split.
  - unfold holdRows.
    now apply (in_map (fun d => BookedDay.mk k2 d Day_HELD (Some exp2))).
  - cbn [BookedDay.day]. apply in_map_iff.
    exists (BookedDay.mk k1 z Day_HELD (Some exp1)). split; [reflexivity|].
    unfold deleteMany. apply filter_In. split.
    + rewrite Hrows. apply in_or_app. right. unfold holdRows.
      now apply (in_map (fun d => BookedDay.mk k1 d Day_HELD (Some exp1))).
    + unfold Holds.expiredHold. cbn [BookedDay.status BookedDay.holdExpiresAt BookedDayStatus_eqb andb].
      apply negb_true_iff. apply Z.ltb_ge. assumption.
Qed.

(** C1. No two BookedDay rows (each HELD or BOOKED) ever share a date: the
    invariant holds in every reachable state and every operation preserves
    it.  Hold creation enforces it by insert-or-fail: after a hold succeeded
    and while it is live, a request on an overlapping range does not succeed
    and changes nothing; it is answered 409 "Some days are no longer
    available" once it passes the schema and the blackout check. *)
Theorem mutual_exclusion (E : Externals) :
  (forall s, Reachable E s -> uniqueDays s) /\
  (forall s s', uniqueDays s -> Step E s s' -> uniqueDays s') /\
  (forall s now c k b,
     uniqueDays s ->
     uniqueDays (snd (Holds.POST E now c k b s)) /\
     (forall pi cust, uniqueDays (Webhook.checkoutSessionCompleted E now k pi cust s)) /\
     uniqueDays (Worker.handleHoldExpire now k s)) /\
  (forall s now1 c1 k1 b1 id1 exp1 s1 now2 c2 k2 b2,
     Holds.POST E now1 c1 k1 b1 s = (Holds.Created id1 exp1, s1) ->
     overlapping b1 b2 ->
     now2 <= exp1 ->
     snd (Holds.POST E now2 c2 k2 b2 s1) = s1 /\
     (forall id2 exp2, fst (Holds.POST E now2 c2 k2 b2 s1) <> Holds.Created id2 exp2) /\
     (Holds.HoldRequestSchema E b2 = true ->
      (forall a2 e2,
         fromISO (Holds.Body.startDate b2) = Some a2 ->
         fromISO (Holds.Body.endDateExclusive b2) = Some e2 ->
         blackoutsIn (epochDay a2) (epochDay e2) (db s1) = 0) ->
      fst (Holds.POST E now2 c2 k2 b2 s1)
      = Holds.Rejected 409 "Some days are no longer available")).
Proof.
  split; [intros s Hr; apply (Reachable_Inv E s Hr)|].
  split; [intros s s' Hd Hs; now apply (uniqueDays_step E s s')|].
  split.
  { intros s now c k b Hd. split; [now apply uniqueDays_hold|].
    split; [intros; now apply uniqueDays_confirm | now apply uniqueDays_expire]. }
  intros s now1 c1 k1 b1 id1 exp1 s1 now2 c2 k2 b2 H1 Hov Hlive.
  destruct (Holds.HoldRequestSchema E b2) eqn:Hs2.
  2:{ destruct (POST_early E now2 c2 k2 b2 s1 (or_introl Hs2)) as [msg ->]. cbn [fst snd].
      split; [reflexivity|]. split; [discriminate | discriminate]. }
  destruct (enumerateDates_cases (Holds.Body.startDate b2) (Holds.Body.endDateExclusive b2))
    as [Hnil | (a2 & e2 & Ha2 & He2 & Hlt2)].
  { destruct Hov as (d & _ & Hd2). rewrite Hnil in Hd2. destruct Hd2. }
  pose proof (overlapping_hold_conflicts E s now1 c1 k1 b1 id1 exp1 s1 now2 k2
                (now2 + HOLD_TTL_MINUTES E * 60 * 1000) b2 a2 e2 H1 Hov Hlive Ha2 He2) as Hc.
  destruct (hold_created _ _ _ _ _ _ _ _ _ H1) as (_ & _ & _ & _ & _ & _ & _ & Hpol).
  rewrite (POST_run E now2 c2 k2 b2 s1 a2 e2 Hs2 Ha2 He2 Hlt2). cbv zeta.
  destruct (0 <? blackoutsIn (epochDay a2) (epochDay e2) (db s1)) eqn:Hb.
  - cbn [fst snd]. split; [reflexivity|]. split; [discriminate|].
    intros _ Hno. rewrite (Hno a2 e2 Ha2 He2) in Hb. discriminate.
  - destruct (Nat.eqb_spec
                (fst (createManySkipDuplicates
                        (holdRows k2 (now2 + HOLD_TTL_MINUTES E * 60 * 1000) (epochDay a2)
                           (Z.to_nat (epochDay e2 - epochDay a2)))
                        (deleteMany (Holds.expiredHold now2) (bookedDay (db s1)))))
                (Z.to_nat (epochDay e2 - epochDay a2))) as [Heq | _]; [lia|].
    cbn [fst snd].
    rewrite (thePolicy_existing E (db s1) _ Hpol), <- Hpol, set_policy_same, state_eta.
    split; [reflexivity|]. split; [discriminate | reflexivity].
Qed.

Lemma mutual_exclusion_witness :
  Reachable sampleE sampleHeld /\
  uniqueDays sampleHeld /\
  overlapping (sampleBody "2025-03-10" "2025-03-13") (sampleBody "2025-03-12" "2025-03-14") /\
  Holds.POST sampleE 2000 "cus_2" "bk_2" (sampleBody "2025-03-12" "2025-03-14") sampleHeld
  = (Holds.Rejected 409 "Some days are no longer available", sampleHeld).
Proof.
  assert (Reachable sampleE sampleHeld) as Hr.
  { apply (reachable_step sampleE emptyState); [apply reachable_empty|].
    apply step_createHold. }
  assert (overlapping (sampleBody "2025-03-10" "2025-03-13")
            (sampleBody "2025-03-12" "2025-03-14")) as Hov.
  { exists "2025-03-12"%string. split; vm_compute; tauto. }
  split; [exact Hr|]. split; [exact (proj1 (mutual_exclusion sampleE) sampleHeld Hr)|].
  split; [exact Hov|].
  destruct (proj2 (proj2 (proj2 (mutual_exclusion sampleE)))
              emptyState 1000 "cus_1"%string "bk_1"%string (sampleBody "2025-03-10" "2025-03-13")
              "bk_1"%string (1000 + 15 * 60 * 1000) sampleHeld
              2000 "cus_2"%string "bk_2"%string (sampleBody "2025-03-12" "2025-03-14"))
    as (H1 & _ & H3).
  - vm_compute. reflexivity.
  - exact Hov.
  - vm_compute. discriminate.
  - rewrite (surjective_pairing (Holds.POST _ _ _ _ _ _)). rewrite H1, H3; [reflexivity | reflexivity |].
    intros a2 e2 Ha He. injection Ha as <-. injection He as <-. vm_compute. reflexivity.
Defined.

(** ** Idempotent confirmation *)

Lemma count_jobId (k : string) (q : list Job.t) :
  NoDup (map Job.jobId q) -> hasJob k q = true ->
  List.length (filter (fun j => String.eqb (Job.jobId j) k) q) = 1%nat.
Proof.
  intros Hnd Hk. apply (count_key_NoDup Job.jobId); [assumption | now apply hasJob_In].
Qed.

(** On a queue that holds none of the five job ids, the scheduling block adds
    exactly the remainder charge and the four reminders. *)
Lemma scheduleJobs_fresh E now id sd p q :
  Forall (fun k => hasJob k q = false) (confirmJobIds id) ->
  Webhook.scheduleJobs E now id sd p q
  = q ++ [Job.mk remainder_charge id None
            (Z.max (minusDaysAtHour E (sd * msPerDay) (Policy.remainderDaysBeforeStart p) 10 - now) 0)
            ("remainder-charge:" ++ id);
          Job.mk reminder_email id (Some "reminder-14d"%string)
            (Z.max (minusDaysAtHour E (sd * msPerDay) 14 9 - now) 0) ("reminder-14d:" ++ id);
          Job.mk reminder_email id (Some "reminder-7d"%string)
            (Z.max (minusDaysAtHour E (sd * msPerDay) 7 9 - now) 0) ("reminder-7d:" ++ id);
          Job.mk reminder_email id (Some "reminder-2d"%string)
            (Z.max (minusDaysAtHour E (sd * msPerDay) 2 9 - now) 0) ("reminder-2d:" ++ id);
          Job.mk reminder_email id (Some "reminder-1d"%string)
            (Z.max (minusDaysAtHour E (sd * msPerDay) 1 9 - now) 0) ("reminder-1d:" ++ id)].
Proof.
  unfold confirmJobIds, Webhook.scheduleJobs, Webhook.reminderOffsets.
  cbn [map fold_left]. cbv zeta.
  change (numberToString 14) with "14"%string. change (numberToString 7) with "7"%string.
  change (numberToString 2) with "2"%string. change (numberToString 1) with "1"%string.
  cbn [append].
  intros H. inversion H as [|? ? H0 H']; subst. inversion H' as [|? ? H14 H'']; subst.
  inversion H'' as [|? ? H7 H3]; subst. inversion H3 as [|? ? H2 H4]; subst.
  inversion H4 as [|? ? H1 _]; subst. clear H H' H'' H3 H4.
  unfold enqueue, hasJob in *.
  rewrite H0.
  rewrite existsb_app, H14. cbn [existsb Job.jobId String.eqb Ascii.eqb Bool.eqb orb andb].
  rewrite existsb_app, existsb_app, H7.
  cbn [existsb Job.jobId String.eqb Ascii.eqb Bool.eqb orb andb].
  rewrite !existsb_app, H2.
  cbn [existsb Job.jobId String.eqb Ascii.eqb Bool.eqb orb andb].
  rewrite !existsb_app, H1.
  cbn [existsb Job.jobId String.eqb Ascii.eqb Bool.eqb orb andb].
  rewrite <- !app_assoc. reflexivity.
Qed.

(** C3. Handling the same [checkout.session.completed] twice gives the state
    that handling it once gives: one Payment row for the payment intent and
    one job per job id (the remainder charge and the four reminders); when the
    booking is already CONFIRMED the days and the bookings are left as they
    are. *)
Theorem confirm_idempotent (E : Externals) (now1 now2 : Z) (bookingId paymentIntentId : string)
  (customerId : option string) (s : State) :
  let s1 := Webhook.checkoutSessionCompleted E now1 bookingId paymentIntentId customerId s in
  let s2 := Webhook.checkoutSessionCompleted E now2 bookingId paymentIntentId customerId s1 in
  s2 = s1 /\
  (statusOf bookingId s = Some CONFIRMED ->
   bookedDay (db s1) = bookedDay (db s) /\ booking (db s1) = booking (db s)) /\
  (statusOf bookingId s <> None -> uniquePayments s -> uniqueJobIds s ->
   List.length (filter (Webhook.hasIntent paymentIntentId) (payment (db s2))) = 1%nat /\
   (forall k, In k (confirmJobIds bookingId) ->
      List.length (filter (fun j => String.eqb (Job.jobId j) k) (jobs s2)) = 1%nat) /\
   (Forall (fun k => hasJob k (jobs s) = false) (confirmJobIds bookingId) ->
    List.length (jobs s2) = (List.length (jobs s) + 5)%nat)).
Proof.
  intros s1 s2.
  assert (s2 = s1) as Heq by apply confirm_twice.
  split; [exact Heq|]. rewrite Heq. clear Heq s2.
  unfold s1. rewrite confirm_run. unfold statusOf.
  change (fun r : Booking.t => String.eqb (Booking.id r) bookingId) with (Webhook.hasId bookingId).
  destruct (findUnique (Webhook.hasId bookingId) (booking (db s))) as [b|]; cbn [option_map].
  - cbv zeta. simpl_state. split.
    + intros H. injection H as ->. cbn [BookingStatus_eqb]. split; reflexivity.
    + intros _ Hp Hj. split; [|split].
      * refine (proj2 (upsert_one _ _ _ _ _ _ Hp)); reflexivity.
      * intros k Hk. apply count_jobId.
        -- now apply scheduleJobs_NoDup.
        -- now apply scheduleJobs_has.
      * intros Hfresh. rewrite scheduleJobs_fresh by assumption.
        rewrite length_app. reflexivity.
  - split; [discriminate|]. intros H. congruence.
Qed.

Lemma confirm_idempotent_witness :
  statusOf "bk_1" sampleHeld <> None /\ uniquePayments sampleHeld /\ uniqueJobIds sampleHeld /\
  Webhook.checkoutSessionCompleted sampleE 9000 "bk_1" "pi_1" (Some "cus_stripe_1"%string)
    sampleConfirmed = sampleConfirmed /\
  List.length (filter (Webhook.hasIntent "pi_1") (payment (db sampleConfirmed))) = 1%nat /\
  map Job.jobId (jobs sampleConfirmed)
  = ["hold-expire:bk_1"; "remainder-charge:bk_1"; "reminder-14d:bk_1"; "reminder-7d:bk_1";
     "reminder-2d:bk_1"; "reminder-1d:bk_1"]%string.
Proof.
  assert (statusOf "bk_1" sampleHeld <> None) as H1 by (vm_compute; discriminate).
  assert (uniquePayments sampleHeld) as H2 by (vm_compute; constructor).
  assert (uniqueJobIds sampleHeld) as H3.
  { vm_compute. constructor; [intros [] | constructor]. }
  split; [exact H1|]. split; [exact H2|]. split; [exact H3|].
  destruct (confirm_idempotent sampleE 2000 9000 "bk_1" "pi_1" (Some "cus_stripe_1"%string)
              sampleHeld) as (Hsame & _ & Hone).
  split; [exact Hsame|].
  destruct (Hone H1 H2 H3) as (Hpay & _ & _).
  split; [|vm_compute; reflexivity].
  fold sampleConfirmed in Hsame. unfold sampleConfirmed at 1. rewrite <- Hpay.
  fold sampleConfirmed. rewrite Hsame. reflexivity.
Defined.

(** ** Expiry after confirmation *)

Lemma find_hasId id l b : findUnique (Webhook.hasId id) l = Some b -> Booking.id b = id.
Proof.
  unfold findUnique. intros H. apply find_some in H. destruct H as [_ H].
  now apply String.eqb_eq in H.
Qed.

Lemma statusOf_confirm E now id pi cust s :
  statusOf id s <> None ->
  statusOf id (Webhook.checkoutSessionCompleted E now id pi cust s) = Some CONFIRMED.
Proof.
  unfold statusOf. rewrite confirm_run.
  change (fun r : Booking.t => String.eqb (Booking.id r) id) with (Webhook.hasId id).
  destruct (findUnique (Webhook.hasId id) (booking (db s))) as [b|] eqn:Hf;
    [|cbn [option_map]; congruence].
  intros _. cbv zeta. simpl_state.
  destruct (BookingStatus_eqb (Booking.status b) CONFIRMED) eqn:Hst.
  - rewrite Hf. cbn [option_map]. f_equal. now apply BookingStatus_eqb_eq.
  - rewrite find_updateMany by apply hasId_confirmed.
    rewrite Hf. cbn [option_map]. now rewrite status_confirmed.
Qed.

(** After the confirmation of a booking that was not yet confirmed, none of
    its days is HELD any more. *)
Lemma days_booked_after_confirm E now id pi cust s r :
  statusOf id s <> None -> statusOf id s <> Some CONFIRMED ->
  In r (daysOf id (Webhook.checkoutSessionCompleted E now id pi cust s)) ->
  BookedDay.status r = Day_BOOKED.
Proof.
  unfold statusOf, daysOf. rewrite confirm_run.
  change (fun r : Booking.t => String.eqb (Booking.id r) id) with (Webhook.hasId id).
  destruct (findUnique (Webhook.hasId id) (booking (db s))) as [b|] eqn:Hf;
    [|cbn [option_map]; congruence].
  cbn [option_map]. intros _ Hst. cbv zeta. simpl_state.
  destruct (BookingStatus_eqb (Booking.status b) CONFIRMED) eqn:Hc;
    [apply BookingStatus_eqb_eq in Hc; congruence|].
  intros Hin. apply filter_In in Hin. destruct Hin as [Hin Hid].
  unfold updateMany in Hin. apply in_map_iff in Hin. destruct Hin as [x [Hx Hin]].
  unfold Webhook.heldDayOf in Hx.
  destruct (String.eqb (BookedDay.bookingId x) id) eqn:Hxid; cbn [andb] in Hx.
  - destruct (BookedDay.status x) eqn:Hsx; cbn [BookedDayStatus_eqb] in Hx; subst r;
      [reflexivity | assumption].
  - subst r. congruence.
Qed.

(** C4. A hold-expiry job that runs after the confirmation has committed
    changes nothing: the booking stays CONFIRMED and its days stay BOOKED.
    More generally the job changes nothing when the booking is not HELD, or
    when one of its days still carries a hold expiry in the future. *)
Theorem stale_expiry_is_noop (E : Externals) (now now' : Z) (bookingId paymentIntentId : string)
  (customerId : option string) (s : State) :
  let s1 := Webhook.checkoutSessionCompleted E now bookingId paymentIntentId customerId s in
  (* expiry after confirm *)
  Worker.handleHoldExpire now' bookingId s1 = s1 /\
  (statusOf bookingId s = Some HELD ->
   statusOf bookingId (Worker.handleHoldExpire now' bookingId s1) = Some CONFIRMED /\
   forall r, In r (daysOf bookingId (Worker.handleHoldExpire now' bookingId s1)) ->
             BookedDay.status r = Day_BOOKED) /\
  (* expiry of a booking that is not HELD *)
  (statusOf bookingId s <> Some HELD -> Worker.handleHoldExpire now' bookingId s = s) /\
  (* expiry while a day of the booking is held into the future *)
  (bookedCleared s ->
   (exists r t, In r (daysOf bookingId s) /\ BookedDay.holdExpiresAt r = Some t /\ now' < t) ->
   Worker.handleHoldExpire now' bookingId s = s).
Proof.
  intros s1.
  assert (forall x, statusOf bookingId x <> Some HELD ->
                    Worker.handleHoldExpire now' bookingId x = x) as Hnot.
  { intros x. unfold statusOf. rewrite expire_run.
    change (fun r : Booking.t => String.eqb (Booking.id r) bookingId)
      with (Webhook.hasId bookingId).
    destruct (findUnique (Webhook.hasId bookingId) (booking (db x))) as [b|]; [|reflexivity].
    cbn [option_map]. intros H.
    destruct (BookingStatus_eqb (Booking.status b) HELD) eqn:Hb; [|reflexivity].
    apply BookingStatus_eqb_eq in Hb. congruence. }
  assert (Worker.handleHoldExpire now' bookingId s1 = s1) as Hs1.
  { apply Hnot. destruct (statusOf bookingId s) eqn:Hst.
    - unfold s1. rewrite statusOf_confirm by congruence. discriminate.
    - unfold s1, statusOf in *. rewrite confirm_run.
      change (fun r : Booking.t => String.eqb (Booking.id r) bookingId)
        with (Webhook.hasId bookingId) in *.
      destruct (findUnique (Webhook.hasId bookingId) (booking (db s))) as [b|] eqn:Hf;
        [discriminate|].
      simpl_state. rewrite Hf. discriminate. }
  split; [exact Hs1|]. split; [|split; [apply Hnot|]].
  - intros Hheld. rewrite Hs1. split.
    + unfold s1. apply statusOf_confirm. congruence.
    + intros r Hr.
      assert (BookedDay.status r = Day_BOOKED) as Hb
        by (apply (days_booked_after_confirm E now bookingId paymentIntentId customerId s r);
            [congruence | congruence | exact Hr]).
      exact Hb.
  - intros Hc (r & t & Hr & Ht & Hfut). rewrite expire_run.
    destruct (findUnique (Webhook.hasId bookingId) (booking (db s))) as [b|] eqn:Hf;
      [|reflexivity].
    destruct (negb _); [reflexivity|].
    rewrite (find_hasId _ _ _ Hf).
    assert (existsb (Worker.activeHold now')
              (findMany (fun r0 => String.eqb (BookedDay.bookingId r0) bookingId)
                 (bookedDay (db s))) = true) as ->; [|reflexivity].
    apply existsb_exists. exists r. split; [exact Hr|].
    unfold Worker.activeHold. rewrite Ht.
    unfold daysOf in Hr. apply filter_In in Hr. destruct Hr as [Hin _].
    destruct (BookedDay.status r) eqn:Hsr.
    + cbn [BookedDayStatus_eqb andb]. now apply Z.ltb_lt.
    + rewrite (Hc r Hin Hsr) in Ht. discriminate.
Qed.

(** ** Retries of the remainder charge *)

Lemma count_filter_mono {A} (p : A -> bool) (g : A -> A) (l : list A) :
  (forall r, p r = true -> p (g r) = true) ->
  (List.length (filter p l) <= List.length (filter p (map g l)))%nat.
Proof.
  intros H. induction l as [|x l IH]; cbn [map filter]; [lia|].
  destruct (p x) eqn:Hx.
  - rewrite (H x Hx). cbn [List.length]. lia.
  - destruct (p (g x)); cbn [List.length]; lia.
Qed.

(** Recording a failure never lowers the count of failed remainder payments
    of any booking. *)
Lemma failedRemainders_mono pi b' b d d' :
  Webhook.paymentUpsert pi b' failed d = Ok d' ->
  Webhook.failedRemainders b d <= Webhook.failedRemainders b d'.
Proof.
  unfold Webhook.paymentUpsert, Webhook.failedRemainders, count. intros H.
  destruct (existsb _ (payment d)).
  - injection H as <-. simpl_state. unfold updateMany.
    apply inj_le. apply count_filter_mono.
    intros r Hr.
    destruct (String.eqb (Payment.stripePaymentIntentId r) (Stripe.id pi)); [|assumption].
    cbn [Payment.with_status Payment.bookingId Payment.type Payment.status PaymentStatus_eqb].
    apply andb_true_iff in Hr. destruct Hr as [Hr _]. rewrite Hr. reflexivity.
  - destruct (existsb _ (booking d)); [|discriminate].
    injection H as <-. simpl_state. rewrite filter_app, length_app. lia.
Qed.

(** The failure of a payment intent not yet recorded, for an existing
    booking, adds one failed row. *)
Lemma paymentUpsert_fresh pi b d :
  existsb (fun r => String.eqb (Payment.stripePaymentIntentId r) (Stripe.id pi)) (payment d) = false ->
  existsb (fun r => String.eqb (Booking.id r) b) (booking d) = true ->
  Webhook.paymentUpsert pi b failed d
  = Ok (set_payment
          (payment d ++ [Payment.mk b (Stripe.id pi) (Stripe.amount pi)
                           (match Stripe.metadata_type pi with Some t => t | None => REMAINDER end)
                           failed]) d).
Proof. unfold Webhook.paymentUpsert. now intros -> ->. Qed.

Lemma failedRemainders_snoc b d p :
  Webhook.failedRemainders b (set_payment (payment d ++ [p]) d)
  = Webhook.failedRemainders b d
    + (if String.eqb (Payment.bookingId p) b && PaymentType_eqb (Payment.type p) REMAINDER
          && PaymentStatus_eqb (Payment.status p) failed then 1 else 0).
Proof.
  unfold Webhook.failedRemainders, count. simpl_state.
  rewrite filter_app, length_app. cbn [filter].
  destruct (_ && _); cbn [List.length]; lia.
Qed.

Lemma statusOf_exists id s :
  statusOf id s <> None <->
  existsb (fun r => String.eqb (Booking.id r) id) (booking (db s)) = true.
Proof.
  unfold statusOf, findUnique. split.
  - destruct (find _ _) as [b|] eqn:Hf; [|cbn; congruence]. intros _.
    apply find_some in Hf. apply existsb_exists. exists b. exact Hf.
  - intros H. apply existsb_exists in H. destruct H as [b [Hin Hb]].
    destruct (find _ _) as [b'|] eqn:Hf; [cbn; congruence|].
    apply (find_none _ _ Hf) in Hin. cbv beta in Hin. congruence.
Qed.

(** Once three remainder payments of a booking have failed, a further failure
    for that booking schedules nothing. *)
Lemma ceiling_stable pi b s :
  Webhook.truthy (Stripe.metadata_bookingId pi) = Some b ->
  3 <= Webhook.failedRemainders b (db s) ->
  jobs (Webhook.paymentIntentPaymentFailed pi s) = jobs s /\
  3 <= Webhook.failedRemainders b (db (Webhook.paymentIntentPaymentFailed pi s)).
Proof.
  intros Hb H3. unfold Webhook.paymentIntentPaymentFailed. rewrite Hb.
  destruct (Webhook.paymentUpsert pi b failed (db s)) as [d|] eqn:Hu; [|tauto].
  pose proof (failedRemainders_mono _ _ b _ _ Hu) as Hm.
  destruct (Webhook.failedRemainders b d <? 3) eqn:Hlt; [apply Z.ltb_lt in Hlt; lia|].
  cbn [jobs db]. split; [reflexivity | lia].
Qed.

Lemma ceiling_permanent b pis : forall s,
  Forall (fun pi => Webhook.truthy (Stripe.metadata_bookingId pi) = Some b) pis ->
  3 <= Webhook.failedRemainders b (db s) ->
  jobs (failures pis s) = jobs s.
Proof.
  induction pis as [|pi pis IH]; intros s Hall H3; [reflexivity|].
  inversion Hall as [|? ? Hpi Hrest]; subst. cbn [failures fold_left].
  destruct (ceiling_stable pi b s Hpi H3) as [Hj Hc].
  fold (failures pis (Webhook.paymentIntentPaymentFailed pi s)).
  rewrite IH by assumption. exact Hj.
Qed.

Lemma retryJobId_inj i j b :
  0 <= i < 3 -> 0 <= j < 3 -> Webhook.retryJobId i b = Webhook.retryJobId j b -> i = j.
Proof.
  intros Hi Hj H.
  assert (i = 0 \/ i = 1 \/ i = 2) as [-> | [-> | ->]] by lia;
  assert (j = 0 \/ j = 1 \/ j = 2) as [-> | [-> | ->]] by lia;
  try reflexivity; exfalso; unfold Webhook.retryJobId in H;
  change (numberToString 0) with "0"%string in H;
  change (numberToString 1) with "1"%string in H;
  change (numberToString 2) with "2"%string in H;
  cbn [append] in H; discriminate H.
Qed.

(** The failure of a remainder payment intent not yet recorded. *)
Lemma failed_step_fresh pi b s :
  isRemainderFailure b pi -> freshIntent pi s -> statusOf b s <> None ->
  let counter := Webhook.failedRemainders b (db s) + 1 in
  Webhook.paymentIntentPaymentFailed pi s
  = mkState
      (set_payment
         (payment (db s) ++ [Payment.mk b (Stripe.id pi) (Stripe.amount pi) REMAINDER failed])
         (db s))
      (if counter <? 3
       then enqueue remainder_charge b None (if counter =? 1 then sixHours else oneDay)
              (Webhook.retryJobId counter b) (jobs s)
       else jobs s).
Proof.
  intros [Hb Ht] Hf He counter. unfold Webhook.paymentIntentPaymentFailed. rewrite Hb.
  apply statusOf_exists in He.
  rewrite (paymentUpsert_fresh pi b (db s) Hf He), Ht.
  rewrite failedRemainders_snoc.
  cbn [Payment.bookingId Payment.type Payment.status PaymentType_eqb PaymentStatus_eqb].
  rewrite String.eqb_refl. cbn [andb]. fold counter.
  destruct (counter <? 3); reflexivity.
Qed.

(** Three failures in a row, for a booking without failed remainder payment:
    two retries are scheduled, after 6 hours and after 24 hours, and the
    third failure schedules none. *)
Lemma three_failures b pi1 pi2 pi3 s :
  isRemainderFailure b pi1 -> isRemainderFailure b pi2 -> isRemainderFailure b pi3 ->
  freshIntent pi1 s -> freshIntent pi2 s -> freshIntent pi3 s ->
  NoDup [Stripe.id pi1; Stripe.id pi2; Stripe.id pi3] ->
  statusOf b s <> None ->
  Webhook.failedRemainders b (db s) = 0 ->
  hasJob (Webhook.retryJobId 1 b) (jobs s) = false ->
  hasJob (Webhook.retryJobId 2 b) (jobs s) = false ->
  jobs (failures [pi1; pi2; pi3] s)
  = jobs s ++ [Job.mk remainder_charge b None sixHours (Webhook.retryJobId 1 b);
               Job.mk remainder_charge b None oneDay (Webhook.retryJobId 2 b)] /\
  Webhook.failedRemainders b (db (failures [pi1; pi2; pi3] s)) = 3.
Proof.
  intros R1 R2 R3 F1 F2 F3 Hnd He H0 J1 J2.
  assert (Stripe.id pi1 <> Stripe.id pi2 /\ Stripe.id pi1 <> Stripe.id pi3
          /\ Stripe.id pi2 <> Stripe.id pi3) as (N12 & N13 & N23).
  { inversion Hnd as [|? ? Hn1 Hnd']; subst. inversion Hnd' as [|? ? Hn2 _]; subst.
    cbn [In] in *. repeat split; intros Heq; rewrite Heq in *; tauto. }
  unfold failures. cbn [fold_left].
  rewrite (failed_step_fresh pi1 b s R1 F1 He). cbv zeta. rewrite H0.
  cbn [Z.add Z.ltb Z.eqb Z.compare Pos.compare Pos.compare_cont Pos.eqb Z.pos_sub].
  rewrite (enqueue_absent _ _ _ _ _ _ J1).
  set (s1 := mkState _ _).
  assert (freshIntent pi2 s1) as F2'.
  { unfold freshIntent, s1. simpl_state. rewrite existsb_app. unfold freshIntent in F2.
    rewrite F2. cbn [existsb Payment.stripePaymentIntentId]. rewrite orb_false_r.
    apply String.eqb_neq. congruence. }
  assert (statusOf b s1 <> None) as He1 by exact He.
  assert (Webhook.failedRemainders b (db s1) = 1) as H1.
  { unfold s1. cbn [db]. rewrite failedRemainders_snoc.
    cbn [Payment.bookingId Payment.type Payment.status PaymentType_eqb PaymentStatus_eqb].
    rewrite String.eqb_refl. cbn [andb]. lia. }
  rewrite (failed_step_fresh pi2 b s1 R2 F2' He1). cbv zeta. rewrite H1.
  cbn [Z.add Z.ltb Z.eqb Z.compare Pos.compare Pos.compare_cont Pos.eqb Pos.add Pos.succ].
  assert (hasJob (Webhook.retryJobId 2 b) (jobs s1) = false) as J2'.
  { unfold s1, hasJob. cbn [jobs]. rewrite existsb_app. unfold hasJob in J2. rewrite J2.
    cbn [existsb Job.jobId orb]. rewrite orb_false_r. apply String.eqb_neq.
    intros Heq. apply retryJobId_inj in Heq; lia. }
  rewrite (enqueue_absent _ _ _ _ _ _ J2').
  set (s2 := mkState _ _).
  assert (freshIntent pi3 s2) as F3'.
  { unfold freshIntent, s2, s1. simpl_state. rewrite !existsb_app. unfold freshIntent in F3.
    rewrite F3. cbn [existsb Payment.stripePaymentIntentId]. rewrite !orb_false_r.
    apply orb_false_iff. split; apply String.eqb_neq; congruence. }
  assert (statusOf b s2 <> None) as He2 by exact He.
  assert (Webhook.failedRemainders b (db s2) = 2) as H2.
  { unfold s2. cbn [db]. rewrite failedRemainders_snoc. rewrite H1.
    cbn [Payment.bookingId Payment.type Payment.status PaymentType_eqb PaymentStatus_eqb].
    rewrite String.eqb_refl. cbn [andb]. lia. }
  rewrite (failed_step_fresh pi3 b s2 R3 F3' He2). cbv zeta. rewrite H2.
  cbn [Z.add Z.ltb Z.eqb Z.compare Pos.compare Pos.compare_cont Pos.eqb Pos.add Pos.succ].
  cbn [jobs db]. split.
  - unfold s2, s1. cbn [jobs]. rewrite <- app_assoc. reflexivity.
  - rewrite failedRemainders_snoc, H2.
    cbn [Payment.bookingId Payment.type Payment.status PaymentType_eqb PaymentStatus_eqb].
    rewrite String.eqb_refl. cbn [andb]. lia.
Qed.

(** C5. The failure of a remainder payment is counted; while the count of
    failed remainder payments of the booking is below 3 a retry of the charge
    is scheduled, 6 hours later after the first failure and 24 hours later
    after the second, under a job id of its own; from the third failure on
    nothing more is scheduled, whatever failures follow. *)
Theorem retry_ceiling (pi : Stripe.PaymentIntent) (bookingId : string) (s : State) :
  isRemainderFailure bookingId pi ->
  statusOf bookingId s <> None ->
  let s' := Webhook.paymentIntentPaymentFailed pi s in
  let counter := Webhook.failedRemainders bookingId (db s') in
  Webhook.failedRemainders bookingId (db s) <= counter /\
  (freshIntent pi s -> counter = Webhook.failedRemainders bookingId (db s) + 1) /\
  (* below the ceiling: one retry, with backoff *)
  (counter < 3 ->
   jobs s' = enqueue remainder_charge bookingId None
               (if counter =? 1 then sixHours else oneDay)
               (Webhook.retryJobId counter bookingId) (jobs s)) /\
  (* at the ceiling: no retry, now or later *)
  (3 <= counter ->
   jobs s' = jobs s /\
   forall more, Forall (isRemainderFailure bookingId) more -> jobs (failures more s') = jobs s) /\
  (* three failures in a row schedule two retries, not three *)
  (forall pi2 pi3,
     isRemainderFailure bookingId pi2 -> isRemainderFailure bookingId pi3 ->
     freshIntent pi s -> freshIntent pi2 s -> freshIntent pi3 s ->
     NoDup [Stripe.id pi; Stripe.id pi2; Stripe.id pi3] ->
     Webhook.failedRemainders bookingId (db s) = 0 ->
     hasJob (Webhook.retryJobId 1 bookingId) (jobs s) = false ->
     hasJob (Webhook.retryJobId 2 bookingId) (jobs s) = false ->
     jobs (failures [pi; pi2; pi3] s)
     = jobs s ++ [Job.mk remainder_charge bookingId None sixHours (Webhook.retryJobId 1 bookingId);
                  Job.mk remainder_charge bookingId None oneDay (Webhook.retryJobId 2 bookingId)]) /\
  (* the job ids of the retries differ *)
  (forall i j, 0 <= i < 3 -> 0 <= j < 3 ->
     Webhook.retryJobId i bookingId = Webhook.retryJobId j bookingId -> i = j).
Proof.
  intros R He s' counter.
  assert (exists d, Webhook.paymentUpsert pi bookingId failed (db s) = Ok d) as [d Hu].
  { unfold Webhook.paymentUpsert. destruct (existsb _ (payment (db s))); [eauto|].
    apply statusOf_exists in He. rewrite He. eauto. }
  assert (s' = if Webhook.failedRemainders bookingId d <? 3
               then mkState d (enqueue remainder_charge bookingId None
                                 (if Webhook.failedRemainders bookingId d =? 1
                                  then sixHours else oneDay)
                                 (Webhook.retryJobId (Webhook.failedRemainders bookingId d) bookingId)
                                 (jobs s))
               else mkState d (jobs s)) as Hs'.
  { unfold s', Webhook.paymentIntentPaymentFailed. destruct R as [-> _]. rewrite Hu.
    destruct (_ <? 3); reflexivity. }
  assert (counter = Webhook.failedRemainders bookingId d) as Hc.
  { unfold counter. rewrite Hs'. destruct (_ <? 3); reflexivity. }
  split; [rewrite Hc; now apply (failedRemainders_mono pi bookingId)|].
  split.
  { intros Hf. unfold counter, s'. rewrite (failed_step_fresh pi bookingId s R Hf He).
    cbn [db]. rewrite failedRemainders_snoc.
    cbn [Payment.bookingId Payment.type Payment.status PaymentType_eqb PaymentStatus_eqb].
    rewrite String.eqb_refl. reflexivity. }
  split.
  { intros Hlt. rewrite Hs', <- Hc. apply Z.ltb_lt in Hlt. rewrite Hlt. reflexivity. }
  split.
  { intros Hge.
    assert (jobs s' = jobs s) as Hj.
    { rewrite Hs', <- Hc. destruct (counter <? 3) eqn:Hlt; [apply Z.ltb_lt in Hlt; lia|].
      reflexivity. }
    split; [exact Hj|]. intros more Hmore. rewrite <- Hj.
    apply (ceiling_permanent bookingId); [|exact Hge].
    eapply Forall_impl; [|exact Hmore]. intros x [Hx _]. exact Hx. }
  split.
  { intros pi2 pi3 R2 R3 F1 F2 F3 Hnd H0 J1 J2.
    now apply (three_failures bookingId pi pi2 pi3 s). }
  intros i j. apply retryJobId_inj.
Qed.

Lemma retry_ceiling_witness :
  let f id := Stripe.mkPaymentIntent id 130000 (Some "bk_1"%string) (Some REMAINDER) in
  isRemainderFailure "bk_1" (f "pi_a"%string) /\
  statusOf "bk_1" sampleConfirmed <> None /\
  map (fun j => (Job.jobId j, Job.delay j))
    (jobs (failures [f "pi_a"; f "pi_b"; f "pi_c"; f "pi_d"]%string sampleConfirmed))
  = map (fun j => (Job.jobId j, Job.delay j)) (jobs sampleConfirmed)
    ++ [("remainder-charge-retry1:bk_1"%string, 21600000);
        ("remainder-charge-retry2:bk_1"%string, 86400000)] /\
  Webhook.failedRemainders "bk_1"
    (db (Webhook.paymentIntentPaymentFailed (f "pi_a"%string) sampleConfirmed)) = 1.
Proof.
  intros f.
  assert (isRemainderFailure "bk_1" (f "pi_a"%string)) as R by (split; reflexivity).
  assert (statusOf "bk_1" sampleConfirmed <> None) as He by (vm_compute; discriminate).
  split; [exact R|]. split; [exact He|]. split; [vm_compute; reflexivity|].
  destruct (retry_ceiling (f "pi_a"%string) "bk_1" sampleConfirmed R He) as (_ & H & _).
  rewrite H; vm_compute; reflexivity.
Defined.

(** ** Availability *)

Lemma takenDay_spec now r :
  Availability.takenDay now r = true <->
  BookedDay.status r = Day_BOOKED \/
  (BookedDay.status r = Day_HELD /\ exists t, BookedDay.holdExpiresAt r = Some t /\ now < t).
Proof.
  unfold Availability.takenDay.
  destruct (BookedDay.status r), (BookedDay.holdExpiresAt r) as [t|];
    cbn [BookedDayStatus_eqb orb andb]; rewrite ?Z.ltb_lt; split;
    try (intros H; discriminate H); try tauto.
  - intros H. right. split; [reflexivity|]. exists t. tauto.
  - intros [H | [_ [t' [H1 H2]]]]; [discriminate|]. congruence.
  - intros [H | [_ [t' [H1 H2]]]]; discriminate.
Qed.

Lemma inRange_spec gte lt d : Availability.inRange gte lt d = true <-> gte <= d < lt.
Proof. unfold Availability.inRange. rewrite andb_true_iff, Z.leb_le, Z.ltb_lt. tauto. Qed.

Lemma In_setAdd x y l : In x (Availability.setAdd y l) <-> x = y \/ In x l.
Proof.
  unfold Availability.setAdd. destruct (existsb (String.eqb y) l) eqn:He.
  - split; [tauto|]. intros [-> | H]; [|assumption].
    apply existsb_exists in He. destruct He as [z [Hz Heq]].
    apply String.eqb_eq in Heq. now subst z.
  - rewrite in_app_iff. cbn [In]. intuition congruence.
Qed.

Lemma NoDup_setAdd y l : NoDup l -> NoDup (Availability.setAdd y l).
Proof.
  intros H. unfold Availability.setAdd. destruct (existsb (String.eqb y) l) eqn:He; [assumption|].
  apply NoDup_app; [assumption | repeat constructor; intros [] | ].
  intros x Hx [<- | []].
  assert (existsb (String.eqb y) l = true) as Ht; [|congruence].
  apply existsb_exists. exists y. split; [assumption | apply String.eqb_refl].
Qed.

Lemma fold_setAdd {A} (p : A -> bool) (f : A -> string) (l : list A) : forall acc,
  let taken := fold_left (fun taken d => if p d then Availability.setAdd (f d) taken else taken) l acc in
  (NoDup acc -> NoDup taken) /\
  (forall x, In x taken <-> In x acc \/ exists d, In d l /\ p d = true /\ x = f d).
Proof.
  induction l as [|d l IH]; intros acc; cbn [fold_left]; cbv zeta.
  - split; [tauto|]. intros x. split; [tauto|]. intros [H | [d [[] _]]]. exact H.
  - destruct (IH (if p d then Availability.setAdd (f d) acc else acc)) as [IH1 IH2].
    cbv zeta in IH1, IH2. split.
    + intros Hnd. apply IH1. destruct (p d); [now apply NoDup_setAdd | assumption].
    + intros x. rewrite IH2. destruct (p d) eqn:Hp.
      * rewrite In_setAdd. split.
        -- intros [[-> | H] | [d' [H1 H2]]]; [right; exists d; cbn; tauto | tauto |].
           right. exists d'. cbn. tauto.
        -- intros [H | [d' [[<- | H1] [H2 H3]]]]; [tauto | tauto |].
           right. exists d'. tauto.
      * split.
        -- intros [H | [d' [H1 H2]]]; [tauto|]. right. exists d'. cbn. tauto.
        -- intros [H | [d' [[<- | H1] [H2 H3]]]]; [tauto | congruence |].
           right. exists d'. tauto.
Qed.

Lemma fold_taken_filter {A} (p : A -> bool) (g : list string -> A -> list string) (l : list A) :
  forall acc,
  fold_left (fun taken d => if p d then g taken d else taken) (filter p l) acc
  = fold_left (fun taken d => if p d then g taken d else taken) l acc.
Proof.
  induction l as [|d l IH]; intros acc; cbn [filter fold_left]; [reflexivity|].
  destruct (p d) eqn:Hp; cbn [fold_left]; [rewrite Hp|]; apply IH.
Qed.

Lemma filter_comm {A} (p q : A -> bool) (l : list A) :
  filter p (filter q l) = filter q (filter p l).
Proof.
  induction l as [|x l IH]; cbn [filter]; [reflexivity|].
  destruct (p x) eqn:Hp, (q x) eqn:Hq; cbn [filter]; rewrite ?Hp, ?Hq, IH; reflexivity.
Qed.

Lemma daysInMonth_bounds y m : 28 <= daysInMonth y m <= 31.
Proof.
  unfold daysInMonth. destruct (m =? 2); [destruct (isLeapYear y); lia|].
  destruct (_ || _); lia.
Qed.

(** The bounds of a month of the query schema are the first of the month and
    the first of the next month. *)
Lemma monthBounds_days y m :
  MonthQuerySchema y m = true ->
  jsDate (fst (monthBounds y m)) = Some (epochDay (mkDateTime y m 1)) /\
  jsDate (snd (monthBounds y m)) = Some (epochDay (plusMonth (mkDateTime y m 1))).
Proof.
  unfold MonthQuerySchema. rewrite !andb_true_iff, !Z.leb_le. intros [[[H1 H2] H3] H4].
  unfold monthBounds. cbn [fst snd]. split; apply jsDate_toISODate; apply isValid_iff.
  - rewrite isCivil_iff. cbn [year month day].
    pose proof (daysInMonth_bounds y m). lia.
  - unfold plusMonth. cbn [year month day]. destruct (m <? 12) eqn:Hm.
    + apply Z.ltb_lt in Hm. rewrite isCivil_iff. cbn [year month day].
      pose proof (daysInMonth_bounds y (m + 1)). lia.
    + rewrite isCivil_iff. cbn [year month day].
      pose proof (daysInMonth_bounds (y + 1) 1). lia.
Qed.

Lemma unavailable_rows now gte lt s iso :
  unavailableIn now gte lt s iso <->
  (exists r, In r (filter (fun r => Availability.inRange gte lt (BookedDay.day r)) (bookedDay (db s)))
             /\ Availability.takenDay now r = true /\ iso = isoOfDay (BookedDay.day r)) \/
  (exists x, In x (filter (fun x => Availability.inRange gte lt (Blackout.day x)) (blackout (db s)))
             /\ iso = isoOfDay (Blackout.day x)).
Proof.
  unfold unavailableIn. split.
  - intros [(r & H1 & H2 & H3 & H4) | [(r & t & H1 & H2 & H3 & H4 & H5 & H6) | (x & H1 & H2 & H3)]].
    + left. exists r. rewrite filter_In, inRange_spec, takenDay_spec. tauto.
    + left. exists r. rewrite filter_In, inRange_spec, takenDay_spec.
      split; [tauto|]. split; [|assumption]. right. split; [assumption|]. exists t. tauto.
    + right. exists x. rewrite filter_In, inRange_spec. tauto.
  - intros [(r & H1 & H2 & H3) | (x & H1 & H2)].
    + rewrite filter_In, inRange_spec in H1. apply takenDay_spec in H2.
      destruct H2 as [H2 | [H2 (t & H4 & H5)]].
      * left. exists r. tauto.
      * right. left. exists r, t. tauto.
    + rewrite filter_In, inRange_spec in H1. right. right. exists x. tauto.
Qed.

(** C8. The availability queries report the union of three sets over the
    days asked for: the BOOKED days, the HELD days whose hold expires after
    the instant of the query, and the blackouts.  A HELD day whose hold is
    over counts for nothing, whether or not it is still in the table, and the
    queries write nothing. *)
Theorem availability_is_union (now : Z) (s : State) :
  (forall year month,
     MonthQuerySchema year month = true ->
     let gte := epochDay (mkDateTime year month 1) in
     let lt := epochDay (plusMonth (mkDateTime year month 1)) in
     snd (Availability.GET now year month s) = s /\
     (exists taken,
        fst (Availability.GET now year month s) = Availability.Month year month taken /\
        NoDup taken /\
        forall iso, In iso taken <-> unavailableIn now gte lt s iso) /\
     fst (Availability.GET now year month (withoutExpired now s))
     = fst (Availability.GET now year month s)) /\
  (forall startDate endDateExclusive gte lt,
     RangeSchema startDate endDateExclusive = true ->
     jsDate startDate = Some gte -> jsDate endDateExclusive = Some lt ->
     snd (Availability.POST now startDate endDateExclusive s) = s /\
     ((fst (Availability.POST now startDate endDateExclusive s) = Availability.RangeFree /\
       forall iso, ~ unavailableIn now gte lt s iso) \/
      (exists conflicts,
         fst (Availability.POST now startDate endDateExclusive s)
         = Availability.RangeConflicts conflicts /\
         conflicts <> [] /\
         forall iso, In iso conflicts <-> unavailableIn now gte lt s iso)) /\
     fst (Availability.POST now startDate endDateExclusive (withoutExpired now s))
     = fst (Availability.POST now startDate endDateExclusive s)).
Proof.
  split.
  - intros year month Hq gte lt.
    destruct (monthBounds_days year month Hq) as [Hg Hl].
    unfold Availability.GET. rewrite Hq. cbn [negb].
    rewrite (surjective_pairing (monthBounds year month)), Hg, Hl. fold gte lt.
    unfold findMany. cbn [fst snd].
    split; [reflexivity|]. split.
    + eexists. split; [reflexivity|].
      set (days := filter _ (bookedDay (db s))).
      set (blackouts := filter _ (blackout (db s))).
      destruct (fold_setAdd (Availability.takenDay now)
                  (fun d => isoOfDay (BookedDay.day d)) days []) as [N1 M1].
      destruct (fold_setAdd (fun _ : Blackout.t => true)
                  (fun b => isoOfDay (Blackout.day b)) blackouts
                  (fold_left
                     (fun taken d =>
                        if Availability.takenDay now d
                        then Availability.setAdd (isoOfDay (BookedDay.day d)) taken
                        else taken) days [])) as [N2 M2].
      cbv zeta in N1, M1, N2, M2. split.
      * apply N2, N1. constructor.
      * intros iso. rewrite unavailable_rows. fold days blackouts.
        specialize (M2 iso). cbv beta iota in M2. rewrite M2, M1. cbn [In].
        split.
        -- intros [[[] | (r & H)] | (x & H1 & _ & H2)]; [left; exists r; exact H|].
           right. exists x. tauto.
        -- intros [(r & H) | (x & H1 & H2)]; [left; right; exists r; exact H|].
           right. exists x. tauto.
    + unfold withoutExpired. simpl_state. f_equal. f_equal.
      rewrite filter_comm. apply fold_taken_filter.
  - intros startDate endDateExclusive gte lt Hq Hg Hl.
    unfold Availability.POST. rewrite Hq, Hg, Hl. cbn [negb]. unfold findMany.
    set (conflicts := filter _ (bookedDay (db s))).
    set (blackouts := filter _ (blackout (db s))).
    assert (forall iso,
              In iso (map (fun r => isoOfDay (BookedDay.day r)) conflicts
                      ++ map (fun r => isoOfDay (Blackout.day r)) blackouts)
              <-> unavailableIn now gte lt s iso) as Hin.
    { intros iso. rewrite unavailable_rows, in_app_iff, !in_map_iff. fold blackouts.
      split.
      - intros [(r & H1 & H2) | (x & H1 & H2)].
        + left. exists r. unfold conflicts in H2. rewrite filter_In, andb_true_iff in H2.
          rewrite filter_In. intuition congruence.
        + right. exists x. intuition congruence.
      - intros [(r & H1 & H2 & H3) | (x & H1 & H2)].
        + left. exists r. split; [congruence|]. unfold conflicts.
          rewrite filter_In in *. rewrite andb_true_iff. tauto.
        + right. exists x. split; [congruence | assumption]. }
    split; [now destruct (_ || _)|]. split.
    + destruct conflicts as [|r0 conflicts'] eqn:Hc, blackouts as [|x0 blackouts'] eqn:Hb;
        cbn [List.length Nat.ltb Nat.leb orb fst].
      * left. split; [reflexivity|]. intros iso Hu. apply Hin in Hu. destruct Hu.
      * right. eexists. split; [reflexivity|]. split; [discriminate | exact Hin].
      * right. eexists. split; [reflexivity|]. split; [discriminate | exact Hin].
      * right. eexists. split; [reflexivity|]. split; [discriminate | exact Hin].
    + unfold withoutExpired. simpl_state.
      assert (filter (fun r => Availability.inRange gte lt (BookedDay.day r) && Availability.takenDay now r)
                (filter (Availability.takenDay now) (bookedDay (db s))) = conflicts) as ->.
      { unfold conflicts. clear. induction (bookedDay (db s)) as [|x l IH]; [reflexivity|].
        cbn [filter]. destruct (Availability.takenDay now x) eqn:Ht; cbn [filter].
        - rewrite Ht, IH. reflexivity.
        - rewrite andb_false_r. exact IH. }
      fold blackouts. destruct (_ || _); reflexivity.
Qed.

Lemma availability_is_union_witness :
  MonthQuerySchema 2025 3 = true /\
  snd (Availability.GET 2000 2025 3 sampleHeld) = sampleHeld /\
  fst (Availability.GET 2000 2025 3 sampleHeld)
  = Availability.Month 2025 3 ["2025-03-10"; "2025-03-11"; "2025-03-12"]%string /\
  fst (Availability.GET 1000000 2025 3 sampleHeld) = Availability.Month 2025 3 [] /\
  fst (Availability.POST 1000000 "2025-03-10" "2025-03-13" sampleHeld) = Availability.RangeFree /\
  fst (Availability.POST 2000 "2025-03-12" "2025-03-14" sampleHeld)
  = Availability.RangeConflicts ["2025-03-12"%string].
Proof.
  split; [reflexivity|]. split.
  - apply (proj1 (availability_is_union 2000 sampleHeld) 2025 3). reflexivity.
  - repeat split; vm_compute; reflexivity.
Defined.

Lemma stale_expiry_is_noop_witness :
  statusOf "bk_1" sampleHeld = Some HELD /\
  bookedCleared sampleHeld /\
  (exists r t, In r (daysOf "bk_1" sampleHeld) /\ BookedDay.holdExpiresAt r = Some t /\ 2000 < t) /\
  Worker.handleHoldExpire 2000 "bk_1" sampleHeld = sampleHeld /\
  Worker.handleHoldExpire 1000000 "bk_1" sampleConfirmed = sampleConfirmed /\
  statusOf "bk_1" (Worker.handleHoldExpire 1000000 "bk_1" sampleConfirmed) = Some CONFIRMED /\
  statusOf "bk_1" (Worker.handleHoldExpire 1000000 "bk_1" sampleHeld) = Some CANCELLED.
Proof.
  assert (bookedCleared sampleHeld) as Hc.
  { apply (Reachable_Inv sampleE). apply (reachable_step sampleE emptyState).
    - apply reachable_empty.
    - apply step_createHold. }
  assert (exists r t, In r (daysOf "bk_1" sampleHeld) /\
                      BookedDay.holdExpiresAt r = Some t /\ 2000 < t) as Hex.
  { exists (BookedDay.mk "bk_1" 20157 Day_HELD (Some 901000)), 901000.
    split; [vm_compute; tauto|]. split; [reflexivity | lia]. }
  split; [vm_compute; reflexivity|]. split; [exact Hc|]. split; [exact Hex|].
  destruct (stale_expiry_is_noop sampleE 2000 2000 "bk_1" "pi_1" (Some "cus_stripe_1"%string)
              sampleHeld) as (_ & _ & _ & H4).
  destruct (stale_expiry_is_noop sampleE 2000 1000000 "bk_1" "pi_1" (Some "cus_stripe_1"%string)
              sampleHeld) as (H1 & H2 & _ & _).
  split; [exact (H4 Hc Hex)|]. split; [exact H1|].
  split; [|vm_compute; reflexivity].
  apply H2. vm_compute. reflexivity.
Defined.

(** * Further properties of the code *)

(** ** The life of a hold *)

(** The state a successful hold leaves. *)
Lemma hold_state E now c k b s id exp s' :
  Holds.POST E now c k b s = (Holds.Created id exp, s') ->
  exists a e,
    Holds.HoldRequestSchema E b = true /\
    fromISO (Holds.Body.startDate b) = Some a /\
    fromISO (Holds.Body.endDateExclusive b) = Some e /\
    epochDay a < epochDay e /\
    id = k /\ exp = now + HOLD_TTL_MINUTES E * 60 * 1000 /\
    (0 <? blackoutsIn (epochDay a) (epochDay e) (db s)) = false /\
    fst (createManySkipDuplicates
           (holdRows k exp (epochDay a) (Z.to_nat (epochDay e - epochDay a)))
           (deleteMany (Holds.expiredHold now) (bookedDay (db s))))
    = Z.to_nat (epochDay e - epochDay a) /\
    s' = mkState
           (mkDB (deleteMany (Holds.expiredHold now) (bookedDay (db s))
                  ++ holdRows k exp (epochDay a) (Z.to_nat (epochDay e - epochDay a)))
              (booking (db s) ++ [heldBooking E c k b (epochDay a) (epochDay e) (db s)])
              (snd (Holds.customerUpsert (Holds.Body.customer b) c (customer (db s))))
              (payment (db s)) (refund (db s)) (blackout (db s)) (Some (thePolicy E (db s))))
           (enqueue hold_expire k None (HOLD_TTL_MINUTES E * 60 * 1000)
              ("hold-expire:" ++ k) (jobs s)).
Proof.
  intros H.
  destruct (Holds.HoldRequestSchema E b) eqn:Hs;
    [|destruct (POST_early E now c k b s (or_introl Hs)) as [msg Hm]; congruence].
  destruct (enumerateDates_cases (Holds.Body.startDate b) (Holds.Body.endDateExclusive b))
    as [Hnil | (a & e & Ha & He & Hlt)];
    [destruct (POST_early E now c k b s (or_intror Hnil)) as [msg Hm]; congruence|].
  rewrite (POST_run E now c k b s a e Hs Ha He Hlt) in H. cbv zeta in H.
  destruct (0 <? _) eqn:Hb; [discriminate|].
  destruct (_ =? _)%nat eqn:Hn; [|discriminate].
  apply Nat.eqb_eq in Hn.
  exists a, e.
  assert (id = k) as -> by congruence.
  assert (exp = now + HOLD_TTL_MINUTES E * 60 * 1000) as -> by congruence.
  assert (s' = snd (Holds.Created k (now + HOLD_TTL_MINUTES E * 60 * 1000), s')) as Hs'
    by reflexivity.
  rewrite <- H in Hs'. cbn [snd] in Hs'.
  repeat (split; [assumption || reflexivity|]). exact Hs'.
Qed.

(** X1. A hold request is refused with 400 and changes nothing when its body
    fails the schema ("Invalid body"), and when its range is empty ("Empty
    range"): an end date on or before the start date, or a date that is not
    a date of the calendar, such as 2025-02-30. *)
Theorem hold_rejects_bad_range (E : Externals) (now : Z) (c k : string) (b : Holds.Body.t)
  (s : State) :
  (Holds.HoldRequestSchema E b = false ->
   Holds.POST E now c k b s = (Holds.Rejected 400 "Invalid body", s)) /\
  (Holds.HoldRequestSchema E b = true ->
   (fromISO (Holds.Body.startDate b) = None \/
    fromISO (Holds.Body.endDateExclusive b) = None \/
    exists a e, fromISO (Holds.Body.startDate b) = Some a /\
                fromISO (Holds.Body.endDateExclusive b) = Some e /\
                epochDay e <= epochDay a) ->
   Holds.POST E now c k b s = (Holds.Rejected 400 "Empty range", s)).
Proof.
  split; intros Hs.
  - unfold Holds.POST. now rewrite Hs.
  - intros Hr.
    assert (enumerateDates (Holds.Body.startDate b) (Holds.Body.endDateExclusive b) = [])
      as Hnil.
    { destruct Hr as [H | [H | (a & e & Ha & He & Hle)]].
      - apply enumerateDates_invalid. now left.
      - apply enumerateDates_invalid. now right.
      - apply List.length_zero_iff_nil. rewrite (length_enumerateDates _ _ a e Ha He). lia. }
    unfold Holds.POST. rewrite Hs, Hnil. reflexivity.
Qed.

Lemma hold_rejects_bad_range_witness :
  Holds.POST sampleE 1000 "cus_1" "bk_1"
    (sampleBody "2025-3-10" "2025-03-13") emptyState
  = (Holds.Rejected 400 "Invalid body", emptyState) /\
  Holds.POST sampleE 1000 "cus_1" "bk_1" (sampleBody "2025-03-13" "2025-03-10") sampleHeld
  = (Holds.Rejected 400 "Empty range", sampleHeld) /\
  Holds.POST sampleE 1000 "cus_1" "bk_1" (sampleBody "2025-03-10" "2025-03-10") sampleHeld
  = (Holds.Rejected 400 "Empty range", sampleHeld) /\
  Holds.POST sampleE 1000 "cus_1" "bk_1" (sampleBody "2025-02-30" "2025-03-13") sampleHeld
  = (Holds.Rejected 400 "Empty range", sampleHeld).
Proof.
  split.
  { apply hold_rejects_bad_range. vm_compute. reflexivity. }
  split.
  { apply hold_rejects_bad_range; [reflexivity|]. right. right.
    exists (mkDateTime 2025 3 13), (mkDateTime 2025 3 10).
    split; [reflexivity|]. split; [reflexivity|]. vm_compute. discriminate. }
  split.
  { apply hold_rejects_bad_range; [reflexivity|]. right. right.
    exists (mkDateTime 2025 3 10), (mkDateTime 2025 3 10).
    split; [reflexivity|]. split; [reflexivity|]. vm_compute. discriminate. }
  apply hold_rejects_bad_range; [reflexivity|]. left. reflexivity.
Defined.

Lemma statusOf_None id s :
  statusOf id s = None -> findUnique (Webhook.hasId id) (booking (db s)) = None.
Proof.
  unfold statusOf. fold (Webhook.hasId id).
  destruct (findUnique (Webhook.hasId id) (booking (db s))); [discriminate | reflexivity].
Qed.

Lemma find_snoc_fresh {A} (p : A -> bool) (l : list A) (x : A) :
  find p l = None -> p x = true -> find p (l ++ [x]) = Some x.
Proof.
  induction l as [|y l IH]; cbn [find app]; intros Hn Hx.
  - now rewrite Hx.
  - destruct (p y); [discriminate | now apply IH].
Qed.

Lemma filter_nil_iff {A} (p : A -> bool) (l : list A) :
  filter p l = [] <-> forall x, In x l -> p x = false.
Proof.
  induction l as [|y l IH]; cbn [filter].
  - split; [intros _ x [] | reflexivity].
  - destruct (p y) eqn:Hy.
    + split; [discriminate|]. intros H. specialize (H y (or_introl eq_refl)). congruence.
    + rewrite IH. split.
      * intros H x [<- | Hx]; [assumption | now apply H].
      * intros H x Hx. apply H. now right.
Qed.

Lemma filter_all {A} (p : A -> bool) (l : list A) :
  (forall x, In x l -> p x = true) -> filter p l = l.
Proof.
  induction l as [|y l IH]; cbn [filter]; intros H; [reflexivity|].
  rewrite (H y (or_introl eq_refl)). f_equal. apply IH. intros x Hx. apply H. now right.
Qed.

Lemma updateMany_snoc_fresh {A} (w : A -> bool) (g : A -> A) (l : list A) (x : A) :
  find w l = None -> w x = true -> updateMany w g (l ++ [x]) = l ++ [g x].
Proof.
  intros Hn Hx. unfold updateMany. rewrite map_app. cbn [map]. rewrite Hx. f_equal.
  induction l as [|y l IH]; [reflexivity|].
  cbn [find] in Hn. cbn [map]. destruct (w y); [discriminate|]. f_equal. now apply IH.
Qed.

Lemma In_holdRows r k exp z n :
  In r (holdRows k exp z n) ->
  BookedDay.bookingId r = k /\ BookedDay.status r = Day_HELD /\
  BookedDay.holdExpiresAt r = Some exp /\ z <= BookedDay.day r < z + Z.of_nat n.
Proof.
  unfold holdRows. intros H. apply in_map_iff in H. destruct H as (d & <- & Hd).
  apply In_zseq in Hd. cbn. tauto.
Qed.

Lemma daysOf_swept k now s :
  daysOf k s = [] ->
  forall r, In r (deleteMany (Holds.expiredHold now) (bookedDay (db s))) ->
            String.eqb (BookedDay.bookingId r) k = false.
Proof.
  unfold daysOf. rewrite filter_nil_iff. intros H r Hr.
  apply H. unfold deleteMany in Hr. apply filter_In in Hr. tauto.
Qed.

(** X2. A successful hold expires at [now + HOLD_TTL_MINUTES]: every day it
    reserves is HELD, belongs to the new booking and carries that instant,
    the new Booking row is HELD, and the [hold-expire] job of the booking is
    in the queue; when no job had its id, it is added at the end with the
    delay that ends at the expiry. *)
Theorem hold_schedules_expiry (E : Externals) (now : Z) (c k : string) (b : Holds.Body.t)
  (s : State) (id : string) (exp : Z) (s' : State) :
  Holds.POST E now c k b s = (Holds.Created id exp, s') ->
  exp = now + HOLD_TTL_MINUTES E * 60 * 1000 /\
  (exists rows,
     rows <> [] /\
     bookedDay (db s') = deleteMany (Holds.expiredHold now) (bookedDay (db s)) ++ rows /\
     forall r, In r rows ->
       BookedDay.bookingId r = id /\ BookedDay.status r = Day_HELD /\
       BookedDay.holdExpiresAt r = Some exp) /\
  (exists bk, booking (db s') = booking (db s) ++ [bk] /\
              Booking.id bk = id /\ Booking.status bk = HELD) /\
  hasJob ("hold-expire:" ++ id) (jobs s') = true /\
  (hasJob ("hold-expire:" ++ id) (jobs s) = false ->
   jobs s' = jobs s ++ [Job.mk hold_expire id None (exp - now) ("hold-expire:" ++ id)]).
Proof.
  intros H.
  destruct (hold_state _ _ _ _ _ _ _ _ _ H)
    as (a & e & Hs & Ha & He & Hlt & -> & -> & Hb & Hn & ->).
  simpl_state.
  split; [reflexivity|]. split.
  { eexists. split; [|split; [reflexivity|]].
    - intros Hnil. apply (f_equal (@List.length _)) in Hnil.
      rewrite length_holdRows in Hnil. cbn in Hnil. lia.
    - intros r Hr. apply In_holdRows in Hr. tauto. }
  split.
  { eexists. split; [reflexivity|]. split; reflexivity. }
  split; [apply enqueue_has|].
  intros Hj. unfold enqueue. fold (hasJob ("hold-expire:" ++ k) (jobs s)). rewrite Hj.
  do 3 f_equal. lia.
Qed.

Lemma hold_schedules_expiry_witness :
  jobs sampleHeld = [Job.mk hold_expire "bk_1" None 900000 "hold-expire:bk_1"] /\
  map BookedDay.holdExpiresAt (bookedDay (db sampleHeld))
  = [Some 901000; Some 901000; Some 901000].
Proof.
  destruct (hold_schedules_expiry sampleE 1000 "cus_1" "bk_1"
              (sampleBody "2025-03-10" "2025-03-13") emptyState "bk_1" 901000 sampleHeld
              eq_refl) as (_ & _ & _ & _ & Hq).
  split; [exact (Hq eq_refl)|]. vm_compute. reflexivity.
Defined.

(** X3. An unpaid hold is released: when the [hold-expire] job runs at or
    after the expiry, the booking becomes CANCELLED, none of its days is left
    and the days of the other bookings are as the hold request left them;
    payments, customers and the queue are untouched.  The booking id is the
    one the database generated for the hold: no row carried it before. *)
Theorem expired_hold_released (E : Externals) (now now' : Z) (c k : string)
  (b : Holds.Body.t) (s : State) (id : string) (exp : Z) (s1 : State) :
  Holds.POST E now c k b s = (Holds.Created id exp, s1) ->
  statusOf k s = None -> daysOf k s = [] ->
  exp <= now' ->
  let s2 := Worker.handleHoldExpire now' id s1 in
  statusOf id s1 = Some HELD /\
  statusOf id s2 = Some CANCELLED /\
  daysOf id s2 = [] /\
  bookedDay (db s2) = deleteMany (Holds.expiredHold now) (bookedDay (db s)) /\
  payment (db s2) = payment (db s1) /\ customer (db s2) = customer (db s1) /\
  jobs s2 = jobs s1.
Proof.
  intros H Hfresh Hdays Hexp s2.
  destruct (hold_state _ _ _ _ _ _ _ _ _ H)
    as (a & e & Hs & Ha & He & Hlt & -> & -> & Hb & Hn & ->).
  apply statusOf_None in Hfresh.
  pose proof (daysOf_swept k now s Hdays) as Hsw.
  set (exp := now + HOLD_TTL_MINUTES E * 60 * 1000) in *.
  set (n := Z.to_nat (epochDay e - epochDay a)) in *.
  set (held := heldBooking E c k b (epochDay a) (epochDay e) (db s)) in *.
  assert (Webhook.hasId k held = true) as Hid by apply String.eqb_refl.
  assert (findUnique (Webhook.hasId k) (booking (db s) ++ [held]) = Some held) as Hf
    by (apply find_snoc_fresh; assumption).
  assert (filter (fun r => String.eqb (BookedDay.bookingId r) k)
            (deleteMany (Holds.expiredHold now) (bookedDay (db s))) = []) as Hnone
    by (apply filter_nil_iff; assumption).
  assert (filter (fun r => String.eqb (BookedDay.bookingId r) k)
            (holdRows k exp (epochDay a) n) = holdRows k exp (epochDay a) n) as Hall.
  { apply filter_all. intros r Hr. apply In_holdRows in Hr.
    destruct Hr as (-> & _). apply String.eqb_refl. }
  assert (existsb (Worker.activeHold now') (holdRows k exp (epochDay a) n) = false) as Hact.
  { apply not_true_is_false. intros Hex. apply existsb_exists in Hex.
    destruct Hex as (r & Hr & Hr'). apply In_holdRows in Hr.
    destruct Hr as (_ & _ & Hx & _). unfold Worker.activeHold in Hr'. rewrite Hx in Hr'.
    apply andb_prop in Hr'. destruct Hr' as [_ Hr']. apply Z.ltb_lt in Hr'. lia. }
  assert (s2 = mkState
                 (mkDB (deleteMany (Holds.expiredHold now) (bookedDay (db s)))
                    (booking (db s) ++ [Booking.with_status CANCELLED held])
                    (snd (Holds.customerUpsert (Holds.Body.customer b) c (customer (db s))))
                    (payment (db s)) (refund (db s)) (blackout (db s))
                    (Some (thePolicy E (db s))))
                 (enqueue hold_expire k None (HOLD_TTL_MINUTES E * 60 * 1000)
                    ("hold-expire:" ++ k) (jobs s))) as Hs2.
  { unfold s2. rewrite expire_run. simpl_state. rewrite Hf.
    replace (Booking.id held) with k by reflexivity.
    replace (Booking.status held) with HELD by reflexivity.
    cbn [BookingStatus_eqb negb].
    unfold findMany. rewrite filter_app, Hnone, Hall. cbn [app]. rewrite Hact.
    f_equal. f_equal.
    - unfold deleteMany at 1. rewrite filter_app.
      rewrite (filter_all _ (deleteMany _ _)).
      + rewrite (proj2 (filter_nil_iff _ (holdRows k exp (epochDay a) n))); [apply app_nil_r|].
        intros r Hr. apply In_holdRows in Hr. destruct Hr as (-> & -> & _).
        now rewrite String.eqb_refl.
      + intros r Hr. now rewrite (Hsw r Hr).
    - apply updateMany_snoc_fresh; assumption. }
  rewrite Hs2. simpl_state.
  split; [unfold statusOf; simpl_state; fold (Webhook.hasId k); now rewrite Hf|].
  split.
  { unfold statusOf. simpl_state. fold (Webhook.hasId k).
    rewrite (find_snoc_fresh _ _ (Booking.with_status CANCELLED held)) by assumption.
    reflexivity. }
  split; [unfold daysOf; simpl_state; exact Hnone|].
  repeat split.
Qed.

Lemma expired_hold_released_witness :
  statusOf "bk_1" (Worker.handleHoldExpire 901000 "bk_1" sampleHeld) = Some CANCELLED /\
  bookedDay (db (Worker.handleHoldExpire 901000 "bk_1" sampleHeld)) = [].
Proof.
  destruct (expired_hold_released sampleE 1000 901000 "cus_1" "bk_1"
              (sampleBody "2025-03-10" "2025-03-13") emptyState "bk_1" 901000 sampleHeld
              eq_refl eq_refl eq_refl ltac:(lia)) as (_ & H1 & _ & H2 & _).
  split; [exact H1 | exact H2].
Defined.

(** X4. A checkout that completes after the hold was released confirms the
    booking all the same: the CANCELLED booking becomes CONFIRMED and its
    deposit is recorded as paid, while the table of days is unchanged and
    holds no day of the booking. *)
Theorem payment_after_release_confirms (E : Externals) (now : Z)
  (bookingId paymentIntentId : string) (customerId : option string) (s : State) :
  statusOf bookingId s = Some CANCELLED -> daysOf bookingId s = [] ->
  let s' := Webhook.checkoutSessionCompleted E now bookingId paymentIntentId customerId s in
  statusOf bookingId s' = Some CONFIRMED /\
  bookedDay (db s') = bookedDay (db s) /\
  daysOf bookingId s' = [] /\
  exists p, In p (payment (db s')) /\
            Payment.stripePaymentIntentId p = paymentIntentId /\
            Payment.status p = succeeded.
Proof.
  intros Hst Hdays s'.
  unfold statusOf in Hst. fold (Webhook.hasId bookingId) in Hst.
  destruct (findUnique (Webhook.hasId bookingId) (booking (db s))) as [bk|] eqn:Hf;
    [|discriminate].
  cbn [option_map] in Hst. assert (Booking.status bk = CANCELLED) as Hc by congruence.
  assert (updateMany (Webhook.heldDayOf bookingId) Webhook.booked (bookedDay (db s))
          = bookedDay (db s)) as Hrows.
  { apply updateMany_none. apply not_true_is_false. intros Hex.
    apply existsb_exists in Hex. destruct Hex as (r & Hr & Hr').
    unfold daysOf in Hdays. rewrite filter_nil_iff in Hdays. specialize (Hdays r Hr).
    unfold Webhook.heldDayOf in Hr'. rewrite Hdays in Hr'. discriminate. }
  unfold s'. rewrite confirm_run, Hf. cbv zeta. rewrite Hc. cbn [BookingStatus_eqb].
  rewrite Hrows. unfold statusOf, daysOf. simpl_state.
  split.
  { fold (Webhook.hasId bookingId).
    rewrite find_updateMany by apply hasId_confirmed. rewrite Hf. cbn [option_map].
    now rewrite status_confirmed. }
  split; [reflexivity|]. split; [exact Hdays|].
  unfold upsert. destruct (existsb (Webhook.hasIntent paymentIntentId) (payment (db s))) eqn:Hex.
  - apply existsb_exists in Hex. destruct Hex as (p & Hp & Hp').
    exists (Payment.with_status succeeded p). split.
    + unfold updateMany. apply in_map_iff. exists p. now rewrite Hp'.
    + split; [|reflexivity]. now apply String.eqb_eq in Hp'.
  - eexists. split; [apply in_or_app; right; left; reflexivity|]. split; reflexivity.
Qed.

Lemma payment_after_release_confirms_witness :
  let released := Worker.handleHoldExpire 901000 "bk_1" sampleHeld in
  let paid := Webhook.checkoutSessionCompleted sampleE 902000 "bk_1" "pi_1" None released in
  statusOf "bk_1" released = Some CANCELLED /\
  statusOf "bk_1" paid = Some CONFIRMED /\ bookedDay (db paid) = [].
Proof.
  cbv zeta. split; [reflexivity|].
  destruct (payment_after_release_confirms sampleE 902000 "bk_1" "pi_1" None
              (Worker.handleHoldExpire 901000 "bk_1" sampleHeld) eq_refl eq_refl)
    as (H1 & H2 & _).
  split; [exact H1|]. rewrite H2. reflexivity.
Defined.

(** ** Payments *)

(** X5. [payment_intent.succeeded] is idempotent: handling the event twice
    leaves the state that handling it once leaves.  For a booking that
    exists, that state has a Payment row of the payment intent, succeeded;
    bookings and days are never touched. *)
Theorem payment_succeeded_idempotent (pi : Stripe.PaymentIntent) (s : State) :
  let s1 := Webhook.paymentIntentSucceeded pi s in
  Webhook.paymentIntentSucceeded pi s1 = s1 /\
  booking (db s1) = booking (db s) /\ bookedDay (db s1) = bookedDay (db s) /\
  jobs s1 = jobs s /\
  forall bookingId,
    Webhook.truthy (Stripe.metadata_bookingId pi) = Some bookingId ->
    statusOf bookingId s <> None ->
    exists p, In p (payment (db s1)) /\
              Payment.stripePaymentIntentId p = Stripe.id pi /\
              Payment.status p = succeeded.
Proof.
  cbv zeta. unfold Webhook.paymentIntentSucceeded.
  destruct (Webhook.truthy (Stripe.metadata_bookingId pi)) as [bookingId|] eqn:Ht.
  2:{ repeat split. intros ? [=]. }
  unfold Webhook.paymentUpsert.
  set (w := fun r : Payment.t => String.eqb (Payment.stripePaymentIntentId r) (Stripe.id pi)).
  destruct (existsb w (payment (db s))) eqn:Hex.
  - simpl_state. rewrite existsb_updateMany, Hex by reflexivity.
    rewrite updateMany_idem by reflexivity. repeat split.
    intros _ _ _. apply existsb_exists in Hex. destruct Hex as (p & Hp & Hp').
    exists (Payment.with_status succeeded p). split.
    + unfold updateMany. apply in_map_iff. exists p. now rewrite Hp'.
    + split; [|reflexivity]. now apply String.eqb_eq in Hp'.
  - destruct (existsb (fun r => String.eqb (Booking.id r) bookingId) (booking (db s))) eqn:Hb.
    + simpl_state. rewrite existsb_app. cbn [existsb].
      unfold w at 2. cbn [Payment.stripePaymentIntentId]. rewrite String.eqb_refl, orb_true_r.
      unfold updateMany. rewrite map_app. cbn [map].
      unfold w at 2. cbn [Payment.stripePaymentIntentId]. rewrite String.eqb_refl.
      fold (updateMany w (Payment.with_status succeeded) (payment (db s))).
      rewrite updateMany_none by assumption. repeat split.
      intros _ _ _. eexists. split; [apply in_or_app; right; left; reflexivity|].
      split; reflexivity.
    + rewrite Hex, Hb. repeat split.
      intros b' [= <-] Hst. exfalso. apply Hst. unfold statusOf.
      destruct (findUnique _ (booking (db s))) as [bk|] eqn:Hf; [|reflexivity].
      apply find_some in Hf. destruct Hf as [Hin Hid].
      assert (existsb (fun r => String.eqb (Booking.id r) bookingId) (booking (db s)) = true)
        as Ht' by (apply existsb_exists; eauto).
      congruence.
Qed.

Lemma payment_succeeded_idempotent_witness :
  map Payment.status (payment (db samplePaid)) = [succeeded; succeeded] /\
  Webhook.paymentIntentSucceeded
    (Stripe.mkPaymentIntent "pi_2" 130000 (Some "bk_1"%string) (Some REMAINDER)) samplePaid
  = samplePaid.
Proof.
  split; [vm_compute; reflexivity|].
  exact (proj1 (payment_succeeded_idempotent
                  (Stripe.mkPaymentIntent "pi_2" 130000 (Some "bk_1"%string) (Some REMAINDER))
                  sampleConfirmed)).
Defined.



(** ** Cancellation *)

(** The state a cancellation that went through leaves. *)
Lemma cancel_state E now id s refunded s' :
  Cancel.POST E now id s = (Cancel.Cancelled refunded, s') ->
  exists bk,
    findUnique (Webhook.hasId id) (booking (db s)) = Some bk /\
    Booking.status bk = CONFIRMED /\
    bookedDay (db s')
    = deleteMany (fun r => String.eqb (BookedDay.bookingId r) id) (bookedDay (db s)) /\
    booking (db s')
    = updateMany (Webhook.hasId id) (Booking.with_status CANCELLED) (booking (db s)) /\
    payment (db s') = payment (db s) /\ customer (db s') = customer (db s) /\
    blackout (db s') = blackout (db s) /\ jobs s' = jobs s.
Proof.
  unfold Cancel.POST, transaction. fold (Webhook.hasId id).
  destruct (findUnique (Webhook.hasId id) (booking (db s))) as [bk|] eqn:Hf; [|discriminate].
  assert (Booking.id bk = id) as Hid.
  { apply find_some in Hf. destruct Hf as [_ Hf]. now apply String.eqb_eq in Hf. }
  destruct (BookingStatus_eqb (Booking.status bk) CONFIRMED) eqn:Hst; cbn [negb];
    [|discriminate].
  rewrite getOrCreate_eq. destruct (_ <? now); [discriminate|].
  rewrite Hid.
  destruct (if 0 <? _ then _ else _) as [r rows]. intros [= <- <-].
  exists bk. simpl_state. split; [reflexivity|]. split; [now apply BookingStatus_eqb_eq|].
  repeat split.
Qed.

Lemma hasId_with_status id st r : Webhook.hasId id (Booking.with_status st r) = Webhook.hasId id r.
Proof. reflexivity. Qed.

(** X7. A cancellation that went through is final: the booking is CANCELLED,
    none of its days is left in the table (the days of the other bookings
    stay), no payment is touched, and a second request for the same booking
    is refused with 400 and changes nothing. *)
Theorem cancel_is_final (E : Externals) (now now' : Z) (bookingId : string) (s : State)
  (refunded : Z) (s' : State) :
  Cancel.POST E now bookingId s = (Cancel.Cancelled refunded, s') ->
  statusOf bookingId s = Some CONFIRMED /\
  statusOf bookingId s' = Some CANCELLED /\
  daysOf bookingId s' = [] /\
  (forall r, In r (bookedDay (db s')) <->
             In r (bookedDay (db s)) /\ BookedDay.bookingId r <> bookingId) /\
  payment (db s') = payment (db s) /\
  Cancel.POST E now' bookingId s'
  = (Cancel.Error 400 "Only confirmed bookings can be cancelled", s').
Proof.
  intros H.
  destruct (cancel_state _ _ _ _ _ _ H) as (bk & Hf & Hst & Hd & Hb & Hp & _).
  assert (findUnique (Webhook.hasId bookingId) (booking (db s'))
          = Some (Booking.with_status CANCELLED bk)) as Hf'.
  { rewrite Hb, find_updateMany by (intros; apply hasId_with_status). now rewrite Hf. }
  split; [unfold statusOf; fold (Webhook.hasId bookingId); now rewrite Hf, <- Hst|].
  split; [unfold statusOf; fold (Webhook.hasId bookingId); now rewrite Hf'|].
  split.
  { unfold daysOf. rewrite Hd. apply filter_nil_iff. intros r Hr.
    unfold deleteMany in Hr. apply filter_In in Hr. destruct Hr as [_ Hr].
    now apply negb_true_iff in Hr. }
  split.
  { intros r. rewrite Hd. unfold deleteMany. rewrite filter_In, negb_true_iff.
    split; intros [H1 H2]; (split; [assumption|]).
    - intros Heq. apply String.eqb_eq in Heq. congruence.
    - apply not_true_is_false. intros Heq. now apply String.eqb_eq in Heq. }
  split; [assumption|].
  unfold Cancel.POST. fold (Webhook.hasId bookingId). rewrite Hf'. reflexivity.
Qed.

Lemma cancel_is_final_witness :
  let s' := snd (Cancel.POST sampleE 3000 "bk_1" samplePaid) in
  statusOf "bk_1" s' = Some CANCELLED /\ bookedDay (db s') = [] /\
  fst (Cancel.POST sampleE 4000 "bk_1" s')
  = Cancel.Error 400 "Only confirmed bookings can be cancelled".
Proof.
  cbv zeta.
  destruct (cancel_is_final sampleE 3000 4000 "bk_1" samplePaid 130000
              (snd (Cancel.POST sampleE 3000 "bk_1" samplePaid)))
    as (_ & H1 & _ & _ & _ & H2).
  - vm_compute. reflexivity.
  - split; [exact H1|]. split; [vm_compute; reflexivity|]. now rewrite H2.
Defined.



(** X9. The jobs a cancelled booking leaves in the queue do nothing when they
    run: the remainder is not charged, no reminder is sent, and the expiry
    job changes nothing. *)
Theorem jobs_after_cancel_do_nothing (E : Externals) (now now' : Z) (bookingId : string)
  (s : State) (refunded : Z) (s' : State)
  (charge : option (string * PaymentStatus)) (EMAIL_FROM NEXT_PUBLIC_BASE_URL : option string)
  (job : Job.t) :
  Cancel.POST E now bookingId s = (Cancel.Cancelled refunded, s') ->
  Job.bookingId job = bookingId ->
  Worker.processJob EMAIL_FROM NEXT_PUBLIC_BASE_URL now' charge job s' = (s', None).
Proof.
  intros H Hj.
  destruct (cancel_state _ _ _ _ _ _ H) as (bk & Hf & Hst & Hd & Hb & Hp & _).
  assert (findUnique (Webhook.hasId bookingId) (booking (db s'))
          = Some (Booking.with_status CANCELLED bk)) as Hf'.
  { rewrite Hb, find_updateMany by (intros; apply hasId_with_status). now rewrite Hf. }
  unfold Worker.processJob. rewrite Hj. destruct (Job.name job).
  - rewrite expire_run, Hf'. reflexivity.
  - unfold Worker.handleReminderEmail. fold (Webhook.hasId bookingId). rewrite Hf'. reflexivity.
  - unfold Worker.handleRemainderCharge. fold (Webhook.hasId bookingId). rewrite Hf'.
    reflexivity.
  - reflexivity.
Qed.

Lemma jobs_after_cancel_do_nothing_witness :
  let s' := snd (Cancel.POST sampleE 3000 "bk_1" samplePaid) in
  List.length (jobs s') = 6%nat /\
  Forall (fun job => Worker.processJob None None 5000 (Some ("pi_9"%string, succeeded)) job s'
                     = (s', None)) (jobs s').
Proof.
  cbv zeta. split; [vm_compute; reflexivity|].
  apply Forall_forall. intros job Hin.
  apply (jobs_after_cancel_do_nothing sampleE 3000 5000 "bk_1" samplePaid 130000).
  - vm_compute. reflexivity.
  - vm_compute in Hin. repeat (destruct Hin as [<- | Hin]; [reflexivity|]). destruct Hin.
Defined.

(** ** Blackouts *)

(** X10. A blackout that was created can be removed again: after [POST] and
    [DELETE] of the same day the state is the one before (the rows of the
    audit log, which no handler reads, are not part of it).  While it is
    there, a second [POST] of the day is refused (the day is unique), and a
    hold request whose range covers the day is refused with 409 "Dates
    include blackouts" and changes nothing. *)
Theorem blackout_round_trip (E : Externals) (day : string) (reason : option string)
  (s s1 : State) :
  Blackouts.POST day reason s = (Blackouts.Done, s1) ->
  Blackouts.DELETE day s1 = (Blackouts.Done, s) /\
  (forall reason', exists msg, Blackouts.POST day reason' s1 = (Blackouts.Error 400 msg, s1)) /\
  (forall d now c k b a e,
     jsDate day = Some d ->
     Holds.HoldRequestSchema E b = true ->
     fromISO (Holds.Body.startDate b) = Some a ->
     fromISO (Holds.Body.endDateExclusive b) = Some e ->
     epochDay a <= d < epochDay e ->
     Holds.POST E now c k b s1 = (Holds.Rejected 409 "Dates include blackouts", s1)).
Proof.
  unfold Blackouts.POST, Blackouts.DELETE.
  destruct (dateRegex day) eqn:Hre; cbn [negb]; [|discriminate].
  destruct (jsDate day) as [d|] eqn:Hd; [|discriminate].
  destruct (existsb (fun r => Blackout.day r =? d) (blackout (db s))) eqn:Hex; [discriminate|].
  intros [= <-]. simpl_state.
  assert (forall x, In x (blackout (db s)) -> (Blackout.day x =? d) = false) as Hfresh.
  { intros x Hx. apply not_true_is_false. intros Hx'.
    assert (existsb (fun r => Blackout.day r =? d) (blackout (db s)) = true)
      by (apply existsb_exists; eauto). congruence. }
  split; [|split].
  - unfold findUnique. rewrite find_snoc_fresh.
    + unfold deleteMany. rewrite filter_app. cbn [filter Blackout.day].
      rewrite Z.eqb_refl. cbn [negb]. rewrite app_nil_r.
      rewrite filter_all by (intros x Hx; now rewrite (Hfresh x Hx)).
      destruct s as [[]]; reflexivity.
    + destruct (find _ (blackout (db s))) as [x|] eqn:Hf; [|reflexivity].
      apply find_some in Hf. destruct Hf as [Hx Hx']. now rewrite (Hfresh x Hx) in Hx'.
    + apply Z.eqb_refl.
  - intros reason'. rewrite existsb_app. cbn [existsb Blackout.day].
    rewrite Z.eqb_refl, orb_true_r. eauto.
  - intros d' now c k b a e [= <-] Hs Ha He Hin.
    assert (epochDay a < epochDay e) as Hlt by lia.
    rewrite (POST_run E now c k b _ a e Hs Ha He Hlt). cbv zeta. simpl_state.
    assert ((0 <? blackoutsIn (epochDay a) (epochDay e)
                    (mkDB (bookedDay (db s)) (booking (db s)) (customer (db s))
                       (payment (db s)) (refund (db s))
                       (blackout (db s) ++ [Blackout.mk d reason]) (policy (db s)))) = true)
      as ->; [|reflexivity].
    apply Z.ltb_lt. unfold blackoutsIn, count. simpl_state.
    rewrite filter_app, length_app. cbn [filter Blackout.day].
    assert (((epochDay a <=? d) && (d <? epochDay e)) = true) as ->
      by (apply andb_true_intro; split; [apply Z.leb_le | apply Z.ltb_lt]; lia).
    cbn [List.length]. lia.
Qed.

Lemma blackout_round_trip_witness :
  let s1 := snd (Blackouts.POST "2025-03-11" (Some "maintenance"%string) emptyState) in
  blackout (db s1) = [Blackout.mk 20158 (Some "maintenance"%string)] /\
  Blackouts.DELETE "2025-03-11" s1 = (Blackouts.Done, emptyState) /\
  Holds.POST sampleE 1000 "cus_1" "bk_1" (sampleBody "2025-03-10" "2025-03-13") s1
  = (Holds.Rejected 409 "Dates include blackouts", s1).
Proof.
  cbv zeta. split; [vm_compute; reflexivity|].
  destruct (blackout_round_trip sampleE "2025-03-11" (Some "maintenance"%string) emptyState
              (snd (Blackouts.POST "2025-03-11" (Some "maintenance"%string) emptyState))
              eq_refl) as (H1 & _ & H3).
  split; [exact H1|].
  apply (H3 20158 1000 "cus_1"%string "bk_1"%string (sampleBody "2025-03-10" "2025-03-13")
           (mkDateTime 2025 3 10) (mkDateTime 2025 3 13)); try reflexivity.
  vm_compute. split; [discriminate | reflexivity].
Defined.

(** ** Checkout *)

(** X11. Checkout is for held bookings only, and asks Stripe for a customer
    once: an unknown booking gets 404 and a booking that is not HELD gets 400
    "Invalid state", the state unchanged; the first checkout of a booking
    without a Stripe customer stores the new customer id on the booking and
    on its customer, and a second checkout changes nothing. *)
Theorem checkout_creates_customer_once (newStripeCustomer newStripeCustomer' bookingId : string)
  (s : State) :
  (statusOf bookingId s = None ->
   Checkout.POST newStripeCustomer bookingId s = (Checkout.Error 404 "Not found", s)) /\
  (forall st, statusOf bookingId s = Some st -> st <> HELD ->
   Checkout.POST newStripeCustomer bookingId s = (Checkout.Error 400 "Invalid state", s)) /\
  (forall s1,
     Checkout.POST newStripeCustomer bookingId s = (Checkout.Url, s1) ->
     newStripeCustomer <> ""%string ->
     Checkout.POST newStripeCustomer' bookingId s1 = (Checkout.Url, s1) /\
     bookedDay (db s1) = bookedDay (db s) /\ payment (db s1) = payment (db s) /\
     statusOf bookingId s1 = Some HELD).
Proof.
  unfold statusOf, Checkout.POST. fold (Webhook.hasId bookingId).
  split; [|split].
  - destruct (findUnique _ _); [discriminate | reflexivity].
  - intros st. destruct (findUnique _ _) as [bk|]; [|discriminate].
    cbn [option_map]. intros [= <-] Hst.
    destruct (BookingStatus_eqb (Booking.status bk) HELD) eqn:Hc; [|reflexivity].
    now apply BookingStatus_eqb_eq in Hc.
  - intros s1.
    destruct (findUnique (Webhook.hasId bookingId) (booking (db s))) as [bk|] eqn:Hf;
      [|discriminate].
    assert (Booking.id bk = bookingId) as Hid by (eapply find_hasId; eassumption).
    destruct (BookingStatus_eqb (Booking.status bk) HELD) eqn:Hst; cbn [negb]; [|discriminate].
    apply BookingStatus_eqb_eq in Hst.
    set (w := fun r : Customer.t => String.eqb (Customer.id r) (Booking.customerId bk)).
    destruct (findUnique w (customer (db s))) as [cu|] eqn:Hcu; [|discriminate].
    destruct (Webhook.truthy (Booking.stripeCustomerId bk)) as [x|] eqn:Hb.
    + intros [= <-] _. rewrite Hf, Hst. cbn [BookingStatus_eqb negb].
      fold w. rewrite Hcu, Hb. cbn [option_map]. now rewrite Hst.
    + destruct (Webhook.truthy (Customer.stripeCustomerId cu)) as [y|] eqn:Hc.
      * intros [= <-] _. rewrite Hf, Hst. cbn [BookingStatus_eqb negb].
        fold w. rewrite Hcu, Hb, Hc. cbn [option_map]. now rewrite Hst.
      * intros [= <-] Hne. simpl_state. rewrite Hid.
        change (fun r => String.eqb (Booking.id r) bookingId) with (Webhook.hasId bookingId).
        rewrite find_updateMany by reflexivity. rewrite Hf. cbn [option_map].
        cbn [Booking.status Booking.with_stripeCustomerId Booking.customerId
             Booking.stripeCustomerId]. rewrite Hst. cbn [BookingStatus_eqb negb].
        fold w.
        rewrite find_updateMany by reflexivity. rewrite Hcu. cbn [option_map].
        assert (Webhook.truthy (Some newStripeCustomer) = Some newStripeCustomer) as ->.
        { unfold Webhook.truthy. destruct (String.eqb_spec newStripeCustomer ""); congruence. }
        repeat split.
Qed.

Lemma checkout_creates_customer_once_witness :
  let s1 := snd (Checkout.POST "cus_stripe_1" "bk_1" sampleHeld) in
  map Customer.stripeCustomerId (customer (db s1)) = [Some "cus_stripe_1"%string] /\
  Checkout.POST "cus_stripe_2" "bk_1" s1 = (Checkout.Url, s1) /\
  fst (Checkout.POST "cus_stripe_2" "bk_1" samplePaid) = Checkout.Error 400 "Invalid state".
Proof.
  cbv zeta. split; [vm_compute; reflexivity|].
  destruct (checkout_creates_customer_once "cus_stripe_1" "cus_stripe_2" "bk_1" sampleHeld)
    as (_ & _ & H).
  split.
  - apply H; [vm_compute; reflexivity | discriminate].
  - destruct (checkout_creates_customer_once "cus_stripe_2" "cus_stripe_2" "bk_1" samplePaid)
      as (_ & H2 & _).
    rewrite (H2 CONFIRMED); [reflexivity | vm_compute; reflexivity | discriminate].
Defined.

(** ** Lazy expiry *)

Lemma createMany_count_free data : forall rows,
  fst (createManySkipDuplicates data rows) = List.length data ->
  forall r, In r data -> ~ In (BookedDay.day r) (map BookedDay.day rows).
Proof.
  intros rows Hn r Hr Hin.
  pose proof (createMany_conflict data rows (ex_intro _ r (conj Hr Hin))). lia.
Qed.

Lemma holdRows_In k exp z n d :
  z <= d < z + Z.of_nat n -> In (BookedDay.mk k d Day_HELD (Some exp)) (holdRows k exp z n).
Proof.
  intros H. unfold holdRows.
  apply (in_map (fun d => BookedDay.mk k d Day_HELD (Some exp))). now apply In_zseq.
Qed.

Lemma swept_outside E now k s a e :
  fst (createManySkipDuplicates
         (holdRows k (now + HOLD_TTL_MINUTES E * 60 * 1000) (epochDay a)
            (Z.to_nat (epochDay e - epochDay a)))
         (deleteMany (Holds.expiredHold now) (bookedDay (db s))))
  = Z.to_nat (epochDay e - epochDay a) ->
  forall r, In r (deleteMany (Holds.expiredHold now) (bookedDay (db s))) ->
            Availability.inRange (epochDay a) (epochDay e) (BookedDay.day r) = false.
Proof.
  intros Hn r Hr. apply not_true_is_false. intros Hin. apply inRange_spec in Hin.
  rewrite <- (length_holdRows k (now + HOLD_TTL_MINUTES E * 60 * 1000) (epochDay a)
                (Z.to_nat (epochDay e - epochDay a))) in Hn at 2.
  apply (createMany_count_free _ _ Hn
           (BookedDay.mk k (BookedDay.day r) Day_HELD
              (Some (now + HOLD_TTL_MINUTES E * 60 * 1000)))).
  - apply holdRows_In. lia.
  - cbn [BookedDay.day]. now apply in_map.
Qed.

Lemma blackouts_none gte lt d :
  (0 <? blackoutsIn gte lt d) = false ->
  filter (fun x => Availability.inRange gte lt (Blackout.day x)) (blackout d) = [].
Proof.
  unfold blackoutsIn, count, Availability.inRange. intros H. apply Z.ltb_ge in H.
  apply List.length_zero_iff_nil. lia.
Qed.



(** X13. At the very instant a hold expires the two views of the calendar
    differ: the range check reports the range free (a held day counts while
    its expiry is after now), while a hold request for it is still refused
    with 409 and changes nothing (the sweep removes a held day once its
    expiry is before now). *)
Theorem hold_expiry_instant (E : Externals) (now : Z) (c k c' k' : string)
  (b : Holds.Body.t) (s : State) (id : string) (exp : Z) (s1 : State) :
  Holds.POST E now c k b s = (Holds.Created id exp, s1) ->
  Availability.POST exp (Holds.Body.startDate b) (Holds.Body.endDateExclusive b) s1
  = (Availability.RangeFree, s1) /\
  Holds.POST E exp c' k' b s1
  = (Holds.Rejected 409 "Some days are no longer available", s1).
Proof.
  intros H.
  pose proof (hold_state _ _ _ _ _ _ _ _ _ H)
    as (a & e & Hs & Ha & He & Hlt & Hid & Hexp & Hb & Hn & Hs1).
  set (n := Z.to_nat (epochDay e - epochDay a)) in *.
  split.
  - unfold Availability.POST.
    assert (RangeSchema (Holds.Body.startDate b) (Holds.Body.endDateExclusive b) = true) as ->
      by (unfold Holds.HoldRequestSchema in Hs; now apply andb_prop in Hs).
    cbn [negb]. rewrite (jsDate_fromISO _ _ Ha), (jsDate_fromISO _ _ He).
    subst s1 id. simpl_state. unfold findMany.
    rewrite (blackouts_none _ _ _ Hb). rewrite filter_app.
    rewrite (proj2 (filter_nil_iff _ (deleteMany _ _))).
    + rewrite (proj2 (filter_nil_iff _ (holdRows _ _ _ _))); [reflexivity|].
      intros r Hr. apply In_holdRows in Hr. destruct Hr as (_ & Hst & Hx & _).
      unfold Availability.takenDay. rewrite Hst, Hx.
      cbn [BookedDayStatus_eqb orb andb]. rewrite Hexp, Z.ltb_irrefl. apply andb_false_r.
    + intros r Hr. rewrite Hexp in Hn. now rewrite (swept_outside E now k s a e Hn r Hr).
  - rewrite (POST_run E exp c' k' b s1 a e Hs Ha He Hlt). cbv zeta.
    assert (blackoutsIn (epochDay a) (epochDay e) (db s1)
            = blackoutsIn (epochDay a) (epochDay e) (db s)) as -> by (now subst s1).
    rewrite Hb.
    assert (overlapping b b) as Hov.
    { unfold overlapping.
      destruct (enumerateDates (Holds.Body.startDate b) (Holds.Body.endDateExclusive b))
        as [|d l] eqn:Hl.
      - apply (f_equal (@List.length _)) in Hl.
        rewrite (length_enumerateDates _ _ a e Ha He) in Hl. cbn in Hl. lia.
      - exists d. split; now left. }
    pose proof (overlapping_hold_conflicts E s now c k b id exp s1 exp k'
                  (exp + HOLD_TTL_MINUTES E * 60 * 1000) b a e H Hov (Z.le_refl _) Ha He)
      as Hlt'.
    fold n in Hlt'.
    fold n.
    match goal with
    | |- context [(?x =? n)%nat] => destruct (Nat.eqb_spec x n) as [Heq | _]; [lia|]
    end.
    f_equal. subst s1. simpl_state.
    match goal with
    | |- context [thePolicy E (mkDB ?a ?b ?c ?d ?e ?f (Some ?p))] =>
        rewrite (thePolicy_existing E (mkDB a b c d e f (Some p)) p eq_refl)
    end.
    reflexivity.
Qed.

Lemma hold_expiry_instant_witness :
  Availability.POST 901000 "2025-03-10" "2025-03-13" sampleHeld
  = (Availability.RangeFree, sampleHeld) /\
  Holds.POST sampleE 901000 "cus_2" "bk_2" (sampleBody "2025-03-10" "2025-03-13") sampleHeld
  = (Holds.Rejected 409 "Some days are no longer available", sampleHeld) /\
  fst (Availability.POST 900999 "2025-03-10" "2025-03-13" sampleHeld)
  = Availability.RangeConflicts ["2025-03-10"; "2025-03-11"; "2025-03-12"]%string.
Proof.
  destruct (hold_expiry_instant sampleE 1000 "cus_1" "bk_1" "cus_2" "bk_2"
              (sampleBody "2025-03-10" "2025-03-13") emptyState "bk_1" 901000 sampleHeld
              eq_refl) as [H1 H2].
  split; [exact H1|]. split; [exact H2|]. vm_compute. reflexivity.
Defined.

(** ** The range check and the hold *)



(** ** Date-only values *)

Lemma DateUTC_civil y m d :
  ~ 0 <= y <= 99 -> 1 <= m <= 12 -> DateUTC y (m - 1) d = epochDay (mkDateTime y m d).
Proof.
  intros Hy Hm. unfold DateUTC.
  assert (((0 <=? y) && (y <=? 99)) = false) as ->.
  { destruct (Z.leb_spec 0 y), (Z.leb_spec y 99); try reflexivity. lia. }
  cbv zeta.
  replace ((m - 1) / 12) with 0 by (Z.div_mod_to_equations; lia).
  replace ((m - 1) mod 12 + 1) with m by (Z.div_mod_to_equations; lia).
  replace (y + 0) with y by lia. unfold epochDay. cbn [year month day]. lia.
Qed.

Lemma DateUTC_century y m d :
  0 <= y <= 99 -> 1 <= m <= 12 -> DateUTC y (m - 1) d = epochDay (mkDateTime (1900 + y) m d).
Proof.
  intros Hy Hm. unfold DateUTC.
  assert (((0 <=? y) && (y <=? 99)) = true) as ->.
  { destruct (Z.leb_spec 0 y), (Z.leb_spec y 99); try reflexivity; lia. }
  cbv zeta.
  replace ((m - 1) / 12) with 0 by (Z.div_mod_to_equations; lia).
  replace ((m - 1) mod 12 + 1) with m by (Z.div_mod_to_equations; lia).
  replace (1900 + y + 0) with (1900 + y) by lia. unfold epochDay. cbn [year month day]. lia.
Qed.

Lemma year_civilFromDays z y :
  daysBeforeYear y - 719162 <= z < daysBeforeYear (y + 1) - 719162 ->
  year (civilFromDays z) = y.
Proof.
  intros H. destruct (civilFromDays_epochDay z) as [Hc He].
  apply year_of_epochDay; [assumption|]. now rewrite He.
Qed.

(** In a zone where every day starts at its own midnight, the fields of the
    [DateTime] are those of the string. *)
Lemma isoDateToDateOnly_regular tz now iso c :
  regularZone tz -> fromISO iso = Some c ->
  Luxon.isoDateToDateOnly tz now iso = Some (DateUTC (year c) (month c - 1) (day c)).
Proof.
  intros Hr Hf. unfold Luxon.isoDateToDateOnly.
  rewrite (fromISO_regular tz now iso c Hr Hf), tsToObj_midnight. cbn [fst].
  rewrite civilFromDays_inv; [reflexivity|].
  apply isValid_civil. now apply (fromISO_valid iso).
Qed.

(** X15. In a zone where every day starts at its own midnight,
    [isoDateToDateOnly] followed by [dateOnlyToIsoUTC] gives back the ISO
    date it was given, for every calendar date from year 0100 on, and the
    date-only value is the one [new Date(iso)] gives.  For the years 0000 to
    0099 [Date.UTC] reads the year as 1900 + year, and the date that comes
    back is in the twentieth century. *)
Theorem dateOnly_round_trip (tz : Luxon.Zone) (now : Z) (iso : string) (c : DateTime) :
  regularZone tz ->
  fromISO iso = Some c ->
  (100 <= year c ->
   Luxon.isoDateToDateOnly tz now iso = Some (epochDay c) /\
   jsDate iso = Some (epochDay c) /\
   dateOnlyToIsoUTC (epochDay c) = iso) /\
  (year c <= 99 ->
   exists d, Luxon.isoDateToDateOnly tz now iso = Some d /\
             year (civilFromDays d) = 1900 + year c /\
             dateOnlyToIsoUTC d <> iso).
Proof.
  intros Hr Hf. pose proof (fromISO_valid _ _ Hf) as Hv.
  pose proof Hv as Hv'. apply isValid_iff in Hv'. destruct Hv' as [Hc Hy].
  pose proof Hc as Hc'. apply isCivil_iff in Hc'. destruct Hc' as [Hm Hd].
  rewrite (isoDateToDateOnly_regular tz now iso c Hr Hf).
  unfold dateOnlyToIsoUTC. split.
  - intros H100. rewrite DateUTC_civil by lia.
    split; [destruct c; reflexivity|]. split; [now apply jsDate_fromISO|].
    rewrite civilFromDays_inv by assumption. now apply toISODate_fromISO.
  - intros H99. eexists. split; [reflexivity|].
    rewrite DateUTC_century by lia.
    assert (year (civilFromDays (epochDay (mkDateTime (1900 + year c) (month c) (day c))))
            = 1900 + year c) as Hyear.
    { apply year_civilFromDays. unfold epochDay. cbn [year month day].
      rewrite daysBeforeYear_succ.
      pose proof (month_cases (year c) (month c) (day c) Hm Hd) as C.
      pose proof (month_cases (1900 + year c) (month c) 1 Hm) as C'.
      assert (1 <= 1 <= daysInMonth (1900 + year c) (month c)) as H1
        by (pose proof (daysInMonth_bounds (1900 + year c) (month c)); lia).
      specialize (C' H1). cbv zeta in C, C'.
      assert (0 <= (if isLeapYear (year c) then 1 else 0) <= 1) as HL
        by (destruct (isLeapYear (year c)); lia).
      assert (0 <= (if isLeapYear (1900 + year c) then 1 else 0) <= 1) as HL'
        by (destruct (isLeapYear (1900 + year c)); lia).
      revert C C' HL HL'.
      generalize (if isLeapYear (year c) then 1 else 0),
        (if isLeapYear (1900 + year c) then 1 else 0),
        (daysBeforeMonth (year c) (month c)), (daysBeforeMonth (1900 + year c) (month c)),
        (daysBeforeYear (1900 + year c)).
      intros L L' g g' k C C' HL HL'. lia. }
    split; [exact Hyear|].
    intros Heq. rewrite <- Heq in Hf.
    rewrite fromISO_toISODate in Hf.
    + assert (year c = 1900 + year c) by (rewrite <- Hyear; congruence). lia.
    + apply isValid_iff. split; [apply civilFromDays_epochDay|]. rewrite Hyear. lia.
Qed.

Lemma dateOnly_round_trip_witness :
  regularZone newYork2025 /\
  fromISO "2025-03-09" = Some (mkDateTime 2025 3 9) /\
  Luxon.isoDateToDateOnly newYork2025 1000 "2025-03-09" = Some 20156 /\
  dateOnlyToIsoUTC 20156 = "2025-03-09"%string /\
  option_map dateOnlyToIsoUTC (Luxon.isoDateToDateOnly newYork2025 1000 "0050-01-01")
  = Some "1950-01-01"%string.
Proof.
  split; [exact newYork2025_regular|]. split; [reflexivity|].
  destruct (proj1 (dateOnly_round_trip newYork2025 1000 "2025-03-09" (mkDateTime 2025 3 9)
                     newYork2025_regular eq_refl)) as (H1 & _ & H2).
  - cbn. lia.
  - split; [exact H1|]. split; [exact H2|]. vm_compute. reflexivity.
Defined.

(** X16. The other way round: [dateOnlyToIsoUTC] followed by
    [isoDateToDateOnly] gives back the day it was given, for every day from
    0100-01-01 to 9999-12-31. *)
Theorem dateOnly_inverse (tz : Luxon.Zone) (now : Z) (d : Z) :
  regularZone tz ->
  epochDay (mkDateTime 100 1 1) <= d <= epochDay (mkDateTime 9999 12 31) ->
  Luxon.isoDateToDateOnly tz now (dateOnlyToIsoUTC d) = Some d.
Proof.
  intros Hr H. destruct (civilFromDays_epochDay d) as [Hc He].
  pose proof (epochDay_year_bounds _ Hc) as B. rewrite He in B.
  assert (100 <= year (civilFromDays d) <= 9999) as Hy.
  { change (epochDay (mkDateTime 100 1 1)) with (daysBeforeYear 100 - 719162) in H.
    change (epochDay (mkDateTime 9999 12 31)) with (daysBeforeYear 10000 - 719162 - 1) in H.
    split.
    - destruct (Z_le_gt_dec 100 (year (civilFromDays d))) as [|Hgt]; [assumption | exfalso].
      pose proof (daysBeforeYear_mono (year (civilFromDays d) + 1) 100 ltac:(lia)). lia.
    - destruct (Z_le_gt_dec (year (civilFromDays d)) 9999) as [|Hgt]; [assumption | exfalso].
      pose proof (daysBeforeYear_mono 10000 (year (civilFromDays d)) ltac:(lia)). lia. }
  unfold dateOnlyToIsoUTC.
  rewrite (isoDateToDateOnly_regular tz now _ (civilFromDays d) Hr)
    by (apply fromISO_toISODate, isValid_iff; split; [assumption | lia]).
  apply isCivil_iff in Hc. rewrite DateUTC_civil by lia.
  revert He. generalize (civilFromDays d). intros [y m dd] He. exact (f_equal Some He).
Qed.

Lemma dateOnly_inverse_witness :
  Luxon.isoDateToDateOnly newYork2025 1000 (dateOnlyToIsoUTC 20157) = Some 20157.
Proof.
  apply (dateOnly_inverse newYork2025 1000 20157 newYork2025_regular).
  vm_compute. split; discriminate.
Defined.

(** ** Confirmed days *)

(** X17. The days of a confirmed booking stay reserved whatever the clock
    says: after a hold was paid, its days are BOOKED and carry no expiry,
    and a later hold request on an overlapping range is refused with 409 and
    changes nothing, at any instant.  The booking id is the one the database
    generated for the hold: no booking carried it before. *)
Theorem confirmed_days_stay_reserved (E : Externals) (now now1 now2 : Z)
  (c k c2 k2 paymentIntentId : string) (customerId : option string)
  (b b2 : Holds.Body.t) (s : State) (id : string) (exp : Z) (s1 : State) :
  Holds.POST E now c k b s = (Holds.Created id exp, s1) ->
  statusOf k s = None ->
  let s2 := Webhook.checkoutSessionCompleted E now1 id paymentIntentId customerId s1 in
  statusOf id s2 = Some CONFIRMED /\
  (exists a e,
     fromISO (Holds.Body.startDate b) = Some a /\
     fromISO (Holds.Body.endDateExclusive b) = Some e /\
     forall d, epochDay a <= d < epochDay e ->
       In (BookedDay.mk id d Day_BOOKED None) (bookedDay (db s2))) /\
  (Holds.HoldRequestSchema E b2 = true -> overlapping b b2 ->
   exists msg, Holds.POST E now2 c2 k2 b2 s2 = (Holds.Rejected 409 msg, s2)).
Proof.
  intros H Hfresh s2.
  destruct (hold_state _ _ _ _ _ _ _ _ _ H)
    as (a & e & Hs & Ha & He & Hlt & -> & -> & Hb & Hn & ->).
  apply statusOf_None in Hfresh.
  set (exp := now + HOLD_TTL_MINUTES E * 60 * 1000) in *.
  set (n := Z.to_nat (epochDay e - epochDay a)) in *.
  set (swept := deleteMany (Holds.expiredHold now) (bookedDay (db s))) in *.
  set (held := heldBooking E c k b (epochDay a) (epochDay e) (db s)) in *.
  assert (Webhook.hasId k held = true) as Hid by apply String.eqb_refl.
  assert (findUnique (Webhook.hasId k) (booking (db s) ++ [held]) = Some held) as Hf
    by (apply find_snoc_fresh; assumption).
  assert (forall d, epochDay a <= d < epochDay e ->
            In (BookedDay.mk k d Day_BOOKED None) (bookedDay (db s2))) as Hrows.
  { intros d Hd. unfold s2. rewrite confirm_run. simpl_state. rewrite Hf. cbv zeta.
    replace (Booking.status held) with HELD by reflexivity.
    cbn [BookingStatus_eqb]. simpl_state.
    unfold updateMany. apply in_map_iff.
    exists (BookedDay.mk k d Day_HELD (Some exp)). split.
    - unfold Webhook.heldDayOf. cbn [BookedDay.bookingId BookedDay.status BookedDayStatus_eqb].
      rewrite String.eqb_refl. reflexivity.
    - apply in_or_app. right. apply holdRows_In. unfold n. lia. }
  assert (policy (db s2) = Some (thePolicy E (db s))) as Hpol.
  { unfold s2. rewrite confirm_run. simpl_state. rewrite Hf. reflexivity. }
  split.
  { unfold s2. apply statusOf_confirm. unfold statusOf. simpl_state.
    fold (Webhook.hasId k). rewrite Hf. discriminate. }
  split; [exists a, e; repeat split; assumption|].
  intros Hs2 (d & Hd1 & Hd2).
  destruct (enumerateDates_cases (Holds.Body.startDate b2) (Holds.Body.endDateExclusive b2))
    as [Hnil | (a2 & e2 & Ha2 & He2 & Hlt2)]; [rewrite Hnil in Hd2; destruct Hd2|].
  destruct (In_enumerateDates d _ _ a e Ha He Hd1) as (z & Hz & Hz1).
  destruct (In_enumerateDates d _ _ a2 e2 Ha2 He2 Hd2) as (z' & Hz' & Hz2).
  assert (z' = z) as -> by congruence.
  apply In_zseq in Hz1.
  rewrite (POST_run E now2 c2 k2 b2 s2 a2 e2 Hs2 Ha2 He2 Hlt2). cbv zeta.
  match goal with
  | |- context [0 <? ?x] => destruct (0 <? x); [eexists; reflexivity|]
  end.
  set (n2 := Z.to_nat (epochDay e2 - epochDay a2)).
  set (exp2 := now2 + HOLD_TTL_MINUTES E * 60 * 1000).
  assert (fst (createManySkipDuplicates (holdRows k2 exp2 (epochDay a2) n2)
                 (deleteMany (Holds.expiredHold now2) (bookedDay (db s2)))) < n2)%nat as Hc.
  { rewrite <- (length_holdRows k2 exp2 (epochDay a2) n2) at 2.
    apply createMany_conflict.
    exists (BookedDay.mk k2 z Day_HELD (Some exp2)). split.
    - apply holdRows_In. now apply In_zseq in Hz2.
    - cbn [BookedDay.day]. apply in_map_iff.
      exists (BookedDay.mk k z Day_BOOKED None). split; [reflexivity|].
      unfold deleteMany. apply filter_In. split; [|reflexivity].
      apply Hrows. unfold n in Hz1. lia. }
  match goal with
  | |- context [(?x =? n2)%nat] => destruct (Nat.eqb_spec x n2) as [Heq | _]; [lia|]
  end.
  exists "Some days are no longer available"%string. f_equal.
  rewrite (thePolicy_existing E (db s2) _ Hpol).
  destruct s2 as [d2 q2]. simpl_state. f_equal.
  destruct d2. simpl_state. unfold set_policy. simpl_state. now rewrite Hpol.
Qed.

Lemma confirmed_days_stay_reserved_witness :
  bookedDay (db sampleConfirmed)
  = [BookedDay.mk "bk_1" 20157 Day_BOOKED None; BookedDay.mk "bk_1" 20158 Day_BOOKED None;
     BookedDay.mk "bk_1" 20159 Day_BOOKED None] /\
  exists msg,
    Holds.POST sampleE 99999999999 "cus_2" "bk_2" (sampleBody "2025-03-12" "2025-03-15")
      sampleConfirmed
    = (Holds.Rejected 409 msg, sampleConfirmed).
Proof.
  split; [vm_compute; reflexivity|].
  apply (proj2 (proj2 (confirmed_days_stay_reserved sampleE 1000 2000 99999999999
                         "cus_1" "bk_1" "cus_2" "bk_2" "pi_1" (Some "cus_stripe_1"%string)
                         (sampleBody "2025-03-10" "2025-03-13")
                         (sampleBody "2025-03-12" "2025-03-15")
                         emptyState "bk_1" 901000 sampleHeld eq_refl eq_refl))).
  - reflexivity.
  - exists "2025-03-12"%string. vm_compute. split; [right; right; left | left]; reflexivity.
Defined.

(** ** The policy row *)

Lemma paymentUpsert_policy pi id st d d' :
  Webhook.paymentUpsert pi id st d = Ok d' -> policy d' = policy d.
Proof.
  unfold Webhook.paymentUpsert. intros H.
  destruct (existsb _ (payment d)); [now injection H as <-|].
  destruct (existsb _ (booking d)); [now injection H as <-|discriminate].
Qed.

(** X18. The policy row is created once, from the environment of the request
    that first needs it, and never changes afterwards: whatever a later
    request or job does, and whatever the environment says by then, the row
    stays as it is. *)
Theorem policy_created_once (E E' : Externals) (d : DB) (s s' : State) (p : Policy.t) :
  (let (p0, d0) := getOrCreateDefaultPolicy E d in
   policy d0 = Some p0 /\ getOrCreateDefaultPolicy E' d0 = (p0, d0)) /\
  (policy (db s) = Some p -> Step E' s s' -> policy (db s') = Some p).
Proof.
  split.
  - rewrite getOrCreate_eq. split; [reflexivity|].
    rewrite getOrCreate_eq.
    rewrite (thePolicy_existing E' _ (thePolicy E d)) by reflexivity.
    destruct d; reflexivity.
  - intros Hp Hstep.
    assert (forall d0, policy d0 = Some p ->
              set_policy (Some (thePolicy E' d0)) d0 = d0) as Hset.
    { intros d0 H0. rewrite (thePolicy_existing E' d0 p H0). rewrite <- H0.
      apply set_policy_same. }
    destruct Hstep as [now c k b s | now req s | now id s | charge id s | now id s
                      | now y m s | now a e s | day reason s | day s | cus id s | r id amt s].
    + destruct (Holds.HoldRequestSchema E' b) eqn:Hs;
        [|destruct (POST_early E' now c k b s (or_introl Hs)) as [msg ->]; assumption].
      destruct (enumerateDates_cases (Holds.Body.startDate b) (Holds.Body.endDateExclusive b))
        as [Hnil | (a & e & Ha & He & Hlt)];
        [destruct (POST_early E' now c k b s (or_intror Hnil)) as [msg ->]; assumption|].
      rewrite (POST_run E' now c k b s a e Hs Ha He Hlt). cbv zeta.
      destruct (0 <? _); [assumption|].
      destruct (_ =? _)%nat; simpl_state; f_equal; now apply thePolicy_existing.
    + unfold Webhook.POST. break; simpl_state; try assumption.
      unfold Webhook.handleEvent.
      match goal with
      | |- context [match ?ev with Stripe.other => _ | _ => _ end] =>
          destruct ev as [bid pid cust | pi | pi |]
      end.
      * rewrite confirm_run. break; simpl_state; f_equal; now apply thePolicy_existing.
      * unfold Webhook.paymentIntentSucceeded.
        destruct (Webhook.truthy (Stripe.metadata_bookingId pi)) as [bid|]; [|exact Hp].
        destruct (Webhook.paymentUpsert pi bid _ (db s)) as [d'|] eqn:Hu; [|exact Hp].
        simpl_state. now rewrite (paymentUpsert_policy _ _ _ _ _ Hu).
      * unfold Webhook.paymentIntentPaymentFailed.
        destruct (Webhook.truthy (Stripe.metadata_bookingId pi)) as [bid|]; [|exact Hp].
        destruct (Webhook.paymentUpsert pi bid _ (db s)) as [d'|] eqn:Hu; [|exact Hp].
        destruct (_ <? 3); simpl_state; now rewrite (paymentUpsert_policy _ _ _ _ _ Hu).
      * assumption.
    + rewrite expire_run. break; simpl_state; assumption.
    + unfold Worker.handleRemainderCharge. break; simpl_state; assumption.
    + unfold Cancel.POST, transaction. break; simpl_state; try assumption.
      all: rewrite getOrCreate_eq in *.
      all: repeat match goal with
             | H : (_, _) = (_, _) |- _ => injection H as <- <-
             end; simpl_state; try (f_equal; now apply thePolicy_existing).
    + unfold Availability.GET. break; assumption.
    + unfold Availability.POST. break; assumption.
    + unfold Blackouts.POST. break; simpl_state; assumption.
    + unfold Blackouts.DELETE. break; simpl_state; assumption.
    + unfold Checkout.POST. break; simpl_state; assumption.
    + unfold AdminRefunds.POST. break; simpl_state; assumption.
Qed.

Lemma policy_created_once_witness :
  policy (db sampleHeld) = Some (Policy.mk Pricing.FIXED 20000 14 48) /\
  policy (db (snd (Holds.POST
                     (mkExternals 15 50000 99999 1 1 None (fun _ => true) (fun ms => ms)
                        (fun ms _ _ => ms) (fun _ _ _ => None) (fun pi _ => pi))
                     5000 "cus_2" "bk_2" (sampleBody "2025-04-01" "2025-04-03") sampleHeld)))
  = Some (Policy.mk Pricing.FIXED 20000 14 48).
Proof.
  split; [reflexivity|].
  apply (proj2 (policy_created_once sampleE
                  (mkExternals 15 50000 99999 1 1 None (fun _ => true) (fun ms => ms)
                     (fun ms _ _ => ms) (fun _ _ _ => None) (fun pi _ => pi))
                  emptyDB sampleHeld _ (Policy.mk Pricing.FIXED 20000 14 48))).
  - reflexivity.
  - apply step_createHold.
Defined.

(** ** Records *)

Lemma ids_upsert (w : Payment.t -> bool) (st : PaymentStatus) (c : Payment.t)
  (l : list Payment.t) :
  exists x, map Payment.stripePaymentIntentId (upsert w (Payment.with_status st) c l)
            = map Payment.stripePaymentIntentId l ++ x.
Proof.
  unfold upsert. destruct (existsb w l).
  - exists []. rewrite map_updateMany by reflexivity. now rewrite app_nil_r.
  - exists [Payment.stripePaymentIntentId c]. now rewrite map_app.
Qed.

Lemma ids_paymentUpsert pi id st d d' :
  Webhook.paymentUpsert pi id st d = Ok d' ->
  booking d' = booking d /\ refund d' = refund d /\
  exists x, map Payment.stripePaymentIntentId (payment d')
            = map Payment.stripePaymentIntentId (payment d) ++ x.
Proof.
  unfold Webhook.paymentUpsert. intros H.
  destruct (existsb _ (payment d)).
  - injection H as <-. simpl_state. repeat split. exists [].
    rewrite map_updateMany by reflexivity. now rewrite app_nil_r.
  - destruct (existsb _ (booking d)); [|discriminate].
    injection H as <-. simpl_state. repeat split. eexists. now rewrite map_app.
Qed.

Lemma grows_refl {A} (l : list A) : exists x, l = l ++ x.
Proof. exists []. now rewrite app_nil_r. Qed.

(** X19. No handler ever deletes a booking, a payment or a refund: whatever
    one request or job does, the ids of the Booking rows and the
    payment-intent ids of the Payment rows are those of before, in order,
    followed by new ones, and so are the Refund rows. *)
Theorem records_are_kept (E : Externals) (s s' : State) :
  Step E s s' ->
  (exists x, map Booking.id (booking (db s')) = map Booking.id (booking (db s)) ++ x) /\
  (exists x, map Payment.stripePaymentIntentId (payment (db s'))
             = map Payment.stripePaymentIntentId (payment (db s)) ++ x) /\
  (exists x, refund (db s') = refund (db s) ++ x).
Proof.
  intros Hstep.
  destruct Hstep as [now c k b s | now req s | now id s | charge id s | now id s
                    | now y m s | now a e s | day reason s | day s | cus id s | r id amt s].
  - destruct (Holds.HoldRequestSchema E b) eqn:Hs;
      [|destruct (POST_early E now c k b s (or_introl Hs)) as [msg ->];
        repeat split; apply grows_refl].
    destruct (enumerateDates_cases (Holds.Body.startDate b) (Holds.Body.endDateExclusive b))
      as [Hnil | (a & e & Ha & He & Hlt)];
      [destruct (POST_early E now c k b s (or_intror Hnil)) as [msg ->];
       repeat split; apply grows_refl|].
    rewrite (POST_run E now c k b s a e Hs Ha He Hlt). cbv zeta.
    destruct (0 <? _); [repeat split; apply grows_refl|].
    destruct (_ =? _)%nat; simpl_state.
    + split; [eexists; now rewrite map_app|]. split; apply grows_refl.
    + repeat split; apply grows_refl.
  - unfold Webhook.POST.
    destruct (Webhook.truthy (Webhook.signature req)); [|repeat split; apply grows_refl].
    destruct (Webhook.truthy (STRIPE_WEBHOOK_SECRET E)); [|repeat split; apply grows_refl].
    destruct (constructEvent E _ _ _) as [ev|]; [|repeat split; apply grows_refl].
    cbn [snd]. destruct ev as [bid pid cust | pi | pi |]; cbn [Webhook.handleEvent].
    + rewrite confirm_run.
      destruct (findUnique _ _) as [bk|]; [|simpl_state; repeat split; apply grows_refl].
      cbv zeta. simpl_state. split; [|split; [apply ids_upsert | apply grows_refl]].
      destruct (BookingStatus_eqb _ _); [apply grows_refl|].
      exists []. rewrite app_nil_r. apply map_updateMany.
      intros r0. unfold Webhook.confirmed. destruct cust; reflexivity.
    + unfold Webhook.paymentIntentSucceeded.
      destruct (Webhook.truthy _); [|repeat split; apply grows_refl].
      destruct (Webhook.paymentUpsert _ _ _ _) as [d'|] eqn:Hu;
        [|repeat split; apply grows_refl].
      destruct (ids_paymentUpsert _ _ _ _ _ Hu) as (Hb & Hr & Hx).
      simpl_state. rewrite Hb, Hr.
      split; [apply grows_refl|]. split; [assumption | apply grows_refl].
    + unfold Webhook.paymentIntentPaymentFailed.
      destruct (Webhook.truthy _); [|repeat split; apply grows_refl].
      destruct (Webhook.paymentUpsert _ _ _ _) as [d'|] eqn:Hu;
        [|repeat split; apply grows_refl].
      destruct (ids_paymentUpsert _ _ _ _ _ Hu) as (Hb & Hr & Hx).
      destruct (_ <? 3); simpl_state; rewrite Hb, Hr;
        (split; [apply grows_refl|]; split; [assumption | apply grows_refl]).
    + repeat split; apply grows_refl.
  - rewrite expire_run.
    destruct (findUnique _ _) as [bk|]; [|repeat split; apply grows_refl].
    destruct (negb _); [repeat split; apply grows_refl|].
    destruct (existsb _ _); [repeat split; apply grows_refl|].
    simpl_state. split; [|split; apply grows_refl].
    exists []. rewrite app_nil_r. now apply map_updateMany.
  - unfold Worker.handleRemainderCharge.
    destruct (findUnique _ _) as [bk|]; [|repeat split; apply grows_refl].
    destruct (negb _); [repeat split; apply grows_refl|]. cbv zeta.
    destruct (existsb _ (findMany _ _)); [repeat split; apply grows_refl|].
    destruct (_ <=? 0); [repeat split; apply grows_refl|].
    destruct (Booking.stripeCustomerId bk); [|repeat split; apply grows_refl].
    destruct charge as [[pid st]|]; [|repeat split; apply grows_refl].
    destruct (existsb _ (payment (db s))); [repeat split; apply grows_refl|].
    simpl_state. split; [apply grows_refl|]. split; [|apply grows_refl].
    eexists. now rewrite map_app.
  - unfold Cancel.POST, transaction.
    destruct (findUnique _ _) as [bk|]; [|repeat split; apply grows_refl].
    destruct (negb _); [repeat split; apply grows_refl|].
    rewrite getOrCreate_eq.
    destruct (_ <? now); [simpl_state; repeat split; apply grows_refl|].
    simpl_state.
    destruct (0 <? _) eqn:Hpos.
    + apply Z.ltb_lt in Hpos.
      match goal with
      | |- context [Cancel.refundLoop E ?i ?rf ?pays 0 ?rows] =>
          destruct (refundLoop_spec E i rf pays 0 rows ltac:(lia)) as (x & H1 & _);
          destruct (Cancel.refundLoop E i rf pays 0 rows) as [refunded refunds]
      end.
      cbn [snd] in H1. subst refunds. simpl_state.
      split; [|split; [apply grows_refl | now exists x]].
      exists []. rewrite app_nil_r. now apply map_updateMany.
    + simpl_state. split; [|split; apply grows_refl].
      exists []. rewrite app_nil_r. now apply map_updateMany.
  - unfold Availability.GET. break; repeat split; apply grows_refl.
  - unfold Availability.POST. break; repeat split; apply grows_refl.
  - unfold Blackouts.POST. break; simpl_state; repeat split; apply grows_refl.
  - unfold Blackouts.DELETE. break; simpl_state; repeat split; apply grows_refl.
  - unfold Checkout.POST. break; simpl_state; repeat split; try apply grows_refl.
    exists []. rewrite app_nil_r. now apply map_updateMany.
  - unfold AdminRefunds.POST. break; simpl_state; repeat split; try apply grows_refl.
    eexists. reflexivity.
Qed.

Lemma records_are_kept_witness :
  let s' := snd (Cancel.POST sampleE 3000 "bk_1" samplePaid) in
  map Booking.id (booking (db s')) = ["bk_1"]%string /\
  map Payment.stripePaymentIntentId (payment (db s')) = ["pi_1"; "pi_2"]%string /\
  exists x, refund (db s') = refund (db samplePaid) ++ x.
Proof.
  cbv zeta. split; [vm_compute; reflexivity|]. split; [vm_compute; reflexivity|].
  apply (records_are_kept sampleE samplePaid). apply step_cancel.
Defined.

(** ** Customers *)

Lemma customerUpsert_found cin newId rows :
  let w := fun r => String.eqb (Customer.email r) (Holds.CustomerInput.email cin) in
  findUnique w (snd (Holds.customerUpsert cin newId rows))
  = Some (fst (Holds.customerUpsert cin newId rows)).
Proof.
  cbv zeta. unfold Holds.customerUpsert.
  destruct (findUnique _ rows) as [x|] eqn:Hf; cbn [fst snd].
  - rewrite find_updateMany by reflexivity. now rewrite Hf.
  - apply find_snoc_fresh; [assumption|]. cbn [Customer.email]. apply String.eqb_refl.
Qed.

Lemma customerUpsert_existing cin newId rows x :
  findUnique (fun r => String.eqb (Customer.email r) (Holds.CustomerInput.email cin)) rows
  = Some x ->
  Customer.id (fst (Holds.customerUpsert cin newId rows)) = Customer.id x /\
  map Customer.id (snd (Holds.customerUpsert cin newId rows)) = map Customer.id rows /\
  map Customer.email (snd (Holds.customerUpsert cin newId rows)) = map Customer.email rows.
Proof.
  intros Hf. unfold Holds.customerUpsert. rewrite Hf. cbn [fst snd Customer.id].
  split; [reflexivity|]. split; now apply map_updateMany.
Qed.

(** X20. A customer is known by the email address: when a second hold is
    made with the email of an earlier one, no Customer row is added, the ids
    and emails of the table stay as they are, and the new booking refers to
    the customer of the earlier one. *)
Theorem returning_customer_is_reused (E : Externals) (now1 now2 : Z) (c1 k1 c2 k2 : string)
  (b1 b2 : Holds.Body.t) (s : State) (id1 id2 : string) (exp1 exp2 : Z) (s1 s2 : State) :
  Holds.POST E now1 c1 k1 b1 s = (Holds.Created id1 exp1, s1) ->
  Holds.POST E now2 c2 k2 b2 s1 = (Holds.Created id2 exp2, s2) ->
  Holds.CustomerInput.email (Holds.Body.customer b2)
  = Holds.CustomerInput.email (Holds.Body.customer b1) ->
  map Customer.id (customer (db s2)) = map Customer.id (customer (db s1)) /\
  map Customer.email (customer (db s2)) = map Customer.email (customer (db s1)) /\
  exists bk1 bk2,
    booking (db s2) = booking (db s) ++ [bk1; bk2] /\
    Booking.id bk1 = id1 /\ Booking.id bk2 = id2 /\
    Booking.customerId bk2 = Booking.customerId bk1.
Proof.
  intros H1 H2 Hemail.
  destruct (hold_state _ _ _ _ _ _ _ _ _ H1)
    as (a1 & e1 & _ & _ & _ & _ & -> & _ & _ & _ & Hs1).
  destruct (hold_state _ _ _ _ _ _ _ _ _ H2)
    as (a2 & e2 & _ & _ & _ & _ & -> & _ & _ & _ & Hs2).
  pose proof (customerUpsert_found (Holds.Body.customer b1) c1 (customer (db s))) as Hf.
  cbv zeta in Hf. rewrite <- Hemail in Hf.
  assert (customer (db s1)
          = snd (Holds.customerUpsert (Holds.Body.customer b1) c1 (customer (db s)))) as Hc1
    by (now rewrite Hs1).
  rewrite <- Hc1 in Hf.
  destruct (customerUpsert_existing (Holds.Body.customer b2) c2 (customer (db s1)) _ Hf)
    as (Hid & Hids & Hemails).
  rewrite Hs2. simpl_state. split; [assumption|]. split; [assumption|].
  exists (heldBooking E c1 k1 b1 (epochDay a1) (epochDay e1) (db s)),
    (heldBooking E c2 k2 b2 (epochDay a2) (epochDay e2) (db s1)).
  split; [rewrite Hs1 at 1; simpl_state; now rewrite <- app_assoc|].
  split; [reflexivity|]. split; [reflexivity|].
  unfold heldBooking. cbn [Booking.customerId]. exact Hid.
Qed.

Lemma returning_customer_is_reused_witness :
  let s2 := snd (Holds.POST sampleE 5000 "cus_2" "bk_2" (sampleBody "2025-04-01" "2025-04-03")
                   sampleHeld) in
  map Customer.id (customer (db s2)) = map Customer.id (customer (db sampleHeld)) /\
  map Customer.id (customer (db sampleHeld)) = ["cus_1"]%string /\
  map Booking.customerId (booking (db s2)) = ["cus_1"; "cus_1"]%string.
Proof.
  cbv zeta.
  destruct (returning_customer_is_reused sampleE 1000 5000 "cus_1" "bk_1" "cus_2" "bk_2"
              (sampleBody "2025-03-10" "2025-03-13") (sampleBody "2025-04-01" "2025-04-03")
              emptyState "bk_1" "bk_2" 901000 905000 sampleHeld
              (snd (Holds.POST sampleE 5000 "cus_2" "bk_2"
                      (sampleBody "2025-04-01" "2025-04-03") sampleHeld))
              eq_refl) as (H1 & _).
  - vm_compute. reflexivity.
  - reflexivity.
  - split; [exact H1|]. split; vm_compute; reflexivity.
Defined.
